(** * ECC CSR generator server: certificate and CSR construction

    A shallow embedding of the Express handlers of the CSR generator
    and of the properties of the configuration text, the validation and
    the scratch-directory handling they implement.

    The repository holds four versions of the server.  The one
    embedded here is the last, with the five endpoints
    [/api/generate-csr], [/api/generate-broker-csr],
    [/api/generate-root-ca], [/api/sign-client-cert] and
    [/api/sign-broker-cert]; the earlier versions hold the first one or
    two of these handlers with the same templates and the same
    [try]/[catch] structure.  The first version passes the subject on
    the command line instead of writing a configuration; its inner
    [try] block is embedded as [ServerJs].

    The handlers shell out to [openssl]; the tool itself is outside the
    program.  What the program decides, and what is modelled here, is
    the text of the configuration files it writes, the command lines it
    runs, the files it creates and removes and the responses it sends.
    The tool, the clock and the I/O errors of the platform are
    parameters of a run ([World]).

    A configuration is a template literal; it is kept as the list of
    the lines of the template, joined with line feeds.  A value
    interpolated in a line may itself hold line feeds: the lines of the
    file are those of the text written ([lines_of]), and the
    properties of a file are stated about them.

    A string is held as the bytes of its UTF-8 encoding, the form in
    which the body of a request arrives and in which files and
    commands leave the program; [trim] removes the white space and the
    line terminators of ECMAScript in that encoding.  The values of
    the body are the JSON primitives; the numbers are the integers
    that a double holds exactly, which print as their decimal
    digits. *)

From Stdlib Require Import ZArith NArith Ascii String.
From Stdlib Require Import DecimalString DecimalN DecimalZ.
From stdpp Require Import gmap strings list.

(** ** JavaScript values and strings *)

(** The line feed of a template literal. *)
Definition nl : string := String (ascii_of_nat 10) "".

Module Js.

(** A number of the body that is an integer of magnitude below 2^53:
    the doubles that hold an integer exactly, and whose text is the
    decimal numeral of that integer.  Numbers with a fraction, and the
    larger ones, which are rounded and from 10^21 on printed with an
    exponent, are not values of the model. *)
Record safe_integer : Type := SafeInteger {
  integer : Z;
  integer_safe : (Z.abs integer <? 2 ^ 53)%Z = true
}.

(** Values a destructured field of [req.body] holds.  [Undefined] is
    an absent key; the others are the JSON primitives. *)
Inductive value : Type :=
| Undefined
| Null
| Bool (b : bool)
| Number (n : safe_integer)
| Str (s : string).

(** ToBoolean, as used by [!x], [x ? a : b], [x && y] and [if (x)]. *)
Definition truthy (v : value) : bool :=
  match v with
  | Undefined | Null => false
  | Bool b => b
  | Number n => negb (integer n =? 0)%Z
  | Str s => negb (String.eqb s "")
  end.

Definition string_of_Z (z : Z) : string :=
  NilEmpty.string_of_int (Z.to_int z).

Definition string_of_N (n : N) : string :=
  NilEmpty.string_of_uint (N.to_uint n).

(** ToString, as applied by a template-literal hole [${x}]. *)
Definition to_string (v : value) : string :=
  match v with
  | Undefined => "undefined"
  | Null => "null"
  | Bool true => "true"
  | Bool false => "false"
  | Number n => string_of_Z (integer n)
  | Str s => s
  end.

(** A destructuring default [{ x = d } = req.body]: the default is
    taken only when the key is absent ([undefined]); [null] stays. *)
Definition default (v d : value) : value :=
  match v with
  | Undefined => d
  | _ => v
  end.

(** The characters [String.prototype.trim] removes are the WhiteSpace
    and LineTerminator code points of ECMA-262.  Six of them are one
    byte in UTF-8: TAB, LF, VT, FF, CR and SP ([Ascii.is_space]).
    U+00A0 is the two bytes C2 A0. *)
Definition space2 (a b : ascii) : bool :=
  (N_of_ascii a =? 194)%N && (N_of_ascii b =? 160)%N.

(** The others are three bytes: U+1680 (E1 9A 80), U+2000 to U+200A
    (E2 80 80 to E2 80 8A), U+2028 and U+2029 (E2 80 A8, E2 80 A9),
    U+202F (E2 80 AF), U+205F (E2 81 9F), U+3000 (E3 80 80) and U+FEFF
    (EF BB BF). *)
Definition space3 (a b c : ascii) : bool :=
  let x := N_of_ascii a in
  let y := N_of_ascii b in
  let z := N_of_ascii c in
  ((x =? 225) && (y =? 154) && (z =? 128))%N
  || ((x =? 226) && (y =? 128)
      && (((128 <=? z) && (z <=? 138)) || (z =? 168) || (z =? 169) || (z =? 175)))%N
  || ((x =? 226) && (y =? 129) && (z =? 159))%N
  || ((x =? 227) && (y =? 128) && (z =? 128))%N
  || ((x =? 239) && (y =? 187) && (z =? 191))%N.

(** The text begins with a character that [trim] removes; [two] and
    [three] recognise the characters of two and of three bytes. *)
Definition begins_with_space (two : ascii -> ascii -> bool)
           (three : ascii -> ascii -> ascii -> bool) (s : string) : bool :=
  match s with
  | EmptyString => false
  | String a s1 =>
      Ascii.is_space a
      || match s1 with
         | EmptyString => false
         | String b s2 =>
             two a b
             || match s2 with
                | EmptyString => false
                | String c _ => three a b c
                end
         end
  end.

(** The text without the characters to remove at its beginning. *)
Fixpoint strip (two : ascii -> ascii -> bool)
         (three : ascii -> ascii -> ascii -> bool) (s : string) : string :=
  match s with
  | EmptyString => s
  | String a s1 =>
      if Ascii.is_space a then strip two three s1
      else
        match s1 with
        | EmptyString => s
        | String b s2 =>
            if two a b then strip two three s2
            else
              match s2 with
              | EmptyString => s
              | String c s3 => if three a b c then strip two three s3 else s
              end
        end
  end.

Definition trim_start (s : string) : string := strip space2 space3 s.

(** The end of the text is read backwards, last byte first. *)
Definition trim_end (s : string) : string :=
  String.rev (strip (fun a b => space2 b a) (fun a b c => space3 c b a) (String.rev s)).

(** [String.prototype.trim].  In well-formed UTF-8 no character ends
    with the bytes of another, so removing these byte sequences at the
    two ends removes the characters. *)
Definition trim (s : string) : string := trim_end (trim_start s).

(** An [Error] object; the handlers only ever read [.message]. *)
Record error : Type := Error { message : string }.

(** The completion of a piece of code that can throw. *)
Inductive completion (A : Type) : Type :=
| Normal (a : A)
| Throw (e : error).
Arguments Normal {A} a.
Arguments Throw {A} e.

End Js.

Import Js.

(** The [onlyif]-style hole [${x ? `K = ${x}` : ''}] of the templates. *)
Definition optional_line (key : string) (v : Js.value) : string :=
  if truthy v then key +:+ to_string v else "".

(** [Array.prototype.join]. *)
Definition join (sep : string) (l : list string) : string :=
  String.concat sep l.

(** ** Subject Alternative Names *)

(** One element of [subjectAltNames]: an object with the keys [type]
    and [value] (either may be absent or hold any primitive). *)
Record SanEntry : Type := mkSan { san_type : Js.value; san_value : Js.value }.

(** The [subjectAltNames] key of the body: absent, [null], or an
    array of entries. *)
Inductive SanField : Type :=
| SanUndefined
| SanNull
| SanArray (entries : list SanEntry).

(** [subjectAltNames = []] in the destructuring pattern. *)
Definition san_default (f : SanField) : SanField :=
  match f with
  | SanUndefined => SanArray []
  | _ => f
  end.

(** [subjectAltNames && subjectAltNames.length > 0]. *)
Definition san_present (f : SanField) : bool :=
  match f with
  | SanArray l => (0 <? length l)%nat
  | _ => false
  end.

(** The filter callback [san => san.value && san.value.trim()],
    reduced to the boolean [filter] takes of it.  A truthy value that
    is not a string has no [trim] method: the call throws. *)
Definition san_keep (san : SanEntry) : completion bool :=
  match san_value san with
  | Str s => Normal (truthy (Str s) && truthy (Str (trim s)))
  | v => if truthy v
         then Throw (Error "san.value.trim is not a function")
         else Normal false
  end.

Fixpoint san_filter (l : list SanEntry) : completion (list SanEntry) :=
  match l with
  | [] => Normal []
  | san :: rest =>
      match san_keep san with
      | Throw e => Throw e
      | Normal b =>
          match san_filter rest with
          | Throw e => Throw e
          | Normal kept => Normal (if b then san :: kept else kept)
          end
      end
  end.

(** The map callback
    [(san, index) => `${san.type}.${index + 1} = ${san.value.trim()}`]. *)
Definition san_render (san : SanEntry) (index : nat) : completion string :=
  match san_value san with
  | Str s =>
      Normal (to_string (san_type san) +:+ "." +:+
              string_of_N (N.of_nat (index + 1)) +:+ " = " +:+ trim s)
  | Undefined =>
      Throw (Error "Cannot read properties of undefined (reading 'trim')")
  | Null => Throw (Error "Cannot read properties of null (reading 'trim')")
  | _ => Throw (Error "san.value.trim is not a function")
  end.

Fixpoint san_map (l : list SanEntry) (index : nat) : completion (list string) :=
  match l with
  | [] => Normal []
  | san :: rest =>
      match san_render san index with
      | Throw e => Throw e
      | Normal line =>
          match san_map rest (S index) with
          | Throw e => Throw e
          | Normal lines => Normal (line :: lines)
          end
      end
  end.

(** The array [subjectAltNames.filter(...).map(...)], before [join]. *)
Definition sanEntries_list (l : list SanEntry) : completion (list string) :=
  match san_filter l with
  | Throw e => Throw e
  | Normal kept => san_map kept 0
  end.

(** [const sanEntries = subjectAltNames.filter(...).map(...).join('\n')]. *)
Definition sanEntries (l : list SanEntry) : completion string :=
  match sanEntries_list l with
  | Throw e => Throw e
  | Normal lines => Normal (join nl lines)
  end.

(** The value of [sanSection] after the [if] block that builds it. *)
Definition sanSection (f : SanField) : completion string :=
  match f with
  | SanArray l =>
      if san_present f then
        match sanEntries l with
        | Throw e => Throw e
        | Normal entries =>
            if truthy (Str entries)
            then Normal (nl +:+ "[ alt_names ]" +:+ nl +:+ entries)
            else Normal ""
        end
      else Normal ""
  | _ => Normal ""
  end.

(** The hole
    [${subjectAltNames && subjectAltNames.length > 0
        ? 'subjectAltName = @alt_names' : ''}]. *)
Definition san_clause (f : SanField) : string :=
  if san_present f then "subjectAltName = @alt_names" else "".


(** ** The effects of a handler *)

(** Paths are the strings [path.join] returns; the segments joined
    here hold no separator and no dot segment, so joining is
    concatenation with ["/"]. *)
Definition path_join (segments : list string) : string := join "/" segments.

(** The JSON bodies the handlers send.  A success object also holds
    [success: true]. *)
Inductive Payload : Type :=
| ErrorOnly (error : string)
| ErrorMessage (error message : string)
| CsrSuccess (privateKey publicKey csr csrDetails : string)
| BrokerCsrSuccess (privateKey publicKey csr csrDetails type : string)
| CaSuccess (caKey caCert certDetails : string)
| SignSuccess (signedCert certDetails : string).

(** [res.status(code).json(body)]; [res.json(body)] is status 200. *)
Record Response : Type := Json { status : nat; payload : Payload }.

(** The calls a handler makes on its environment.  The index is the
    type of the value the call returns; the calls of [fs] and
    [execAsync] that can throw return a completion. *)
Inductive Eff : Type -> Type :=
| DateNow : Eff N
| ExecAsync (cmd : string) : Eff (completion string)
| MkdirSync (p : string) : Eff (completion unit)
| WriteFileSync (p content : string) : Eff (completion unit)
| ReadFileSync (p : string) : Eff (completion string)
| UnlinkSync (p : string) : Eff (completion unit)
| RmdirSync (p : string) : Eff (completion unit)
| ExistsSync (p : string) : Eff bool
| Send (r : Response) : Eff unit
| ConsoleError (label : string) (e : error) : Eff unit.

(** Handler code: a tree of calls ending in a value or a thrown error. *)
Inductive Prog (A : Type) : Type :=
| Ret (a : A)
| Fail (e : error)
| Vis {X : Type} (op : Eff X) (k : X -> Prog A).
Arguments Ret {A} a.
Arguments Fail {A} e.
Arguments Vis {A X} op k.

Fixpoint bind {A B : Type} (p : Prog A) (f : A -> Prog B) : Prog B :=
  match p with
  | Ret a => f a
  | Fail e => Fail e
  | Vis op k => Vis op (fun x => bind (k x) f)
  end.

(** [try { p } catch (error) { h error }]. *)
Fixpoint try_catch {A : Type} (p : Prog A) (h : error -> Prog A) : Prog A :=
  match p with
  | Ret a => Ret a
  | Fail e => h e
  | Vis op k => Vis op (fun x => try_catch (k x) h)
  end.

Definition call {X : Type} (op : Eff X) : Prog X := Vis op Ret.

Definition call_throwing {X : Type} (op : Eff (completion X)) : Prog X :=
  Vis op (fun c => match c with Normal x => Ret x | Throw e => Fail e end).

Notation "x <- p ;; q" := (bind p (fun x => q))
  (at level 100, p at next level, right associativity).
Notation "p ;; q" := (bind p (fun _ => q))
  (at level 100, right associativity).

Definition execAsync (cmd : string) : Prog string := call_throwing (ExecAsync cmd).
Definition mkdirSync (p : string) : Prog unit := call_throwing (MkdirSync p).
Definition writeFileSync (p content : string) : Prog unit :=
  call_throwing (WriteFileSync p content).
Definition readFileSync (p : string) : Prog string := call_throwing (ReadFileSync p).
Definition unlinkSync (p : string) : Prog unit := call_throwing (UnlinkSync p).
Definition rmdirSync (p : string) : Prog unit := call_throwing (RmdirSync p).
Definition existsSync (p : string) : Prog bool := call (ExistsSync p).
Definition res_status_json (code : nat) (body : Payload) : Prog unit :=
  call (Send (Json code body)).
Definition res_json (body : Payload) : Prog unit := call (Send (Json 200 body)).
Definition console_error (label : string) (e : error) : Prog unit :=
  call (ConsoleError label e).

(** [if (fs.existsSync(p)) fs.unlinkSync(p);] *)
Definition unlink_if_exists (p : string) : Prog unit :=
  b <- existsSync p ;; if b then unlinkSync p else Ret tt.

(** [if (fs.existsSync(p)) fs.rmdirSync(p);] *)
Definition rmdir_if_exists (p : string) : Prog unit :=
  b <- existsSync p ;; if b then rmdirSync p else Ret tt.

(** ** The environment *)

(** The files and directories on disk. *)
Record Fs : Type := mkFs { files : gmap string string; dirs : gset string }.

(** The calls on the disk and the child processes, as recorded. *)
Inductive Event : Type :=
| EvExec (cmd : string)
| EvMkdir (p : string)
| EvWrite (p content : string)
| EvRead (p : string)
| EvUnlink (p : string)
| EvRmdir (p : string).

(** Everything a run leaves behind: the disk, the responses sent on
    [res], the console and the record of the calls made. *)
Record State : Type := mkState {
  disk : Fs;
  sent : list Response;
  console : list (string * error);
  trace : list Event
}.

Inductive FsCall : Type :=
| CallMkdir (p : string)
| CallWrite (p : string)
| CallRead (p : string)
| CallUnlink (p : string)
| CallRmdir (p : string).

(** What the program does not decide: the clock, what a child process
    prints, whether it fails and what it does to the disk, and the I/O
    errors of the platform (a full disk, a missing parent directory,
    a permission).  Each may depend on all that happened before, given
    as the record of the calls made so far. *)
Record World : Type := mkWorld {
  date_now : list Event -> N;
  exec : list Event -> string -> Fs -> completion string * Fs;
  fs_fault : list Event -> FsCall -> Fs -> option error
}.

(** A file is directly or indirectly inside directory [d]. *)
Definition inside (d p : string) : bool := String.prefix (d +:+ "/") p.

Definition dir_empty (d : string) (f : Fs) : bool :=
  forallb (fun p => negb (inside d p)) (elements (dom (files f)))
  && forallb (fun p => negb (inside d p)) (elements (dirs f)).

Definition enoent (call p : string) : error :=
  Error ("ENOENT: no such file or directory, " +:+ call +:+ " '" +:+ p +:+ "'").

Definition enotempty (p : string) : error :=
  Error ("ENOTEMPTY: directory not empty, rmdir '" +:+ p +:+ "'").

Definition log_event (ev : Event) (s : State) : State :=
  mkState (disk s) (sent s) (console s) (trace s ++ [ev]).

Definition set_disk (f : Fs) (s : State) : State :=
  mkState f (sent s) (console s) (trace s).

(** One call against the environment. *)
Definition perform (w : World) {X : Type} (op : Eff X) (s : State) : X * State :=
  match op in Eff X return X * State with
  | DateNow => (date_now w (trace s), s)
  | ExecAsync cmd =>
      let '(r, f) := exec w (trace s) cmd (disk s) in
      (r, set_disk f (log_event (EvExec cmd) s))
  | MkdirSync p =>
      (* { recursive: true }: an existing directory is not an error *)
      match fs_fault w (trace s) (CallMkdir p) (disk s) with
      | Some e => (Throw e, log_event (EvMkdir p) s)
      | None =>
          (Normal tt,
           set_disk (mkFs (files (disk s)) ({[p]} ∪ dirs (disk s)))
                    (log_event (EvMkdir p) s))
      end
  | WriteFileSync p content =>
      match fs_fault w (trace s) (CallWrite p) (disk s) with
      | Some e => (Throw e, log_event (EvWrite p content) s)
      | None =>
          (Normal tt,
           set_disk (mkFs (<[p := content]> (files (disk s))) (dirs (disk s)))
                    (log_event (EvWrite p content) s))
      end
  | ReadFileSync p =>
      match fs_fault w (trace s) (CallRead p) (disk s) with
      | Some e => (Throw e, log_event (EvRead p) s)
      | None =>
          match files (disk s) !! p with
          | Some content => (Normal content, log_event (EvRead p) s)
          | None => (Throw (enoent "open" p), log_event (EvRead p) s)
          end
      end
  | UnlinkSync p =>
      match fs_fault w (trace s) (CallUnlink p) (disk s) with
      | Some e => (Throw e, log_event (EvUnlink p) s)
      | None =>
          match files (disk s) !! p with
          | Some _ =>
              (Normal tt,
               set_disk (mkFs (delete p (files (disk s))) (dirs (disk s)))
                        (log_event (EvUnlink p) s))
          | None => (Throw (enoent "unlink" p), log_event (EvUnlink p) s)
          end
      end
  | RmdirSync p =>
      match fs_fault w (trace s) (CallRmdir p) (disk s) with
      | Some e => (Throw e, log_event (EvRmdir p) s)
      | None =>
          if negb (bool_decide (p ∈ dirs (disk s)))
          then (Throw (enoent "rmdir" p), log_event (EvRmdir p) s)
          else if dir_empty p (disk s)
          then (Normal tt,
                set_disk (mkFs (files (disk s)) (dirs (disk s) ∖ {[p]}))
                         (log_event (EvRmdir p) s))
          else (Throw (enotempty p), log_event (EvRmdir p) s)
      end
  | ExistsSync p =>
      (bool_decide (is_Some (files (disk s) !! p))
       || bool_decide (p ∈ dirs (disk s)), s)
  | Send r => (tt, mkState (disk s) (sent s ++ [r]) (console s) (trace s))
  | ConsoleError label e =>
      (tt, mkState (disk s) (sent s) (console s ++ [(label, e)]) (trace s))
  end.

(** A request handled from start to end with nothing else running. *)
Fixpoint run (w : World) {A : Type} (p : Prog A) (s : State) : completion A * State :=
  match p with
  | Ret a => (Normal a, s)
  | Fail e => (Throw e, s)
  | Vis op k => let '(x, s') := perform w op s in run w (k x) s'
  end.

(** ** The request body *)

(** [req.body] after [express.json()]: the keys the handlers
    destructure.  An absent key is [Undefined]. *)
Module Req.
Record Body : Type := mkBody {
  curve : Js.value;
  commonName : Js.value;
  serialNumber : Js.value;
  organization : Js.value;
  organizationalUnit : Js.value;
  country : Js.value;
  state : Js.value;
  locality : Js.value;
  email : Js.value;
  subjectAltNames : SanField;
  validityDays : Js.value;
  csr : Js.value;
  caKey : Js.value;
  caCert : Js.value
}.

(** The body [{}]. *)
Definition empty : Body :=
  mkBody Undefined Undefined Undefined Undefined Undefined Undefined
         Undefined Undefined Undefined SanUndefined Undefined
         Undefined Undefined Undefined.
End Req.

(** The double quote. *)
Definition dquote : string := String (ascii_of_nat 34) EmptyString.

(** The [TypeError] of [fs] for data that is not a string;
    [received] is how Node describes the value it got. *)
Definition invalid_data (received : string) : error :=
  Error ("The " +:+ dquote +:+ "data" +:+ dquote +:+
         " argument must be of type string or an instance of Buffer, TypedArray, or DataView. Received " +:+
         received).

(** [fs.writeFileSync(p, v)] for a value of the body: data that is
    not a string is rejected (Node 14 and later). *)
Definition write_value (p : string) (v : Js.value) : Prog unit :=
  match v with
  | Str s => writeFileSync p s
  | Undefined => Fail (invalid_data "undefined")
  | Null => Fail (invalid_data "null")
  | Bool b => Fail (invalid_data ("type boolean (" +:+ to_string v +:+ ")"))
  | Number n => Fail (invalid_data ("type number (" +:+ to_string v +:+ ")"))
  end.

(** A completion computed without effects, inside handler code. *)
Definition lift {A : Type} (c : completion A) : Prog A :=
  match c with
  | Normal a => Ret a
  | Throw e => Fail e
  end.

(** ** POST /api/generate-csr *)

Module GenerateCsr.

Definition curve (b : Req.Body) : Js.value :=
  Js.default (Req.curve b) (Str "prime256v1").

(** [!commonName || !organization || !country || !state || !locality] *)
Definition missing_required (b : Req.Body) : bool :=
  negb (truthy (Req.commonName b)) || negb (truthy (Req.organization b))
  || negb (truthy (Req.country b)) || negb (truthy (Req.state b))
  || negb (truthy (Req.locality b)).

Definition tempDir (dirname : string) (now : N) : string :=
  path_join [dirname; "temp"; string_of_N now].
Definition privateKeyPath (tempDir : string) : string :=
  path_join [tempDir; "private-key.pem"].
Definition csrPath (tempDir : string) : string := path_join [tempDir; "csr.pem"].
Definition configPath (tempDir : string) : string :=
  path_join [tempDir; "openssl.cnf"].

(** The lines of the [[ req_distinguished_name ]] section. *)
Definition distinguished_name (b : Req.Body) : list string :=
  [ "C  = " +:+ to_string (Req.country b);
    "ST = " +:+ to_string (Req.state b);
    "L  = " +:+ to_string (Req.locality b);
    "O  = " +:+ to_string (Req.organization b);
    optional_line "OU = " (Req.organizationalUnit b);
    "CN = " +:+ to_string (Req.commonName b);
    optional_line "serialNumber = " (Req.serialNumber b);
    optional_line "emailAddress = " (Req.email b) ].

(** The lines of the [[ v3_req ]] section. *)
Definition v3_req : list string :=
  [ "keyUsage = critical, digitalSignature, keyAgreement";
    "extendedKeyUsage = clientAuth" ].

Definition opensslConfig_lines (b : Req.Body) : list string :=
  [ "";
    "[ req ]";
    "default_bits       = 2048";
    "distinguished_name = req_distinguished_name";
    "req_extensions     = v3_req";
    "prompt             = no";
    "";
    "[ req_distinguished_name ]" ]
  ++ distinguished_name b ++
  [ "";
    "[ v3_req ]" ]
  ++ v3_req ++
  [ "" ].

Definition opensslConfig (b : Req.Body) : string :=
  join nl (opensslConfig_lines b).

(** The statements of the inner [try] block up to [res.json]; the
    value is the object passed to [res.json]. *)
Definition work (b : Req.Body) (tempDir : string) : Prog Payload :=
  execAsync ("openssl ecparam -name " +:+ to_string (curve b) +:+
             " -genkey -noout -out " +:+ privateKeyPath tempDir) ;;
  writeFileSync (configPath tempDir) (opensslConfig b) ;;
  execAsync ("openssl req -new -key " +:+ privateKeyPath tempDir +:+
             " -out " +:+ csrPath tempDir +:+
             " -config " +:+ configPath tempDir) ;;
  privateKey <- readFileSync (privateKeyPath tempDir) ;;
  csr <- readFileSync (csrPath tempDir) ;;
  publicKey <- execAsync ("openssl ec -in " +:+ privateKeyPath tempDir +:+
                          " -pubout 2>/dev/null") ;;
  csrText <- execAsync ("openssl req -text -noout -in " +:+ csrPath tempDir) ;;
  unlinkSync (privateKeyPath tempDir) ;;
  unlinkSync (csrPath tempDir) ;;
  unlinkSync (configPath tempDir) ;;
  rmdirSync tempDir ;;
  Ret (CsrSuccess privateKey publicKey csr csrText).

(** The body of the [try] inside the inner [catch]. *)
Definition cleanup (tempDir : string) : Prog unit :=
  unlink_if_exists (privateKeyPath tempDir) ;;
  unlink_if_exists (csrPath tempDir) ;;
  unlink_if_exists (configPath tempDir) ;;
  rmdir_if_exists tempDir.

Definition failure_label : string := "Failed to generate CSR".

Definition handler (dirname : string) (b : Req.Body) : Prog unit :=
  try_catch
    (if missing_required b then
       res_status_json 400 (ErrorOnly "Missing required fields")
     else
       now <- call DateNow ;;
       let tempDir := tempDir dirname now in
       mkdirSync tempDir ;;
       try_catch
         (body <- work b tempDir ;; res_json body)
         (fun error =>
            try_catch (cleanup tempDir) (fun e => Ret tt) ;;
            Fail error))
    (fun error =>
       console_error "Error:" error ;;
       res_status_json 500 (ErrorMessage failure_label (message error))).

End GenerateCsr.

(** ** POST /api/generate-broker-csr *)

Module GenerateBrokerCsr.

Definition curve (b : Req.Body) : Js.value :=
  Js.default (Req.curve b) (Str "prime256v1").

Definition subjectAltNames (b : Req.Body) : SanField :=
  san_default (Req.subjectAltNames b).

Definition tempDir (dirname : string) (now : N) : string :=
  path_join [dirname; "temp"; "broker-" +:+ string_of_N now].
Definition privateKeyPath (tempDir : string) : string :=
  path_join [tempDir; "broker-private-key.pem"].
Definition csrPath (tempDir : string) : string :=
  path_join [tempDir; "broker-csr.pem"].
Definition configPath (tempDir : string) : string :=
  path_join [tempDir; "broker-openssl.cnf"].

Definition distinguished_name (b : Req.Body) : list string :=
  [ optional_line "C  = " (Req.country b);
    optional_line "ST = " (Req.state b);
    optional_line "L  = " (Req.locality b);
    optional_line "O  = " (Req.organization b);
    optional_line "OU = " (Req.organizationalUnit b);
    "CN = " +:+ to_string (Req.commonName b);
    optional_line "emailAddress = " (Req.email b) ].

(** The lines of the [[ v3_req ]] section and what follows it;
    [section] is the value of [sanSection]. *)
Definition v3_req (b : Req.Body) (section : string) : list string :=
  [ "keyUsage = critical, digitalSignature, keyEncipherment, keyAgreement";
    "extendedKeyUsage = serverAuth";
    san_clause (subjectAltNames b);
    section ].

Definition opensslConfig_lines (b : Req.Body) (section : string) : list string :=
  [ "";
    "[ req ]";
    "default_bits       = 2048";
    "distinguished_name = req_distinguished_name";
    "req_extensions     = v3_req";
    "prompt             = no";
    "";
    "[ req_distinguished_name ]" ]
  ++ distinguished_name b ++
  [ "";
    "[ v3_req ]" ]
  ++ v3_req b section ++
  [ "" ].

Definition opensslConfig (b : Req.Body) (section : string) : string :=
  join nl (opensslConfig_lines b section).

Definition work (b : Req.Body) (tempDir : string) : Prog Payload :=
  execAsync ("openssl ecparam -name " +:+ to_string (curve b) +:+
             " -genkey -noout -out " +:+ privateKeyPath tempDir) ;;
  section <- lift (sanSection (subjectAltNames b)) ;;
  writeFileSync (configPath tempDir) (opensslConfig b section) ;;
  execAsync ("openssl req -new -key " +:+ privateKeyPath tempDir +:+
             " -out " +:+ csrPath tempDir +:+
             " -config " +:+ configPath tempDir) ;;
  privateKey <- readFileSync (privateKeyPath tempDir) ;;
  csr <- readFileSync (csrPath tempDir) ;;
  publicKey <- execAsync ("openssl ec -in " +:+ privateKeyPath tempDir +:+
                          " -pubout 2>/dev/null") ;;
  csrText <- execAsync ("openssl req -text -noout -in " +:+ csrPath tempDir) ;;
  unlinkSync (privateKeyPath tempDir) ;;
  unlinkSync (csrPath tempDir) ;;
  unlinkSync (configPath tempDir) ;;
  rmdirSync tempDir ;;
  Ret (BrokerCsrSuccess privateKey publicKey csr csrText "broker").

Definition cleanup (tempDir : string) : Prog unit :=
  unlink_if_exists (privateKeyPath tempDir) ;;
  unlink_if_exists (csrPath tempDir) ;;
  unlink_if_exists (configPath tempDir) ;;
  rmdir_if_exists tempDir.

Definition failure_label : string := "Failed to generate broker CSR".

Definition handler (dirname : string) (b : Req.Body) : Prog unit :=
  try_catch
    (if negb (truthy (Req.commonName b)) then
       res_status_json 400
         (ErrorOnly "Common Name (CN) is required for broker certificate")
     else
       now <- call DateNow ;;
       let tempDir := tempDir dirname now in
       mkdirSync tempDir ;;
       try_catch
         (body <- work b tempDir ;; res_json body)
         (fun error =>
            try_catch (cleanup tempDir) (fun e => Ret tt) ;;
            Fail error))
    (fun error =>
       console_error "Error generating broker CSR:" error ;;
       res_status_json 500 (ErrorMessage failure_label (message error))).

End GenerateBrokerCsr.

(** ** POST /api/generate-root-ca *)

Module GenerateRootCa.

Definition curve (b : Req.Body) : Js.value :=
  Js.default (Req.curve b) (Str "prime256v1").
Definition commonName (b : Req.Body) : Js.value :=
  Js.default (Req.commonName b) (Str "MQTT Root CA").
Definition organization (b : Req.Body) : Js.value :=
  Js.default (Req.organization b) (Str "MQTT Organization").
Definition country (b : Req.Body) : Js.value :=
  Js.default (Req.country b) (Str "US").
Definition state (b : Req.Body) : Js.value :=
  Js.default (Req.state b) (Str "California").
Definition locality (b : Req.Body) : Js.value :=
  Js.default (Req.locality b) (Str "San Francisco").
Definition validityDays (b : Req.Body) : Js.value :=
  Js.default (Req.validityDays b) (Number (SafeInteger 3650 eq_refl)).

Definition tempDir (dirname : string) (now : N) : string :=
  path_join [dirname; "temp"; "ca-" +:+ string_of_N now].
Definition caKeyPath (tempDir : string) : string :=
  path_join [tempDir; "ca-key.pem"].
Definition caCertPath (tempDir : string) : string :=
  path_join [tempDir; "ca-cert.pem"].
Definition configPath (tempDir : string) : string :=
  path_join [tempDir; "ca-openssl.cnf"].

Definition distinguished_name (b : Req.Body) : list string :=
  [ "C  = " +:+ to_string (country b);
    "ST = " +:+ to_string (state b);
    "L  = " +:+ to_string (locality b);
    "O  = " +:+ to_string (organization b);
    optional_line "OU = " (Req.organizationalUnit b);
    "CN = " +:+ to_string (commonName b);
    optional_line "emailAddress = " (Req.email b) ].

(** The lines of the [[ v3_ca ]] section. *)
Definition v3_ca : list string :=
  [ "subjectKeyIdentifier = hash";
    "authorityKeyIdentifier = keyid:always,issuer";
    "basicConstraints = critical,CA:true";
    "keyUsage = critical, digitalSignature, cRLSign, keyCertSign" ].

Definition opensslConfig_lines (b : Req.Body) : list string :=
  [ "";
    "[ req ]";
    "default_bits       = 2048";
    "distinguished_name = req_distinguished_name";
    "x509_extensions    = v3_ca";
    "prompt             = no";
    "";
    "[ req_distinguished_name ]" ]
  ++ distinguished_name b ++
  [ "";
    "[ v3_ca ]" ]
  ++ v3_ca ++
  [ "" ].

Definition opensslConfig (b : Req.Body) : string :=
  join nl (opensslConfig_lines b).

(** The command that issues the self-signed certificate. *)
Definition issue_command (b : Req.Body) (tempDir : string) : string :=
  "openssl req -new -x509 -days " +:+ to_string (validityDays b) +:+
  " -key " +:+ caKeyPath tempDir +:+ " -out " +:+ caCertPath tempDir +:+
  " -config " +:+ configPath tempDir.

Definition work (b : Req.Body) (tempDir : string) : Prog Payload :=
  execAsync ("openssl ecparam -name " +:+ to_string (curve b) +:+
             " -genkey -noout -out " +:+ caKeyPath tempDir) ;;
  writeFileSync (configPath tempDir) (opensslConfig b) ;;
  execAsync (issue_command b tempDir) ;;
  caKey <- readFileSync (caKeyPath tempDir) ;;
  caCert <- readFileSync (caCertPath tempDir) ;;
  certText <- execAsync ("openssl x509 -in " +:+ caCertPath tempDir +:+
                         " -text -noout") ;;
  unlinkSync (caKeyPath tempDir) ;;
  unlinkSync (caCertPath tempDir) ;;
  unlinkSync (configPath tempDir) ;;
  rmdirSync tempDir ;;
  Ret (CaSuccess caKey caCert certText).

Definition cleanup (tempDir : string) : Prog unit :=
  unlink_if_exists (caKeyPath tempDir) ;;
  unlink_if_exists (caCertPath tempDir) ;;
  unlink_if_exists (configPath tempDir) ;;
  rmdir_if_exists tempDir.

Definition failure_label : string := "Failed to generate Root CA".

Definition handler (dirname : string) (b : Req.Body) : Prog unit :=
  try_catch
    (now <- call DateNow ;;
     let tempDir := tempDir dirname now in
     mkdirSync tempDir ;;
     try_catch
       (body <- work b tempDir ;; res_json body)
       (fun error =>
          try_catch (cleanup tempDir) (fun e => Ret tt) ;;
          Fail error))
    (fun error =>
       console_error "Error generating Root CA:" error ;;
       res_status_json 500 (ErrorMessage failure_label (message error))).

End GenerateRootCa.

(** ** POST /api/sign-client-cert *)

Module SignClientCert.

Definition validityDays (b : Req.Body) : Js.value :=
  Js.default (Req.validityDays b) (Number (SafeInteger 365 eq_refl)).

(** [!csr || !caKey || !caCert] *)
Definition missing_required (b : Req.Body) : bool :=
  negb (truthy (Req.csr b)) || negb (truthy (Req.caKey b))
  || negb (truthy (Req.caCert b)).

Definition tempDir (dirname : string) (now : N) : string :=
  path_join [dirname; "temp"; "sign-client-" +:+ string_of_N now].
Definition csrPath (tempDir : string) : string := path_join [tempDir; "client.csr"].
Definition caKeyPath (tempDir : string) : string := path_join [tempDir; "ca-key.pem"].
Definition caCertPath (tempDir : string) : string :=
  path_join [tempDir; "ca-cert.pem"].
Definition certPath (tempDir : string) : string :=
  path_join [tempDir; "client-cert.pem"].
Definition configPath (tempDir : string) : string := path_join [tempDir; "sign.cnf"].
Definition serialPath (tempDir : string) : string :=
  path_join [tempDir; "ca-cert.srl"].

(** The lines of the [[ v3_client ]] section. *)
Definition v3_client : list string :=
  [ "basicConstraints = CA:FALSE";
    "subjectKeyIdentifier = hash";
    "authorityKeyIdentifier = keyid,issuer";
    "keyUsage = critical, digitalSignature, keyAgreement";
    "extendedKeyUsage = clientAuth" ].

Definition signingConfig_lines : list string :=
  [ "";
    "[ v3_client ]" ]
  ++ v3_client ++
  [ "" ].

Definition signingConfig : string := join nl signingConfig_lines.

Definition sign_command (b : Req.Body) (tempDir : string) : string :=
  "openssl x509 -req -in " +:+ csrPath tempDir +:+
  " -CA " +:+ caCertPath tempDir +:+ " -CAkey " +:+ caKeyPath tempDir +:+
  " -CAcreateserial -CAserial " +:+ serialPath tempDir +:+
  " -out " +:+ certPath tempDir +:+
  " -days " +:+ to_string (validityDays b) +:+
  " -extfile " +:+ configPath tempDir +:+ " -extensions v3_client".

Definition work (b : Req.Body) (tempDir : string) : Prog Payload :=
  write_value (csrPath tempDir) (Req.csr b) ;;
  write_value (caKeyPath tempDir) (Req.caKey b) ;;
  write_value (caCertPath tempDir) (Req.caCert b) ;;
  writeFileSync (configPath tempDir) signingConfig ;;
  execAsync (sign_command b tempDir) ;;
  signedCert <- readFileSync (certPath tempDir) ;;
  certText <- execAsync ("openssl x509 -in " +:+ certPath tempDir +:+
                         " -text -noout") ;;
  unlinkSync (csrPath tempDir) ;;
  unlinkSync (caKeyPath tempDir) ;;
  unlinkSync (caCertPath tempDir) ;;
  unlinkSync (certPath tempDir) ;;
  unlinkSync (configPath tempDir) ;;
  unlink_if_exists (serialPath tempDir) ;;
  rmdirSync tempDir ;;
  Ret (SignSuccess signedCert certText).

Definition cleanup (tempDir : string) : Prog unit :=
  unlink_if_exists (csrPath tempDir) ;;
  unlink_if_exists (caKeyPath tempDir) ;;
  unlink_if_exists (caCertPath tempDir) ;;
  unlink_if_exists (certPath tempDir) ;;
  unlink_if_exists (configPath tempDir) ;;
  rmdir_if_exists tempDir.

Definition failure_label : string := "Failed to sign client certificate".

Definition handler (dirname : string) (b : Req.Body) : Prog unit :=
  try_catch
    (if missing_required b then
       res_status_json 400
         (ErrorOnly "CSR, CA Key, and CA Certificate are required")
     else
       now <- call DateNow ;;
       let tempDir := tempDir dirname now in
       mkdirSync tempDir ;;
       try_catch
         (body <- work b tempDir ;; res_json body)
         (fun error =>
            try_catch (cleanup tempDir) (fun e => Ret tt) ;;
            Fail error))
    (fun error =>
       console_error "Error signing client certificate:" error ;;
       res_status_json 500 (ErrorMessage failure_label (message error))).

End SignClientCert.

(** ** POST /api/sign-broker-cert *)

Module SignBrokerCert.

Definition validityDays (b : Req.Body) : Js.value :=
  Js.default (Req.validityDays b) (Number (SafeInteger 365 eq_refl)).

Definition subjectAltNames (b : Req.Body) : SanField :=
  san_default (Req.subjectAltNames b).

Definition missing_required (b : Req.Body) : bool :=
  negb (truthy (Req.csr b)) || negb (truthy (Req.caKey b))
  || negb (truthy (Req.caCert b)).

Definition tempDir (dirname : string) (now : N) : string :=
  path_join [dirname; "temp"; "sign-broker-" +:+ string_of_N now].
Definition csrPath (tempDir : string) : string := path_join [tempDir; "broker.csr"].
Definition caKeyPath (tempDir : string) : string := path_join [tempDir; "ca-key.pem"].
Definition caCertPath (tempDir : string) : string :=
  path_join [tempDir; "ca-cert.pem"].
Definition certPath (tempDir : string) : string :=
  path_join [tempDir; "broker-cert.pem"].
Definition configPath (tempDir : string) : string := path_join [tempDir; "sign.cnf"].
Definition serialPath (tempDir : string) : string :=
  path_join [tempDir; "ca-cert.srl"].

(** The fixed lines of the [[ v3_broker ]] section. *)
Definition v3_broker : list string :=
  [ "basicConstraints = CA:FALSE";
    "subjectKeyIdentifier = hash";
    "authorityKeyIdentifier = keyid,issuer";
    "keyUsage = critical, digitalSignature, keyEncipherment, keyAgreement";
    "extendedKeyUsage = serverAuth" ].

Definition signingConfig_lines (b : Req.Body) (section : string) : list string :=
  [ "";
    "[ v3_broker ]" ]
  ++ v3_broker ++
  [ san_clause (subjectAltNames b);
    section;
    "" ].

Definition signingConfig (b : Req.Body) (section : string) : string :=
  join nl (signingConfig_lines b section).

Definition sign_command (b : Req.Body) (tempDir : string) : string :=
  "openssl x509 -req -in " +:+ csrPath tempDir +:+
  " -CA " +:+ caCertPath tempDir +:+ " -CAkey " +:+ caKeyPath tempDir +:+
  " -CAcreateserial -CAserial " +:+ serialPath tempDir +:+
  " -out " +:+ certPath tempDir +:+
  " -days " +:+ to_string (validityDays b) +:+
  " -extfile " +:+ configPath tempDir +:+ " -extensions v3_broker".

Definition work (b : Req.Body) (tempDir : string) : Prog Payload :=
  write_value (csrPath tempDir) (Req.csr b) ;;
  write_value (caKeyPath tempDir) (Req.caKey b) ;;
  write_value (caCertPath tempDir) (Req.caCert b) ;;
  section <- lift (sanSection (subjectAltNames b)) ;;
  writeFileSync (configPath tempDir) (signingConfig b section) ;;
  execAsync (sign_command b tempDir) ;;
  signedCert <- readFileSync (certPath tempDir) ;;
  certText <- execAsync ("openssl x509 -in " +:+ certPath tempDir +:+
                         " -text -noout") ;;
  unlinkSync (csrPath tempDir) ;;
  unlinkSync (caKeyPath tempDir) ;;
  unlinkSync (caCertPath tempDir) ;;
  unlinkSync (certPath tempDir) ;;
  unlinkSync (configPath tempDir) ;;
  unlink_if_exists (serialPath tempDir) ;;
  rmdirSync tempDir ;;
  Ret (SignSuccess signedCert certText).

Definition cleanup (tempDir : string) : Prog unit :=
  unlink_if_exists (csrPath tempDir) ;;
  unlink_if_exists (caKeyPath tempDir) ;;
  unlink_if_exists (caCertPath tempDir) ;;
  unlink_if_exists (certPath tempDir) ;;
  unlink_if_exists (configPath tempDir) ;;
  rmdir_if_exists tempDir.

Definition failure_label : string := "Failed to sign broker certificate".

Definition handler (dirname : string) (b : Req.Body) : Prog unit :=
  try_catch
    (if missing_required b then
       res_status_json 400
         (ErrorOnly "CSR, CA Key, and CA Certificate are required")
     else
       now <- call DateNow ;;
       let tempDir := tempDir dirname now in
       mkdirSync tempDir ;;
       try_catch
         (body <- work b tempDir ;; res_json body)
         (fun error =>
            try_catch (cleanup tempDir) (fun e => Ret tt) ;;
            Fail error))
    (fun error =>
       console_error "Error signing broker certificate:" error ;;
       res_status_json 500 (ErrorMessage failure_label (message error))).

End SignBrokerCert.

(** ** The routes of the application *)

(** The five [app.post(path, handler)] registrations. *)
Inductive Route : Type :=
| GenerateCsrRoute
| GenerateBrokerCsrRoute
| GenerateRootCaRoute
| SignClientCertRoute
| SignBrokerCertRoute.

Definition route_path (r : Route) : string :=
  match r with
  | GenerateCsrRoute => "/api/generate-csr"
  | GenerateBrokerCsrRoute => "/api/generate-broker-csr"
  | GenerateRootCaRoute => "/api/generate-root-ca"
  | SignClientCertRoute => "/api/sign-client-cert"
  | SignBrokerCertRoute => "/api/sign-broker-cert"
  end.

Definition handler (r : Route) : string -> Req.Body -> Prog unit :=
  match r with
  | GenerateCsrRoute => GenerateCsr.handler
  | GenerateBrokerCsrRoute => GenerateBrokerCsr.handler
  | GenerateRootCaRoute => GenerateRootCa.handler
  | SignClientCertRoute => SignClientCert.handler
  | SignBrokerCertRoute => SignBrokerCert.handler
  end.

Definition tempDir (r : Route) : string -> N -> string :=
  match r with
  | GenerateCsrRoute => GenerateCsr.tempDir
  | GenerateBrokerCsrRoute => GenerateBrokerCsr.tempDir
  | GenerateRootCaRoute => GenerateRootCa.tempDir
  | SignClientCertRoute => SignClientCert.tempDir
  | SignBrokerCertRoute => SignBrokerCert.tempDir
  end.

Definition work (r : Route) : Req.Body -> string -> Prog Payload :=
  match r with
  | GenerateCsrRoute => GenerateCsr.work
  | GenerateBrokerCsrRoute => GenerateBrokerCsr.work
  | GenerateRootCaRoute => GenerateRootCa.work
  | SignClientCertRoute => SignClientCert.work
  | SignBrokerCertRoute => SignBrokerCert.work
  end.

Definition cleanup (r : Route) : string -> Prog unit :=
  match r with
  | GenerateCsrRoute => GenerateCsr.cleanup
  | GenerateBrokerCsrRoute => GenerateBrokerCsr.cleanup
  | GenerateRootCaRoute => GenerateRootCa.cleanup
  | SignClientCertRoute => SignClientCert.cleanup
  | SignBrokerCertRoute => SignBrokerCert.cleanup
  end.

Definition failure_label (r : Route) : string :=
  match r with
  | GenerateCsrRoute => GenerateCsr.failure_label
  | GenerateBrokerCsrRoute => GenerateBrokerCsr.failure_label
  | GenerateRootCaRoute => GenerateRootCa.failure_label
  | SignClientCertRoute => SignClientCert.failure_label
  | SignBrokerCertRoute => SignBrokerCert.failure_label
  end.

Definition console_label (r : Route) : string :=
  match r with
  | GenerateCsrRoute => "Error:"
  | GenerateBrokerCsrRoute => "Error generating broker CSR:"
  | GenerateRootCaRoute => "Error generating Root CA:"
  | SignClientCertRoute => "Error signing client certificate:"
  | SignBrokerCertRoute => "Error signing broker certificate:"
  end.

(** The 400 response of the validation of a route, when the body
    fails it; the Root CA route validates nothing. *)
Definition rejection (r : Route) (b : Req.Body) : option Response :=
  match r with
  | GenerateCsrRoute =>
      if GenerateCsr.missing_required b
      then Some (Json 400 (ErrorOnly "Missing required fields")) else None
  | GenerateBrokerCsrRoute =>
      if negb (truthy (Req.commonName b))
      then Some (Json 400
                   (ErrorOnly "Common Name (CN) is required for broker certificate"))
      else None
  | GenerateRootCaRoute => None
  | SignClientCertRoute =>
      if SignClientCert.missing_required b
      then Some (Json 400 (ErrorOnly "CSR, CA Key, and CA Certificate are required"))
      else None
  | SignBrokerCertRoute =>
      if SignBrokerCert.missing_required b
      then Some (Json 400 (ErrorOnly "CSR, CA Key, and CA Certificate are required"))
      else None
  end.

(** The state after [console.error(label, error)] and
    [res.status(500).json({ error, message: error.message })]. *)
Definition respond_500 (r : Route) (e : error) (s : State) : State :=
  mkState (disk s)
          (sent s ++ [Json 500 (ErrorMessage (failure_label r) (message e))])
          (console s ++ [(console_label r, e)])
          (trace s).

Definition respond (resp : Response) (s : State) : State :=
  mkState (disk s) (sent s ++ [resp]) (console s) (trace s).

(** ** Requests in flight together *)

(** A handler is suspended at each [await execAsync(...)]: the child
    process is started and the handler goes on only when it has
    ended; between two of them its code runs without interruption. *)
Definition is_await {X : Type} (op : Eff X) : bool :=
  match op with
  | ExecAsync _ => true
  | _ => false
  end.

(** The code runs up to the next [await], which is reached and not
    yet performed. *)
Fixpoint until_await (w : World) {A : Type} (p : Prog A) (s : State) : Prog A * State :=
  match p with
  | Vis op k =>
      if is_await op then (p, s)
      else let '(x, s') := perform w op s in until_await w (k x) s'
  | _ => (p, s)
  end.

(** One turn of a handler: the child process it waits for ends (or,
    at the start, its first call is made), and its code goes on up to
    the next [await]. *)
Definition resume (w : World) {A : Type} (p : Prog A) (s : State) : Prog A * State :=
  match p with
  | Vis op k => let '(x, s') := perform w op s in until_await w (k x) s'
  | _ => (p, s)
  end.

(** Two requests being served by the one process: each has its own
    [res]; the disk, the console and the record of calls are shared. *)
Record Pool : Type := mkPool {
  first : Prog unit;
  second : Prog unit;
  res_first : list Response;
  res_second : list Response;
  pool_disk : Fs;
  pool_console : list (string * error);
  pool_trace : list Event
}.

(** One turn of the event loop: the first ([false]) or the second
    ([true]) request is resumed. *)
Definition turn (w : World) (pl : Pool) (who : bool) : Pool :=
  if who then
    let '(p, s) :=
      resume w (second pl)
             (mkState (pool_disk pl) (res_second pl) (pool_console pl) (pool_trace pl)) in
    mkPool (first pl) p (res_first pl) (sent s) (disk s) (console s) (trace s)
  else
    let '(p, s) :=
      resume w (first pl)
             (mkState (pool_disk pl) (res_first pl) (pool_console pl) (pool_trace pl)) in
    mkPool p (second pl) (sent s) (res_second pl) (disk s) (console s) (trace s).

Definition interleave (w : World) (schedule : list bool) (pl : Pool) : Pool :=
  fold_left (turn w) schedule pl.

(** ** A stand-in for the [openssl] tool *)

(** Used only to run the handlers on concrete requests: every command
    of the handlers succeeds when the files it reads exist, and writes
    the files it is asked to write. *)
Module Mock.

Fixpoint arg_after (flag : string) (ws : list string) : option string :=
  match ws with
  | w :: rest =>
      if String.eqb w flag
      then match rest with v :: _ => Some v | [] => None end
      else arg_after flag rest
  | [] => None
  end.

Definition read (f : Fs) (flag : string) (ws : list string) : option string :=
  match arg_after flag ws with
  | Some p => files f !! p
  | None => None
  end.

Definition write (p content : string) (f : Fs) : Fs :=
  mkFs (<[p := content]> (files f)) (dirs f).

Definition failed (cmd : string) : error := Error ("Command failed: " +:+ cmd).

Definition starts (ws pre : list string) : bool :=
  bool_decide (take (length pre) ws = pre).

(** [mismatch]: the CA key does not belong to the CA certificate; the
    signing command has then already written the serial file when it
    gives up. *)
Definition openssl (mismatch : bool) (cmd : string) (f : Fs) : completion string * Fs :=
  let ws := String.words cmd in
  if starts ws ["openssl"; "ecparam"] then
    match arg_after "-name" ws, arg_after "-out" ws with
    | Some name, Some out => (Normal "", write out ("EC PRIVATE KEY " +:+ name) f)
    | _, _ => (Throw (failed cmd), f)
    end
  else if starts ws ["openssl"; "req"; "-new"; "-x509"] then
    match read f "-key" ws, read f "-config" ws, arg_after "-out" ws with
    | Some key, Some _, Some out =>
        (Normal "", write out ("CERTIFICATE self-signed with " +:+ key) f)
    | _, _, _ => (Throw (failed cmd), f)
    end
  else if starts ws ["openssl"; "req"; "-new"] then
    match read f "-key" ws, read f "-config" ws, arg_after "-out" ws with
    | Some key, Some config, Some out =>
        (Normal "",
         write out ("CERTIFICATE REQUEST of " +:+ key +:+ " from" +:+ config) f)
    | _, _, _ => (Throw (failed cmd), f)
    end
  else if starts ws ["openssl"; "req"; "-text"] then
    match read f "-in" ws with
    | Some csr => (Normal ("Certificate Request: " +:+ csr), f)
    | None => (Throw (failed cmd), f)
    end
  else if starts ws ["openssl"; "ec"] then
    match read f "-in" ws with
    | Some key => (Normal ("PUBLIC KEY of " +:+ key), f)
    | None => (Throw (failed cmd), f)
    end
  else if starts ws ["openssl"; "x509"; "-req"] then
    match read f "-in" ws, read f "-CA" ws, read f "-CAkey" ws,
          read f "-extfile" ws, arg_after "-CAserial" ws, arg_after "-out" ws with
    | Some csr, Some _, Some _, Some _, Some serial, Some out =>
        if mismatch
        then (Throw (failed cmd), write serial "01" f)
        else (Normal "",
              write out ("CERTIFICATE for " +:+ csr) (write serial "01" f))
    | _, _, _, _, _, _ => (Throw (failed cmd), f)
    end
  else if starts ws ["openssl"; "x509"; "-in"] then
    match read f "-in" ws with
    | Some cert => (Normal ("Certificate: " +:+ cert), f)
    | None => (Throw (failed cmd), f)
    end
  else (Throw (failed cmd), f).

(** No I/O error besides the ones the disk itself gives. *)
Definition world (now : N) (mismatch : bool) : World :=
  mkWorld (fun _ => now) (fun _ => openssl mismatch) (fun _ _ _ => None).

Definition start : State := mkState (mkFs ∅ ∅) [] [] [].

End Mock.

(** ** Predicates on handler code *)

(** Every call the code can make, on any path, satisfies [P]. *)
Fixpoint all_calls (P : forall X : Type, Eff X -> Prop) {A : Type} (p : Prog A) : Prop :=
  match p with
  | Vis op k => P _ op /\ forall x, all_calls P (k x)
  | _ => True
  end.

Definition is_send {X : Type} (op : Eff X) : bool :=
  match op with
  | Send _ => true
  | _ => false
  end.

Definition is_log {X : Type} (op : Eff X) : bool :=
  match op with
  | ConsoleError _ _ => true
  | _ => false
  end.

(** The code touches neither [res] nor the console. *)
Definition quiet {A : Type} (p : Prog A) : Prop :=
  all_calls (fun X op => is_send op = false /\ is_log op = false) p.

(** The event a call leaves in the record of calls. *)
Definition event_of {X : Type} (op : Eff X) : option Event :=
  match op with
  | ExecAsync cmd => Some (EvExec cmd)
  | MkdirSync p => Some (EvMkdir p)
  | WriteFileSync p content => Some (EvWrite p content)
  | ReadFileSync p => Some (EvRead p)
  | UnlinkSync p => Some (EvUnlink p)
  | RmdirSync p => Some (EvRmdir p)
  | _ => None
  end.

(** Every call that leaves an event leaves one satisfying [Q]. *)
Definition calls_only (Q : Event -> Prop) {A : Type} (p : Prog A) : Prop :=
  all_calls (fun X op => forall ev, event_of op = Some ev -> Q ev) p.

(** ** Reading the SAN list *)

(** An entry whose value is not empty after trimming. *)
Definition san_valid (san : SanEntry) : bool :=
  match san_value san with
  | Str s => negb (String.eqb (trim s) "")
  | _ => false
  end.

(** The value of the entry is a string or is falsy: the entries on
    which the filter callback does not throw. *)
Definition san_typed (san : SanEntry) : bool :=
  match san_value san with
  | Str _ => true
  | v => negb (truthy v)
  end.

Definition san_text (san : SanEntry) : string :=
  match san_value san with
  | Str s => s
  | _ => ""
  end.

(** The line of the entry found at position [k] (from 0) of the
    filtered array. *)
Definition san_line (san : SanEntry) (k : nat) : string :=
  to_string (san_type san) +:+ "." +:+ string_of_N (N.of_nat (k + 1)) +:+
  " = " +:+ trim (san_text san).

(** The numbering in the words of the specification: every type
    counts its own entries from 1.  [seen] holds the types of the
    entries already numbered. *)
Fixpoint spec_numbered (seen : list string) (l : list SanEntry) : list string :=
  match l with
  | [] => []
  | san :: rest =>
      let t := to_string (san_type san) in
      (t +:+ "." +:+
       string_of_N (N.of_nat (S (length (List.filter (String.eqb t) seen)))) +:+
       " = " +:+ trim (san_text san))
      :: spec_numbered (t :: seen) rest
  end.

Definition spec_sanEntries_list (l : list SanEntry) : list string :=
  spec_numbered [] (List.filter san_valid l).

(** The type is exactly the string DNS or IP. *)
Definition spec_type_ok (san : SanEntry) : bool :=
  match san_type san with
  | Str t => String.eqb t "DNS" || String.eqb t "IP"
  | _ => false
  end.

(** ** Concrete requests *)

Module Sample.

Definition dns : SanEntry := mkSan (Str "DNS") (Str "broker.local").
Definition ip : SanEntry := mkSan (Str "IP") (Str "10.0.0.5").
Definition blank : SanEntry := mkSan (Str "DNS") (Str "   ").
Definition uri : SanEntry := mkSan (Str "URI") (Str "mqtt://broker.local").

(** [{commonName: "device-001", organization: "Acme", country: "US",
     state: "CA", locality: "SF"}] *)
Definition client : Req.Body :=
  Req.mkBody Undefined (Str "device-001") Undefined (Str "Acme") Undefined
             (Str "US") (Str "CA") (Str "SF") Undefined SanUndefined
             Undefined Undefined Undefined Undefined.

(** The same with every optional field given. *)
Definition client_full : Req.Body :=
  Req.mkBody (Str "secp384r1") (Str "device-002") (Str "SN-42") (Str "Acme")
             (Str "Devices") (Str "US") (Str "CA") (Str "SF")
             (Str "ops@acme.example") SanUndefined
             Undefined Undefined Undefined Undefined.

(** [{commonName: "broker.local", subjectAltNames: sans}] *)
Definition broker (sans : list SanEntry) : Req.Body :=
  Req.mkBody Undefined (Str "broker.local") Undefined Undefined Undefined
             Undefined Undefined Undefined Undefined (SanArray sans)
             Undefined Undefined Undefined Undefined.

(** A broker request with no Common Name. *)
Definition broker_without_cn : Req.Body :=
  Req.mkBody Undefined Undefined Undefined (Str "Acme") Undefined
             Undefined Undefined Undefined Undefined (SanArray [dns])
             Undefined Undefined Undefined Undefined.

(** [{csr, caKey, caCert, subjectAltNames: sans}] *)
Definition signing (csr : string) (sans : list SanEntry) : Req.Body :=
  Req.mkBody Undefined Undefined Undefined Undefined Undefined
             Undefined Undefined Undefined Undefined (SanArray sans)
             Undefined (Str csr) (Str "CA PRIVATE KEY") (Str "CA CERTIFICATE").

Definition dirname : string := "/srv/app".
Definition now : N := 1700000000000.

End Sample.

(** ** The subject in the words of the specification *)


(** The fields that were supplied and are not empty. *)
Definition supplied (fields : list (string * Js.value)) : list (string * Js.value) :=
  List.filter (fun kv => truthy (snd kv)) fields.

(** The lines that are not empty: those that declare something. *)
Definition declared (lines : list string) : list string :=
  List.filter (fun line => negb (String.eqb line "")) lines.

(** The events a run adds to the record of calls. *)
Definition new_events (before after : State) (evs : list Event) : Prop :=
  trace after = trace before ++ evs.

(** ** What a handler may write and run *)

(** The calls of the Root CA handler on scratch directory [t]: every
    file written is the configuration, and the two commands besides
    the key generation are the issuing one and the decoding one. *)
Definition root_ca_event (b : Req.Body) (t : string) (ev : Event) : Prop :=
  match ev with
  | EvWrite p c =>
      p = GenerateRootCa.configPath t /\ c = GenerateRootCa.opensslConfig b
  | EvExec cmd =>
      cmd = "openssl ecparam -name " +:+ to_string (GenerateRootCa.curve b) +:+
            " -genkey -noout -out " +:+ GenerateRootCa.caKeyPath t
      \/ cmd = GenerateRootCa.issue_command b t
      \/ cmd = "openssl x509 -in " +:+ GenerateRootCa.caCertPath t +:+ " -text -noout"
  | _ => True
  end.


(** ** What a handler answers *)

(** Every value the code can return satisfies [P]. *)
Fixpoint returns {A : Type} (P : A -> Prop) (p : Prog A) : Prop :=
  match p with
  | Ret a => P a
  | Fail _ => True
  | Vis _ k => forall x, returns P (k x)
  end.

(** The success object of a route, with all its keys. *)
Definition success_payload (r : Route) (body : Payload) : Prop :=
  match r, body with
  | GenerateCsrRoute, CsrSuccess _ _ _ _ => True
  | GenerateBrokerCsrRoute, BrokerCsrSuccess _ _ _ _ type => type = "broker"
  | GenerateRootCaRoute, CaSuccess _ _ _ => True
  | SignClientCertRoute, SignSuccess _ _ => True
  | SignBrokerCertRoute, SignSuccess _ _ => True
  | _, _ => False
  end.

(** The three kinds of response: the 400 of the validation, the 200
    with the success object, the 500 with the label of the route and
    the message of the error. *)
Definition well_formed_response (r : Route) (b : Req.Body) (resp : Response) : Prop :=
  rejection r b = Some resp
  \/ (exists body, resp = Json 200 body /\ success_payload r body)
  \/ (exists e, resp = Json 500 (ErrorMessage (failure_label r) (message e))).

(** ** A signing request that fails after the serial file was written *)

Module Mismatch.

(** The CA key sent does not belong to the CA certificate. *)
Definition world : World := Mock.world Sample.now true.
Definition body : Req.Body := Sample.signing "CERTIFICATE REQUEST" [].
Definition tempDir : string :=
  SignClientCert.tempDir Sample.dirname Sample.now.

(** The state once the scratch directory exists. *)
Definition after_mkdir : State :=
  Eval vm_compute in snd (perform world (MkdirSync tempDir) Mock.start).

(** The error of the signing command and the state it leaves. *)
Definition failure : error :=
  Eval vm_compute in
    match fst (run world (work SignClientCertRoute body tempDir) after_mkdir) with
    | Throw e => e
    | Normal _ => Error ""
    end.
Definition after_work : State :=
  Eval vm_compute in
    snd (run world (work SignClientCertRoute body tempDir) after_mkdir).

(** The outcome of the cleanup and the state it leaves. *)
Definition cleanup_outcome : completion unit :=
  Eval vm_compute in
    fst (run world (cleanup SignClientCertRoute tempDir) after_work).
Definition after_cleanup : State :=
  Eval vm_compute in
    snd (run world (cleanup SignClientCertRoute tempDir) after_work).

End Mismatch.

(** ** Two client requests in the same millisecond *)

Module Race.

(** Both requests read the same value of [Date.now()]. *)
Definition world : World := Mock.world Sample.now false.

Definition pool : Pool :=
  mkPool (handler GenerateCsrRoute Sample.dirname Sample.client)
         (handler GenerateCsrRoute Sample.dirname Sample.client_full)
         [] [] (mkFs ∅ ∅) [] [].

(** The two requests take turns; each turn ends at the next child
    process of the request. *)
Definition schedule : list bool :=
  [false; true; false; true; false; true; false; true; false; true].

Definition outcome : Pool := interleave world schedule pool.

(** The same with a clock that moves on by a millisecond at every
    call: the second request reads a later value. *)
Definition ticking : World :=
  mkWorld (fun history => (Sample.now + N.of_nat (length history))%N)
          (fun _ => Mock.openssl false) (fun _ _ _ => None).

Definition outcome_apart : Pool := interleave ticking schedule pool.

(** The private key a response carries. *)
Definition key_of (resp : Response) : option string :=
  match payload resp with
  | CsrSuccess privateKey _ _ _ => Some privateKey
  | _ => None
  end.

End Race.

(** ** What the cleanup covers *)

(** The files the inner [catch] of a route looks for, in its order. *)
Definition cleanup_paths (r : Route) (t : string) : list string :=
  match r with
  | GenerateCsrRoute =>
      [ GenerateCsr.privateKeyPath t; GenerateCsr.csrPath t;
        GenerateCsr.configPath t ]
  | GenerateBrokerCsrRoute =>
      [ GenerateBrokerCsr.privateKeyPath t; GenerateBrokerCsr.csrPath t;
        GenerateBrokerCsr.configPath t ]
  | GenerateRootCaRoute =>
      [ GenerateRootCa.caKeyPath t; GenerateRootCa.caCertPath t;
        GenerateRootCa.configPath t ]
  | SignClientCertRoute =>
      [ SignClientCert.csrPath t; SignClientCert.caKeyPath t;
        SignClientCert.caCertPath t; SignClientCert.certPath t;
        SignClientCert.configPath t ]
  | SignBrokerCertRoute =>
      [ SignBrokerCert.csrPath t; SignBrokerCert.caKeyPath t;
        SignBrokerCert.caCertPath t; SignBrokerCert.certPath t;
        SignBrokerCert.configPath t ]
  end.

(** The files the work of a route puts in its scratch directory: the
    ones it writes and the ones its commands are told to write. *)
Definition scratch_paths (r : Route) (t : string) : list string :=
  match r with
  | SignClientCertRoute => cleanup_paths r t ++ [ SignClientCert.serialPath t ]
  | SignBrokerCertRoute => cleanup_paths r t ++ [ SignBrokerCert.serialPath t ]
  | _ => cleanup_paths r t
  end.

(** [if (fs.existsSync(p)) fs.unlinkSync(p);] for each path, then [k]. *)
Fixpoint unlink_all (ps : list string) (k : Prog unit) : Prog unit :=
  match ps with
  | [] => k
  | p :: rest => unlink_if_exists p ;; unlink_all rest k
  end.

(** The platform raises no I/O error of its own. *)
Definition no_fault (w : World) : Prop :=
  forall history call f, fs_fault w history call f = None.

(** ** A platform on which no directory can be created *)

Module ReadOnly.

Definition denied : error := Error "EACCES: permission denied, mkdir".

Definition world : World :=
  mkWorld (fun _ => Sample.now) (fun _ => Mock.openssl false)
          (fun _ call _ => match call with
                           | CallMkdir _ => Some denied
                           | _ => None
                           end).

End ReadOnly.

(** ** What a scratch directory holds *)

(** The scratch directory [t] holds no directory, and no file besides
    those the inner [catch] of the route looks for. *)
Definition only_known (r : Route) (t : string) (f : Fs) : bool :=
  forallb (fun p => negb (inside t p) || bool_decide (p ∈ cleanup_paths r t))
          (elements (dom (files f)))
  && forallb (fun d => negb (inside t d)) (elements (dirs f)).

(** ** A SAN value that is not a string *)

(** A broker signing request whose one SAN entry has a number for
    value. *)
Module BadSan.

Definition body : Req.Body :=
  Sample.signing "CERTIFICATE REQUEST" [mkSan (Str "DNS") (Number (SafeInteger 5 eq_refl))].
Definition world : World := Mock.world Sample.now false.
Definition tempDir : string := SignBrokerCert.tempDir Sample.dirname Sample.now.

(** The state once the scratch directory exists, and the state in
    which the rendering of the SAN list throws. *)
Definition after_mkdir : State :=
  Eval vm_compute in snd (perform world (MkdirSync tempDir) Mock.start).
Definition after_work : State :=
  Eval vm_compute in
    snd (run world (work SignBrokerCertRoute body tempDir) after_mkdir).

End BadSan.

(** ** The subject of a broker CSR *)

(** The identity fields the broker handler destructures, in the order
    of its template, each with the text that opens its line. *)
Definition broker_subject (b : Req.Body) : list (string * Js.value) :=
  [ ("C  = ", Req.country b);
    ("ST = ", Req.state b);
    ("L  = ", Req.locality b);
    ("O  = ", Req.organization b);
    ("OU = ", Req.organizationalUnit b);
    ("CN = ", Req.commonName b);
    ("emailAddress = ", Req.email b) ].

(** The error of calling [trim] on a value that has no such method. *)
Definition not_a_function : error := Error "san.value.trim is not a function".

(** ** The first version of the server *)

(** [server.js] holds the client CSR handler as it was before the
    configuration file: the identity goes to [openssl req] on the
    command line, as a subject string.  The validation, the scratch
    directory and the two [catch] blocks are those of
    [GenerateCsr.handler]; what is embedded here is the inner [try]
    block and the cleanup of its [catch].  The same [subject] is still
    built, and no longer used, by the next two versions of the
    handler. *)
Module ServerJs.

Definition curve (b : Req.Body) : Js.value :=
  Js.default (Req.curve b) (Str "prime256v1").

Definition privateKeyPath (tempDir : string) : string :=
  path_join [tempDir; "private-key.pem"].
Definition csrPath (tempDir : string) : string := path_join [tempDir; "csr.pem"].

(** [let subject = `/C=...`; if (...) subject += ...; ...] *)
Definition subject (b : Req.Body) : string :=
  let subject :=
    "/C=" +:+ to_string (Req.country b) +:+
    "/ST=" +:+ to_string (Req.state b) +:+
    "/L=" +:+ to_string (Req.locality b) +:+
    "/O=" +:+ to_string (Req.organization b) in
  let subject :=
    if truthy (Req.organizationalUnit b)
    then subject +:+ "/OU=" +:+ to_string (Req.organizationalUnit b)
    else subject in
  let subject := subject +:+ "/CN=" +:+ to_string (Req.commonName b) in
  let subject :=
    if truthy (Req.serialNumber b)
    then subject +:+ "/serialNumber=" +:+ to_string (Req.serialNumber b)
    else subject in
  if truthy (Req.email b)
  then subject +:+ "/emailAddress=" +:+ to_string (Req.email b)
  else subject.

Definition keygen_command (b : Req.Body) (tempDir : string) : string :=
  "openssl ecparam -name " +:+ to_string (curve b) +:+
  " -genkey -noout -out " +:+ privateKeyPath tempDir.

Definition csr_command (b : Req.Body) (tempDir : string) : string :=
  "openssl req -new -key " +:+ privateKeyPath tempDir +:+
  " -out " +:+ csrPath tempDir +:+
  " -subj " +:+ dquote +:+ subject b +:+ dquote.

Definition pubout_command (tempDir : string) : string :=
  "openssl ec -in " +:+ privateKeyPath tempDir +:+ " -pubout 2>/dev/null".

(** The statements of the inner [try] block up to [res.json]; the
    value holds the [privateKey], [publicKey] and [csr] of the object
    passed to it. *)
Definition work (b : Req.Body) (tempDir : string) : Prog (string * string * string) :=
  execAsync (keygen_command b tempDir) ;;
  execAsync (csr_command b tempDir) ;;
  privateKey <- readFileSync (privateKeyPath tempDir) ;;
  csr <- readFileSync (csrPath tempDir) ;;
  publicKey <- execAsync (pubout_command tempDir) ;;
  unlinkSync (privateKeyPath tempDir) ;;
  unlinkSync (csrPath tempDir) ;;
  rmdirSync tempDir ;;
  Ret (privateKey, publicKey, csr).

(** The body of the [try] inside the inner [catch]. *)
Definition cleanup (tempDir : string) : Prog unit :=
  unlink_if_exists (privateKeyPath tempDir) ;;
  unlink_if_exists (csrPath tempDir) ;;
  rmdir_if_exists tempDir.

End ServerJs.



(** ** The last segment of a scratch directory *)

(** The text holds no [c]. *)
Fixpoint lacks (c : ascii) (s : string) : bool :=
  match s with
  | EmptyString => true
  | String a s' => negb (Ascii.eqb a c) && lacks c s'
  end.

(** The last segment of the scratch directory of a route. *)
Definition scratch_name (r : Route) (now : N) : string :=
  match r with
  | GenerateCsrRoute => string_of_N now
  | GenerateBrokerCsrRoute => "broker-" +:+ string_of_N now
  | GenerateRootCaRoute => "ca-" +:+ string_of_N now
  | SignClientCertRoute => "sign-client-" +:+ string_of_N now
  | SignBrokerCertRoute => "sign-broker-" +:+ string_of_N now
  end.

(** ** The lines of the alt_names section *)

(** The string begins, or ends, with a character that [trim]
    removes. *)
Definition leading_space (s : string) : bool := begins_with_space space2 space3 s.

Definition trailing_space (s : string) : bool :=
  begins_with_space (fun a b => space2 b a) (fun a b c => space3 c b a) (String.rev s).

(** The name to the left of [ = ] in the line of the entry found at
    position [k] (from 0) of the filtered array. *)
Definition san_key (san : SanEntry) (k : nat) : string :=
  to_string (san_type san) +:+ "." +:+ string_of_N (N.of_nat (k + 1)).

(** ** The calls of a request that is served *)

(** The calls on the disk and the child processes that the inner
    [try] block of a route makes when it reaches [res.json], in the
    order of its statements.  The broker routes write the
    configuration built with the SAN section; the signing routes write
    the three texts sent with the request, and unlink the serial file
    when it exists. *)
Definition served_calls (r : Route) (b : Req.Body) (t : string)
           (calls : list Event) : Prop :=
  match r with
  | GenerateCsrRoute =>
      calls =
      [ EvExec ("openssl ecparam -name " +:+ to_string (GenerateCsr.curve b) +:+
                " -genkey -noout -out " +:+ GenerateCsr.privateKeyPath t);
        EvWrite (GenerateCsr.configPath t) (GenerateCsr.opensslConfig b);
        EvExec ("openssl req -new -key " +:+ GenerateCsr.privateKeyPath t +:+
                " -out " +:+ GenerateCsr.csrPath t +:+
                " -config " +:+ GenerateCsr.configPath t);
        EvRead (GenerateCsr.privateKeyPath t);
        EvRead (GenerateCsr.csrPath t);
        EvExec ("openssl ec -in " +:+ GenerateCsr.privateKeyPath t +:+
                " -pubout 2>/dev/null");
        EvExec ("openssl req -text -noout -in " +:+ GenerateCsr.csrPath t);
        EvUnlink (GenerateCsr.privateKeyPath t);
        EvUnlink (GenerateCsr.csrPath t);
        EvUnlink (GenerateCsr.configPath t);
        EvRmdir t ]
  | GenerateBrokerCsrRoute =>
      exists section,
        sanSection (GenerateBrokerCsr.subjectAltNames b) = Normal section /\
        calls =
        [ EvExec ("openssl ecparam -name " +:+
                  to_string (GenerateBrokerCsr.curve b) +:+
                  " -genkey -noout -out " +:+ GenerateBrokerCsr.privateKeyPath t);
          EvWrite (GenerateBrokerCsr.configPath t)
                  (GenerateBrokerCsr.opensslConfig b section);
          EvExec ("openssl req -new -key " +:+ GenerateBrokerCsr.privateKeyPath t +:+
                  " -out " +:+ GenerateBrokerCsr.csrPath t +:+
                  " -config " +:+ GenerateBrokerCsr.configPath t);
          EvRead (GenerateBrokerCsr.privateKeyPath t);
          EvRead (GenerateBrokerCsr.csrPath t);
          EvExec ("openssl ec -in " +:+ GenerateBrokerCsr.privateKeyPath t +:+
                  " -pubout 2>/dev/null");
          EvExec ("openssl req -text -noout -in " +:+ GenerateBrokerCsr.csrPath t);
          EvUnlink (GenerateBrokerCsr.privateKeyPath t);
          EvUnlink (GenerateBrokerCsr.csrPath t);
          EvUnlink (GenerateBrokerCsr.configPath t);
          EvRmdir t ]
  | GenerateRootCaRoute =>
      calls =
      [ EvExec ("openssl ecparam -name " +:+ to_string (GenerateRootCa.curve b) +:+
                " -genkey -noout -out " +:+ GenerateRootCa.caKeyPath t);
        EvWrite (GenerateRootCa.configPath t) (GenerateRootCa.opensslConfig b);
        EvExec (GenerateRootCa.issue_command b t);
        EvRead (GenerateRootCa.caKeyPath t);
        EvRead (GenerateRootCa.caCertPath t);
        EvExec ("openssl x509 -in " +:+ GenerateRootCa.caCertPath t +:+ " -text -noout");
        EvUnlink (GenerateRootCa.caKeyPath t);
        EvUnlink (GenerateRootCa.caCertPath t);
        EvUnlink (GenerateRootCa.configPath t);
        EvRmdir t ]
  | SignClientCertRoute =>
      exists csr caKey caCert serial,
        Req.csr b = Str csr /\ Req.caKey b = Str caKey /\ Req.caCert b = Str caCert /\
        (serial = [] \/ serial = [ EvUnlink (SignClientCert.serialPath t) ]) /\
        calls =
        [ EvWrite (SignClientCert.csrPath t) csr;
          EvWrite (SignClientCert.caKeyPath t) caKey;
          EvWrite (SignClientCert.caCertPath t) caCert;
          EvWrite (SignClientCert.configPath t) SignClientCert.signingConfig;
          EvExec (SignClientCert.sign_command b t);
          EvRead (SignClientCert.certPath t);
          EvExec ("openssl x509 -in " +:+ SignClientCert.certPath t +:+ " -text -noout");
          EvUnlink (SignClientCert.csrPath t);
          EvUnlink (SignClientCert.caKeyPath t);
          EvUnlink (SignClientCert.caCertPath t);
          EvUnlink (SignClientCert.certPath t);
          EvUnlink (SignClientCert.configPath t) ]
        ++ serial ++ [ EvRmdir t ]
  | SignBrokerCertRoute =>
      exists csr caKey caCert section serial,
        Req.csr b = Str csr /\ Req.caKey b = Str caKey /\ Req.caCert b = Str caCert /\
        sanSection (SignBrokerCert.subjectAltNames b) = Normal section /\
        (serial = [] \/ serial = [ EvUnlink (SignBrokerCert.serialPath t) ]) /\
        calls =
        [ EvWrite (SignBrokerCert.csrPath t) csr;
          EvWrite (SignBrokerCert.caKeyPath t) caKey;
          EvWrite (SignBrokerCert.caCertPath t) caCert;
          EvWrite (SignBrokerCert.configPath t) (SignBrokerCert.signingConfig b section);
          EvExec (SignBrokerCert.sign_command b t);
          EvRead (SignBrokerCert.certPath t);
          EvExec ("openssl x509 -in " +:+ SignBrokerCert.certPath t +:+ " -text -noout");
          EvUnlink (SignBrokerCert.csrPath t);
          EvUnlink (SignBrokerCert.caKeyPath t);
          EvUnlink (SignBrokerCert.caCertPath t);
          EvUnlink (SignBrokerCert.certPath t);
          EvUnlink (SignBrokerCert.configPath t) ]
        ++ serial ++ [ EvRmdir t ]
  end.

(** ** The lines of a text *)

Definition line_feed : ascii := ascii_of_nat 10.

(** The pieces of a text between its line feeds: the lines of the
    file the text is written to. *)
Fixpoint lines_of (s : string) : list string :=
  match s with
  | EmptyString => [""]
  | String c rest =>
      if Ascii.eqb c line_feed then "" :: lines_of rest
      else
        match lines_of rest with
        | line :: more => String c line :: more
        | [] => [String c ""]
        end
  end.

(** The text holds no line feed. *)
Definition one_line (s : string) : bool := lacks line_feed s.

(** Neither the type nor the trimmed value of the entry holds a line
    feed. *)
Definition san_one_line (san : SanEntry) : bool :=
  one_line (to_string (san_type san)) && one_line (trim (san_text san)).

(** The text up to its first [c]. *)
Fixpoint before (c : ascii) (s : string) : string :=
  match s with
  | EmptyString => EmptyString
  | String a rest => if Ascii.eqb a c then EmptyString else String a (before c rest)
  end.

(** The name a line of a configuration assigns to: what stands to the
    left of its first equals sign. *)
Definition line_name (line : string) : string := before "=" line.

(** ** Values padded with a no-break space *)

Module Padded.

(** U+00A0 in UTF-8. *)
Definition nbsp : string := String (ascii_of_nat 194) (String (ascii_of_nat 160) "").

Definition dns : SanEntry := mkSan (Str "DNS") (Str (" broker.local" +:+ nbsp)).
Definition blank : SanEntry := mkSan (Str "DNS") (Str (nbsp +:+ " ")).

End Padded.

(** ** How the shell reads a command *)

(** [exec] of [child_process] hands the command to [/bin/sh -c].  For
    a command of one line with no quote, operator or expansion, the
    shell splits it into words at blanks, and a word that begins with
    [#] starts a comment: it and the rest of the line are dropped. *)
Module Sh.

(** A character with no meaning to the shell: a letter, a digit or
    one of [- . / _]. *)
Definition plain_char (c : ascii) : bool :=
  let n := N_of_ascii c in
  ((48 <=? n) && (n <=? 57) || (65 <=? n) && (n <=? 90) || (97 <=? n) && (n <=? 122)
   || (n =? 45) || (n =? 46) || (n =? 47) || (n =? 95))%N.

Fixpoint all_plain (s : string) : bool :=
  match s with
  | EmptyString => true
  | String c rest => plain_char c && all_plain rest
  end.

(** A word the shell passes on as it is. *)
Definition plain (word : string) : bool :=
  negb (String.eqb word "") && all_plain word.

(** A blank or a tab separates words. *)
Definition blank (c : ascii) : bool :=
  Ascii.eqb c " " || Ascii.eqb c (ascii_of_nat 9).

(** The words of a line; [cur] holds the word being read, last
    character first. *)
Fixpoint words_from (cur : option string) (s : string) : list string :=
  match s with
  | EmptyString => option_list (String.rev <$> cur)
  | String a rest =>
      if blank a
      then option_list (String.rev <$> cur) ++ words_from None rest
      else words_from (Some (String a (from_option id "" cur))) rest
  end.

Definition words (cmd : string) : list string := words_from None cmd.



End Sh.


(** ** The alt_names section as lines *)



(** ** Requests with shell or configuration syntax in a field *)

Module Injected.

(** [{commonName: "device-001", organization: "Acme", country: "US",
     state: "CA", locality: "SF\nOU = Injected"}] *)
Definition client : Req.Body :=
  Req.mkBody Undefined (Str "device-001") Undefined (Str "Acme") Undefined
             (Str "US") (Str "CA") (Str ("SF" +:+ nl +:+ "OU = Injected"))
             Undefined SanUndefined
             Undefined Undefined Undefined Undefined.

(** A SAN entry whose value goes on after a line feed. *)
Definition san : SanEntry :=
  mkSan (Str "DNS")
        (Str ("a.example" +:+ nl +:+ "[ v3_broker ]" +:+ nl +:+
              "basicConstraints = critical,CA:TRUE")).

(** A broker signing request with that entry. *)
Definition signing : Req.Body := Sample.signing "CERTIFICATE REQUEST" [san].





End Injected.

(** * Properties *)

(** ** The interpreter *)

Section TheInterpreter.

Variable w : World.

Lemma run_bind {A B : Type} (p : Prog A) (f : A -> Prog B) (s : State) :
  run w (bind p f) s =
  match run w p s with
  | (Normal a, s') => run w (f a) s'
  | (Throw e, s') => (Throw e, s')
  end.
Proof.
  revert s. induction p as [a | e | X op k IH]; intros s; simpl; try reflexivity.
  destruct (perform w op s) as [x s']. apply IH.
Qed.

Lemma run_try_catch {A : Type} (p : Prog A) (h : error -> Prog A) (s : State) :
  run w (try_catch p h) s =
  match run w p s with
  | (Normal a, s') => (Normal a, s')
  | (Throw e, s') => run w (h e) s'
  end.
Proof.
  revert s. induction p as [a | e | X op k IH]; intros s; simpl; try reflexivity.
  destruct (perform w op s) as [x s']. apply IH.
Qed.

(** The pattern of every inner [catch]: clean up inside a [try] whose
    own [catch] is empty, then [throw error]. *)
Lemma run_catch_cleanup_rethrow {A : Type} (p : Prog A)
      (cleanup : Prog unit) (s : State) :
  run w (try_catch p (fun error =>
           try_catch cleanup (fun _ => Ret tt) ;; Fail error)) s =
  match run w p s with
  | (Normal a, s') => (Normal a, s')
  | (Throw e, s') => (Throw e, snd (run w cleanup s'))
  end.
Proof.
  rewrite run_try_catch. destruct (run w p s) as [[a | e] s']; [reflexivity |].
  rewrite run_bind, run_try_catch.
  destruct (run w cleanup s') as [[[] | e'] s'']; reflexivity.
Qed.

Lemma run_call {X : Type} (op : Eff X) (s : State) :
  run w (call op) s = (Normal (fst (perform w op s)), snd (perform w op s)).
Proof. simpl. destruct (perform w op s); reflexivity. Qed.

Lemma run_call_throwing {X : Type} (op : Eff (completion X)) (s : State) :
  run w (call_throwing op) s = perform w op s.
Proof. simpl. destruct (perform w op s) as [[x | e] s']; reflexivity. Qed.

(** A turn changes nothing to what the handler does when it is left
    to run to its end. *)
Lemma run_until_await {A : Type} (p : Prog A) (s : State) :
  run w (fst (until_await w p s)) (snd (until_await w p s)) = run w p s.
Proof.
  revert s. induction p as [a | e | X op k IH]; intros s; simpl; try reflexivity.
  destruct (is_await op); [reflexivity |].
  destruct (perform w op s) as [x s']. apply IH.
Qed.

Lemma run_resume {A : Type} (p : Prog A) (s : State) :
  run w (fst (resume w p s)) (snd (resume w p s)) = run w p s.
Proof.
  destruct p as [a | e | X op k]; simpl; try reflexivity.
  destruct (perform w op s) as [x s']. apply run_until_await.
Qed.

End TheInterpreter.

(** ** What a call changes *)

Section WhatACallChanges.

Variable w : World.

(** Splits a call into the cases of its outcome. *)
Ltac outcomes :=
  repeat match goal with
         | |- context [exec ?w ?h ?c ?f] => destruct (exec w h c f)
         | |- context [fs_fault ?w ?h ?c ?f] => destruct (fs_fault w h c f)
         | |- context [files ?f !! ?p] => destruct (files f !! p)
         | |- context [negb (bool_decide ?P)] => destruct (negb (bool_decide P))
         | |- context [dir_empty ?p ?f] => destruct (dir_empty p f)
         end.

Lemma perform_sent {X : Type} (op : Eff X) (s : State) :
  is_send op = false -> sent (snd (perform w op s)) = sent s.
Proof.
  destruct op; simpl; intros H; try discriminate; outcomes; reflexivity.
Qed.

Lemma perform_console {X : Type} (op : Eff X) (s : State) :
  is_log op = false -> console (snd (perform w op s)) = console s.
Proof.
  destruct op; simpl; intros H; try discriminate; outcomes; reflexivity.
Qed.

Lemma perform_trace {X : Type} (op : Eff X) (s : State) :
  trace (snd (perform w op s)) = trace s ++ option_list (event_of op).
Proof.
  destruct op; simpl; try (symmetry; apply app_nil_r); outcomes; reflexivity.
Qed.

Lemma run_quiet {A : Type} (p : Prog A) (s : State) :
  quiet p ->
  sent (snd (run w p s)) = sent s /\ console (snd (run w p s)) = console s.
Proof.
  unfold quiet. revert s.
  induction p as [a | e | X op k IH]; intros s Hp; simpl in *; auto.
  destruct Hp as [[Hsend Hlog] Hk].
  pose proof (perform_sent op s Hsend) as Hs.
  pose proof (perform_console op s Hlog) as Hc.
  destruct (perform w op s) as [x s']. simpl in Hs, Hc.
  rewrite <- Hs, <- Hc. apply IH, Hk.
Qed.

Lemma run_calls_only (Q : Event -> Prop) {A : Type} (p : Prog A) (s : State) :
  calls_only Q p ->
  exists evs, new_events s (snd (run w p s)) evs /\ Forall Q evs.
Proof.
  unfold calls_only, new_events. revert s.
  induction p as [a | e | X op k IH]; intros s Hp; simpl in *.
  - exists []. split; [symmetry; apply app_nil_r | constructor].
  - exists []. split; [symmetry; apply app_nil_r | constructor].
  - destruct Hp as [Hop Hk].
    pose proof (perform_trace op s) as Ht.
    destruct (perform w op s) as [x s']. simpl in Ht.
    destruct (IH x s' (Hk x)) as (evs & Hevs & HQ).
    exists (option_list (event_of op) ++ evs). split.
    + rewrite Hevs, Ht, app_assoc. reflexivity.
    + apply Forall_app. split; [| exact HQ].
      destruct (event_of op) as [ev |] eqn:Hev; simpl; [| constructor].
      constructor; [apply Hop; reflexivity | constructor].
Qed.

End WhatACallChanges.

(** ** Walking through handler code *)

Lemma all_calls_bind (P : forall X : Type, Eff X -> Prop) {A B : Type}
      (p : Prog A) (f : A -> Prog B) :
  all_calls P p -> (forall a, all_calls P (f a)) -> all_calls P (bind p f).
Proof.
  intros Hp Hf. induction p as [a | e | X op k IH]; simpl in *; auto.
  destruct Hp as [Hop Hk]. split; auto.
Qed.

Lemma all_calls_try_catch (P : forall X : Type, Eff X -> Prop) {A : Type}
      (p : Prog A) (h : error -> Prog A) :
  all_calls P p -> (forall e, all_calls P (h e)) -> all_calls P (try_catch p h).
Proof.
  intros Hp Hh. induction p as [a | e | X op k IH]; simpl in *; auto.
  destruct Hp as [Hop Hk]. split; auto.
Qed.

Lemma all_calls_call (P : forall X : Type, Eff X -> Prop) {X : Type} (op : Eff X) :
  P X op -> all_calls P (call op).
Proof. intros H. simpl. split; [exact H | intros x; exact I]. Qed.

Lemma all_calls_call_throwing (P : forall X : Type, Eff X -> Prop) {X : Type}
      (op : Eff (completion X)) :
  P _ op -> all_calls P (call_throwing op).
Proof. intros H. simpl. split; [exact H | intros [x | e]; exact I]. Qed.

Lemma all_calls_lift (P : forall X : Type, Eff X -> Prop) {A : Type} (c : completion A) :
  all_calls P (lift c).
Proof. destruct c; exact I. Qed.

Lemma all_calls_bind_lift (P : forall X : Type, Eff X -> Prop) {A B : Type}
      (c : completion A) (f : A -> Prog B) :
  (forall a, c = Normal a -> all_calls P (f a)) -> all_calls P (bind (lift c) f).
Proof. destruct c as [a | e]; simpl; auto. Qed.

(** Walks through handler code, leaving one goal per call. *)
Ltac walk :=
  repeat first
    [ apply all_calls_bind_lift; intros ? ?
    | apply all_calls_bind; [ | intros ? ]
    | apply all_calls_try_catch; [ | intros ? ]
    | apply all_calls_lift
    | apply all_calls_call_throwing
    | apply all_calls_call
    | exact I
    | match goal with
      | |- all_calls _ (if ?b then _ else _) => destruct b
      | |- all_calls _ (let _ := _ in _) => cbv zeta
      | |- all_calls _ (write_value _ ?v) => destruct v; simpl write_value
      | |- all_calls _ (unlink_if_exists _) => unfold unlink_if_exists
      | |- all_calls _ (rmdir_if_exists _) => unfold rmdir_if_exists
      | |- all_calls _ (Fail _) => exact I
      | |- all_calls _ (Ret _) => exact I
      | |- all_calls _ (execAsync _) => unfold execAsync
      | |- all_calls _ (mkdirSync _) => unfold mkdirSync
      | |- all_calls _ (writeFileSync _ _) => unfold writeFileSync
      | |- all_calls _ (readFileSync _) => unfold readFileSync
      | |- all_calls _ (unlinkSync _) => unfold unlinkSync
      | |- all_calls _ (rmdirSync _) => unfold rmdirSync
      | |- all_calls _ (existsSync _) => unfold existsSync
      | |- all_calls _ (res_json _) => unfold res_json
      | |- all_calls _ (res_status_json _ _) => unfold res_status_json
      | |- all_calls _ (console_error _ _) => unfold console_error
      end ].

(** Closes the goal a call leaves when the property looked for is a
    [match] on the event. *)
Ltac event_goal :=
  let ev := fresh "ev" in
  let H := fresh "H" in
  intros ev H; simpl in H; try discriminate H;
  injection H as <-; simpl; try reflexivity; try exact I.

Lemma returns_bind {A B : Type} (P : B -> Prop) (p : Prog A) (f : A -> Prog B) :
  (forall a, returns P (f a)) -> returns P (bind p f).
Proof.
  intros Hf. induction p as [a | e | X op k IH]; simpl; auto.
Qed.

Lemma run_returns {A : Type} (P : A -> Prop) (w : World) (p : Prog A) (s : State) :
  returns P p -> forall a s', run w p s = (Normal a, s') -> P a.
Proof.
  revert s. induction p as [a0 | e | X op k IH]; intros s Hp a s' Hrun; simpl in *.
  - injection Hrun as <- _. exact Hp.
  - discriminate Hrun.
  - destruct (perform w op s) as [x s1]. eapply IH; [apply Hp | exact Hrun].
Qed.

(** ** The shape of a handler *)

Lemma quiet_work (r : Route) (b : Req.Body) (t : string) : quiet (work r b t).
Proof.
  unfold quiet.
  destruct r; simpl work;
    [ unfold GenerateCsr.work | unfold GenerateBrokerCsr.work
    | unfold GenerateRootCa.work | unfold SignClientCert.work
    | unfold SignBrokerCert.work ];
    walk; split; reflexivity.
Qed.

Lemma quiet_cleanup (r : Route) (t : string) : quiet (cleanup r t).
Proof.
  unfold quiet.
  destruct r; simpl cleanup;
    [ unfold GenerateCsr.cleanup | unfold GenerateBrokerCsr.cleanup
    | unfold GenerateRootCa.cleanup | unfold SignClientCert.cleanup
    | unfold SignBrokerCert.cleanup ];
    walk; split; reflexivity.
Qed.

Lemma work_returns (r : Route) (b : Req.Body) (t : string) :
  returns (success_payload r) (work r b t).
Proof.
  destruct r; simpl work;
    [ unfold GenerateCsr.work | unfold GenerateBrokerCsr.work
    | unfold GenerateRootCa.work | unfold SignClientCert.work
    | unfold SignBrokerCert.work ];
    repeat (apply returns_bind; intros ?); simpl; auto.
Qed.

(** What a handler does, in terms of its validation, its [work] and
    its [cleanup]. *)
Lemma run_handler (w : World) (r : Route) (dirname : string) (b : Req.Body) (s : State) :
  run w (handler r dirname b) s =
  match rejection r b with
  | Some resp => (Normal tt, respond resp s)
  | None =>
      let t := tempDir r dirname (date_now w (trace s)) in
      match perform w (MkdirSync t) s with
      | (Throw e, s1) => (Normal tt, respond_500 r e s1)
      | (Normal _, s1) =>
          match run w (work r b t) s1 with
          | (Normal body, s2) => (Normal tt, respond (Json 200 body) s2)
          | (Throw e, s2) =>
              (Normal tt, respond_500 r e (snd (run w (cleanup r t) s2)))
          end
      end
  end.
Proof.
  destruct r; simpl handler; simpl rejection; simpl tempDir; simpl work;
    simpl cleanup;
    [ unfold GenerateCsr.handler; destruct (GenerateCsr.missing_required b)
    | unfold GenerateBrokerCsr.handler; destruct (negb (truthy (Req.commonName b)))
    | unfold GenerateRootCa.handler
    | unfold SignClientCert.handler; destruct (SignClientCert.missing_required b)
    | unfold SignBrokerCert.handler; destruct (SignBrokerCert.missing_required b) ];
    try reflexivity;
    rewrite run_try_catch, run_bind, run_call; cbv beta iota zeta;
    change (perform w DateNow s) with (date_now w (trace s), s); cbv beta iota zeta;
    unfold fst, snd;
    rewrite run_bind; unfold mkdirSync; rewrite run_call_throwing;
    match goal with |- context [perform w (MkdirSync ?p) s] =>
      destruct (perform w (MkdirSync p) s) as [[[] | e] s1] end;
    try reflexivity;
    rewrite run_catch_cleanup_rethrow, run_bind;
    match goal with |- context [run w ?p ?st] =>
      destruct (run w p st) as [[body | e] s2] end;
    reflexivity.
Qed.

(** The events of a whole run, from those of the work and of the
    cleanup of the route. *)
Lemma handler_events (Q : Event -> Prop) (w : World) (r : Route) (dirname : string)
      (b : Req.Body) (s : State) :
  Q (EvMkdir (tempDir r dirname (date_now w (trace s)))) ->
  calls_only Q (work r b (tempDir r dirname (date_now w (trace s)))) ->
  calls_only Q (cleanup r (tempDir r dirname (date_now w (trace s)))) ->
  exists evs,
    new_events s (snd (run w (handler r dirname b) s)) evs /\ Forall Q evs.
Proof.
  intros Hmk Hwork Hclean. rewrite run_handler.
  destruct (rejection r b) as [resp |].
  { exists []. split; [symmetry; apply app_nil_r | constructor]. }
  cbv zeta. set (t := tempDir r dirname (date_now w (trace s))) in *.
  pose proof (perform_trace w (MkdirSync t) s) as Hm.
  destruct (perform w (MkdirSync t) s) as [[[] | e] s1]; simpl in Hm.
  2:{ exists [EvMkdir t]. split; [exact Hm | repeat constructor; exact Hmk]. }
  destruct (run_calls_only w Q (work r b t) s1 Hwork) as (evs1 & He1 & HQ1).
  destruct (run w (work r b t) s1) as [[body | e] s2]; simpl in He1.
  - exists (EvMkdir t :: evs1). split.
    + unfold new_events in *. simpl. rewrite He1, Hm, <- app_assoc. reflexivity.
    + constructor; assumption.
  - destruct (run_calls_only w Q (cleanup r t) s2 Hclean) as (evs2 & He2 & HQ2).
    exists (EvMkdir t :: evs1 ++ evs2). split.
    + unfold new_events in *. simpl. rewrite He2, He1, Hm, <- !app_assoc.
      reflexivity.
    + constructor; [exact Hmk | apply Forall_app; split; assumption].
Qed.

(** Every run of a handler ends normally and sends exactly one
    response, of one of the three kinds. *)
Lemma handler_sends_one_response (w : World) (r : Route) (dirname : string)
      (b : Req.Body) (s : State) :
  exists resp,
    fst (run w (handler r dirname b) s) = Normal tt /\
    sent (snd (run w (handler r dirname b) s)) = sent s ++ [resp] /\
    well_formed_response r b resp.
Proof.
  rewrite run_handler. unfold well_formed_response.
  destruct (rejection r b) as [resp |] eqn:Hrej.
  { exists resp. simpl. auto. }
  cbv zeta. set (t := tempDir r dirname (date_now w (trace s))).
  pose proof (perform_sent w (MkdirSync t) s eq_refl) as Hm.
  destruct (perform w (MkdirSync t) s) as [[[] | e] s1]; simpl in Hm.
  2:{ eexists. simpl. rewrite Hm. split; [reflexivity |].
      split; [reflexivity |]. right. right. eauto. }
  destruct (run_quiet w (work r b t) s1 (quiet_work r b t)) as [Hw _].
  pose proof (run_returns _ w (work r b t) s1 (work_returns r b t)) as Hret.
  destruct (run w (work r b t) s1) as [[body | e] s2]; simpl in Hw.
  - exists (Json 200 body). simpl. rewrite Hw, Hm.
    split; [reflexivity |]. split; [reflexivity |]. right. left.
    exists body. split; [reflexivity |]. eapply Hret. reflexivity.
  - destruct (run_quiet w (cleanup r t) s2 (quiet_cleanup r t)) as [Hc _].
    eexists. simpl. rewrite Hc, Hw, Hm.
    split; [reflexivity |]. split; [reflexivity |]. right. right. eauto.
Qed.

(** When the scratch directory was created and the work of the
    request then fails with an error, the handler runs its cleanup,
    ignores whether the cleanup itself ends normally or throws, and
    answers once, with status 500, the label of the route and the
    message of that first error; only that error is logged.  The disk
    is left as the cleanup left it. *)
Lemma cleanup_then_original_error (w : World) (r : Route) (dirname : string)
      (b : Req.Body) (s s1 s2 s3 : State) (e : error) (outcome : completion unit) :
  rejection r b = None ->
  perform w (MkdirSync (tempDir r dirname (date_now w (trace s)))) s = (Normal tt, s1) ->
  run w (work r b (tempDir r dirname (date_now w (trace s)))) s1 = (Throw e, s2) ->
  run w (cleanup r (tempDir r dirname (date_now w (trace s)))) s2 = (outcome, s3) ->
  run w (handler r dirname b) s = (Normal tt, respond_500 r e s3) /\
  sent (respond_500 r e s3)
  = sent s ++ [Json 500 (ErrorMessage (failure_label r) (message e))] /\
  console (respond_500 r e s3) = console s ++ [(console_label r, e)] /\
  disk (respond_500 r e s3) = disk s3.
Proof.
  intros Hrej Hmk Hwork Hclean.
  set (t := tempDir r dirname (date_now w (trace s))) in *.
  pose proof (perform_sent w (MkdirSync t) s eq_refl) as Hs1.
  pose proof (perform_console w (MkdirSync t) s eq_refl) as Hc1.
  destruct (run_quiet w _ s1 (quiet_work r b t)) as [Hs2 Hc2].
  destruct (run_quiet w _ s2 (quiet_cleanup r t)) as [Hs3 Hc3].
  rewrite Hmk in Hs1, Hc1. rewrite Hwork in Hs2, Hc2. rewrite Hclean in Hs3, Hc3.
  simpl in Hs1, Hc1, Hs2, Hc2, Hs3, Hc3.
  split.
  - rewrite run_handler, Hrej. cbv zeta. fold t. rewrite Hmk, Hwork, Hclean.
    reflexivity.
  - simpl. rewrite Hs3, Hs2, Hs1, Hc3, Hc2, Hc1. auto.
Qed.

(** ** Strings and paths *)

Lemma append_assoc (a b c : string) : (a +:+ b) +:+ c = a +:+ b +:+ c.
Proof.
  induction a as [| x a IH]; [reflexivity |].
  change (String x ((a +:+ b) +:+ c) = String x (a +:+ b +:+ c)).
  rewrite IH. reflexivity.
Qed.

Lemma prefix_app (a b : string) : String.prefix a (a +:+ b) = true.
Proof.
  induction a as [| c a IH]; [destruct b; reflexivity |].
  change (String.prefix (String c a) (String c (a +:+ b)) = true).
  simpl. destruct (ascii_dec c c); [exact IH | congruence].
Qed.

Lemma path_join_inj (t a b : string) : path_join [t; a] = path_join [t; b] -> a = b.
Proof.
  unfold path_join, join. simpl. intros H.
  apply (inj (String.app t)) in H. apply (inj (String.app "/")) in H. exact H.
Qed.

Lemma inside_path_join (t name : string) : inside t (path_join [t; name]) = true.
Proof.
  unfold inside, path_join, join. simpl.
  change (t +:+ "/" +:+ name) with (t +:+ ("/" +:+ name)).
  rewrite <- append_assoc. apply prefix_app.
Qed.

Ltac path_clash :=
  match goal with
  | H : _ = _ |- _ => apply path_join_inj in H; discriminate H
  end.

Lemma string_of_N_inj (n m : N) : string_of_N n = string_of_N m -> n = m.
Proof.
  unfold string_of_N. intros H.
  apply (f_equal NilEmpty.uint_of_string) in H.
  rewrite !NilEmpty.usu in H. injection H as H.
  apply (f_equal N.of_uint) in H.
  rewrite !DecimalN.Unsigned.of_to in H. exact H.
Qed.

(** The decimal text of a number begins with a digit. *)
Lemma string_of_N_digit (n : N) :
  exists c rest, string_of_N n = String c rest /\ is_Some (Ascii.is_nat c).
Proof.
  unfold string_of_N.
  assert (Hnn : N.to_uint n <> Decimal.Nil).
  { destruct n as [| p]; [discriminate | apply DecimalPos.Unsigned.to_uint_nonnil]. }
  destruct (N.to_uint n); [congruence | ..]; simpl; eauto.
Qed.

(** ** Subject Alternative Names *)

Lemma san_keep_typed (san : SanEntry) :
  san_typed san = true -> san_keep san = Normal (san_valid san).
Proof.
  unfold san_typed, san_keep, san_valid.
  destruct (san_value san) as [| | b | z | s]; simpl; try reflexivity.
  - intros H. apply negb_true_iff in H. rewrite H. reflexivity.
  - intros H. apply negb_true_iff in H. rewrite H. reflexivity.
  - intros _. destruct s; reflexivity.
Qed.

Lemma san_filter_typed (l : list SanEntry) :
  Forall (fun san => san_typed san = true) l ->
  san_filter l = Normal (List.filter san_valid l).
Proof.
  induction 1 as [| san rest Hsan Hrest IH]; simpl; [reflexivity |].
  rewrite (san_keep_typed san Hsan), IH. reflexivity.
Qed.

Lemma san_render_valid (san : SanEntry) (k : nat) :
  san_valid san = true -> san_render san k = Normal (san_line san k).
Proof.
  unfold san_valid, san_render, san_line, san_text.
  destruct (san_value san); intros H; try discriminate. reflexivity.
Qed.

Lemma san_map_valid (kept : list SanEntry) (i : nat) :
  Forall (fun san => san_valid san = true) kept ->
  san_map kept i = Normal (imap (fun j san => san_line san (i + j)) kept).
Proof.
  intros H. revert i.
  induction H as [| san rest Hsan Hrest IH]; intros i; simpl; [reflexivity |].
  rewrite (san_render_valid san i Hsan), (IH (S i)).
  rewrite Nat.add_0_r. f_equal. f_equal.
  apply imap_ext. intros j x _. simpl. f_equal. lia.
Qed.

(** The rendering of a list on which the callbacks do not throw. *)
Lemma sanEntries_list_typed (l : list SanEntry) :
  Forall (fun san => san_typed san = true) l ->
  sanEntries_list l =
  Normal (imap (fun k san => san_line san k) (List.filter san_valid l)).
Proof.
  intros H. unfold sanEntries_list. rewrite (san_filter_typed l H).
  apply san_map_valid. apply List.Forall_forall. intros san Hin.
  apply List.filter_In in Hin. tauto.
Qed.

(** C2, as stated, fails: in the list DNS broker.local, IP 10.0.0.5 the
    first IP entry is rendered IP.2, not IP.1 as a numbering per type
    would have it. *)
Lemma C2_per_type_numbering_fails :
  sanEntries_list [Sample.dns; Sample.ip]
  = Normal ["DNS.1 = broker.local"; "IP.2 = 10.0.0.5"] /\
  spec_sanEntries_list [Sample.dns; Sample.ip]
  = ["DNS.1 = broker.local"; "IP.1 = 10.0.0.5"] /\
  sanEntries_list [Sample.dns; Sample.ip]
  <> Normal (spec_sanEntries_list [Sample.dns; Sample.ip]).
Proof.
  split; [reflexivity |]. split; [reflexivity |]. discriminate.
Qed.

(** The clause follows the length of the array, the alt_names section
    follows the entries the filter keeps. *)
Lemma san_clause_iff_nonempty (f : SanField) :
  san_clause f = "subjectAltName = @alt_names" <->
  exists san rest, f = SanArray (san :: rest).
Proof.
  unfold san_clause, san_present. split.
  - destruct f as [| | [| san rest]]; simpl; try discriminate. eauto.
  - intros (san & rest & ->). reflexivity.
Qed.

Lemma san_line_nonempty (san : SanEntry) (k : nat) : san_line san k <> "".
Proof.
  unfold san_line. destruct (to_string (san_type san)); discriminate.
Qed.

Lemma join_nonempty (sep x : string) (xs : list string) :
  x <> "" -> join sep (x :: xs) <> "".
Proof.
  intros Hx. unfold join. simpl. destruct xs; [exact Hx |].
  destruct x; [congruence | discriminate].
Qed.

(** With no entry left after the filter there is no alt_names section. *)
Lemma sanSection_blank (l : list SanEntry) :
  Forall (fun san => san_typed san = true) l ->
  List.filter san_valid l = [] ->
  sanSection (SanArray l) = Normal "".
Proof.
  intros Htyped Hnone. unfold sanSection, sanEntries.
  rewrite (sanEntries_list_typed l Htyped), Hnone. simpl.
  destruct (0 <? length l)%nat; reflexivity.
Qed.

(** With an entry left there is one, holding a line per entry. *)
Lemma sanSection_valid (l : list SanEntry) :
  Forall (fun san => san_typed san = true) l ->
  List.filter san_valid l <> [] ->
  sanSection (SanArray l)
  = Normal (nl +:+ "[ alt_names ]" +:+ nl +:+
            join nl (imap (fun k san => san_line san k) (List.filter san_valid l))).
Proof.
  intros Htyped Hsome. unfold sanSection, sanEntries.
  rewrite (sanEntries_list_typed l Htyped).
  assert (Hl : san_present (SanArray l) = true).
  { destruct l; [contradiction Hsome; reflexivity | reflexivity]. }
  rewrite Hl.
  destruct (List.filter san_valid l) as [| san kept]; [congruence |].
  assert (Hne : join nl (imap (fun k san => san_line san k) (san :: kept)) <> "").
  { apply join_nonempty, san_line_nonempty. }
  unfold truthy.
  destruct (String.eqb_spec (join nl (imap (fun k san => san_line san k) (san :: kept))) "");
    [contradiction | reflexivity].
Qed.

(** The clause and the section disagree exactly on the arrays that
    are not empty and hold blank entries only. *)
Lemma san_clause_without_alt_names (l : list SanEntry) :
  Forall (fun san => san_typed san = true) l ->
  l <> [] ->
  List.filter san_valid l = [] ->
  san_clause (SanArray l) = "subjectAltName = @alt_names" /\
  sanSection (SanArray l) = Normal "".
Proof.
  intros Htyped Hl Hnone. split; [| apply sanSection_blank; assumption].
  destruct l; [contradiction | reflexivity].
Qed.

(** C3, at the failing input.  For a broker whose only SAN entry is
    blank, no entry is left after the filter and no alt_names section
    is built, yet the extension section still holds the clause
    subjectAltName = @alt_names, in the CSR configuration and in the
    signing configuration alike; the configuration written to the disk
    names an alt_names section that it does not hold. *)
Theorem C3_blank_entries_keep_san_clause :
  let b := Sample.broker [Sample.blank] in
  List.filter san_valid [Sample.blank] = [] /\
  sanSection (GenerateBrokerCsr.subjectAltNames b) = Normal "" /\
  GenerateBrokerCsr.v3_req b ""
  = [ "keyUsage = critical, digitalSignature, keyEncipherment, keyAgreement";
      "extendedKeyUsage = serverAuth";
      "subjectAltName = @alt_names";
      "" ] /\
  SignBrokerCert.signingConfig_lines b ""
  = [ "";
      "[ v3_broker ]";
      "basicConstraints = CA:FALSE";
      "subjectKeyIdentifier = hash";
      "authorityKeyIdentifier = keyid,issuer";
      "keyUsage = critical, digitalSignature, keyEncipherment, keyAgreement";
      "extendedKeyUsage = serverAuth";
      "subjectAltName = @alt_names";
      "";
      "" ] /\
  trace (snd (run (Mock.world Sample.now false)
                  (handler GenerateBrokerCsrRoute Sample.dirname b) Mock.start))
  !! 2
  = Some (EvWrite "/srv/app/temp/broker-1700000000000/broker-openssl.cnf"
            (join nl
               [ ""; "[ req ]"; "default_bits       = 2048";
                 "distinguished_name = req_distinguished_name";
                 "req_extensions     = v3_req"; "prompt             = no";
                 ""; "[ req_distinguished_name ]";
                 ""; ""; ""; ""; ""; "CN = broker.local"; "";
                 ""; "[ v3_req ]";
                 "keyUsage = critical, digitalSignature, keyEncipherment, keyAgreement";
                 "extendedKeyUsage = serverAuth";
                 "subjectAltName = @alt_names";
                 "";
                 "" ])).
Proof.
  do 4 (split; [reflexivity |]). vm_compute. reflexivity.
Qed.

(** C4, as stated, fails: an entry of type URI is not dropped; it is
    rendered with its type. *)
Lemma C4_unknown_type_is_rendered :
  spec_type_ok Sample.uri = false /\
  sanEntries_list [Sample.uri] = Normal ["URI.1 = mqtt://broker.local"] /\
  sanEntries_list [Sample.uri] <> Normal [].
Proof.
  split; [reflexivity |]. split; [reflexivity |]. discriminate.
Qed.

(** ** The defaults of the Root CA *)

Lemma root_ca_calls (b : Req.Body) (t : string) :
  calls_only (root_ca_event b t) (work GenerateRootCaRoute b t) /\
  calls_only (root_ca_event b t) (cleanup GenerateRootCaRoute t).
Proof.
  unfold calls_only. simpl work. simpl cleanup.
  unfold GenerateRootCa.work, GenerateRootCa.cleanup.
  split; walk; event_goal; auto.
Qed.

(** C5, as amended.  A field absent from the body of a Root CA request
    takes the default of the handler: Common Name MQTT Root CA,
    Organization MQTT Organization, Country US, State California,
    Locality San Francisco, and 3650 days of validity.  The section
    and the command these defaults go into are the ones every run of
    the handler writes and executes. *)
Theorem C5_root_ca_defaults (b : Req.Body) :
  (Req.commonName b = Undefined ->
   In "CN = MQTT Root CA" (GenerateRootCa.distinguished_name b)) /\
  (Req.organization b = Undefined ->
   In "O  = MQTT Organization" (GenerateRootCa.distinguished_name b)) /\
  (Req.country b = Undefined ->
   In "C  = US" (GenerateRootCa.distinguished_name b)) /\
  (Req.state b = Undefined ->
   In "ST = California" (GenerateRootCa.distinguished_name b)) /\
  (Req.locality b = Undefined ->
   In "L  = San Francisco" (GenerateRootCa.distinguished_name b)) /\
  (Req.validityDays b = Undefined ->
   forall t, GenerateRootCa.issue_command b t
             = "openssl req -new -x509 -days 3650 -key " +:+
               GenerateRootCa.caKeyPath t +:+ " -out " +:+
               GenerateRootCa.caCertPath t +:+ " -config " +:+
               GenerateRootCa.configPath t) /\
  (forall w dirname s, exists evs,
     new_events s (snd (run w (handler GenerateRootCaRoute dirname b) s)) evs /\
     let t := GenerateRootCa.tempDir dirname (date_now w (trace s)) in
     (forall p c, In (EvWrite p c) evs ->
        c = join nl
              ([ ""; "[ req ]"; "default_bits       = 2048";
                 "distinguished_name = req_distinguished_name";
                 "x509_extensions    = v3_ca"; "prompt             = no";
                 ""; "[ req_distinguished_name ]" ]
               ++ GenerateRootCa.distinguished_name b
               ++ [ ""; "[ v3_ca ]";
                    "subjectKeyIdentifier = hash";
                    "authorityKeyIdentifier = keyid:always,issuer";
                    "basicConstraints = critical,CA:true";
                    "keyUsage = critical, digitalSignature, cRLSign, keyCertSign";
                    "" ])) /\
     (forall cmd, In (EvExec cmd) evs ->
        cmd = "openssl ecparam -name " +:+
              to_string (Js.default (Req.curve b) (Str "prime256v1")) +:+
              " -genkey -noout -out " +:+ GenerateRootCa.caKeyPath t
        \/ cmd = GenerateRootCa.issue_command b t
        \/ cmd = "openssl x509 -in " +:+ GenerateRootCa.caCertPath t +:+
                 " -text -noout")).
Proof.
  unfold GenerateRootCa.distinguished_name, GenerateRootCa.issue_command,
    GenerateRootCa.commonName, GenerateRootCa.organization, GenerateRootCa.country,
    GenerateRootCa.state, GenerateRootCa.locality, GenerateRootCa.validityDays.
  repeat (split; [intros H; rewrite H; simpl; auto 10 |]).
  intros w dirname s.
  destruct (root_ca_calls b (tempDir GenerateRootCaRoute dirname (date_now w (trace s))))
    as [Hw Hc].
  destruct (handler_events _ w GenerateRootCaRoute dirname b s I Hw Hc)
    as (evs & Hevs & HQ).
  exists evs. split; [exact Hevs |]. rewrite List.Forall_forall in HQ.
  split.
  - intros p c Hin. destruct (HQ _ Hin) as [_ ->]. reflexivity.
  - intros cmd Hin. exact (HQ _ Hin).
Qed.

Lemma C5_root_ca_defaults_witness :
  In "CN = MQTT Root CA" (GenerateRootCa.distinguished_name Req.empty) /\
  In "O  = MQTT Organization" (GenerateRootCa.distinguished_name Req.empty) /\
  In "C  = US" (GenerateRootCa.distinguished_name Req.empty) /\
  In "ST = California" (GenerateRootCa.distinguished_name Req.empty) /\
  In "L  = San Francisco" (GenerateRootCa.distinguished_name Req.empty) /\
  GenerateRootCa.issue_command Req.empty "/srv/app/temp/ca-1"
  = "openssl req -new -x509 -days 3650 -key /srv/app/temp/ca-1/ca-key.pem -out /srv/app/temp/ca-1/ca-cert.pem -config /srv/app/temp/ca-1/ca-openssl.cnf".
Proof.
  destruct (C5_root_ca_defaults Req.empty)
    as (Hcn & Horg & Hc & Hst & Hl & Hdays & _).
  split; [exact (Hcn eq_refl) |]. split; [exact (Horg eq_refl) |].
  split; [exact (Hc eq_refl) |]. split; [exact (Hst eq_refl) |].
  split; [exact (Hl eq_refl) |].
  exact (Hdays eq_refl "/srv/app/temp/ca-1").
Defined.

(** C5, as stated, fails: with an empty body the Common Name used is
    MQTT Root CA and the Organization is MQTT Organization, not Root
    CA and Organization. *)
Lemma C5_defaults_are_not_those_of_the_specification :
  GenerateRootCa.distinguished_name Req.empty
  = [ "C  = US"; "ST = California"; "L  = San Francisco";
      "O  = MQTT Organization"; ""; "CN = MQTT Root CA"; "" ] /\
  ~ In "CN = Root CA" (GenerateRootCa.distinguished_name Req.empty) /\
  ~ In "O  = Organization" (GenerateRootCa.distinguished_name Req.empty).
Proof.
  split; [reflexivity |].
  split; simpl; intros H; repeat (destruct H as [H | H]; [discriminate H |]);
    exact H.
Qed.

(** ** Validation of the Common Name *)

(** C6, as amended.  A broker CSR request whose Common Name is absent
    or falsy is answered with status 400 and one error object, and
    nothing else happens: no directory, no file, no command.  The Root
    CA handler has no such check: given the same body it answers with
    a success or with a 500, never with a 400, and an absent Common
    Name becomes MQTT Root CA. *)
Theorem C6_common_name_validation (w : World) (dirname : string) (b : Req.Body)
        (s : State) :
  truthy (Req.commonName b) = false ->
  (exists final,
     run w (handler GenerateBrokerCsrRoute dirname b) s = (Normal tt, final) /\
     sent final
     = sent s ++ [Json 400 (ErrorOnly
                              "Common Name (CN) is required for broker certificate")] /\
     disk final = disk s /\ trace final = trace s) /\
  (exists resp,
     sent (snd (run w (handler GenerateRootCaRoute dirname b) s)) = sent s ++ [resp] /\
     status resp <> 400) /\
  (Req.commonName b = Undefined ->
   In "CN = MQTT Root CA" (GenerateRootCa.distinguished_name b)).
Proof.
  intros Hcn. split; [| split].
  - rewrite run_handler. simpl rejection. rewrite Hcn. simpl.
    eexists. split; [reflexivity |]. simpl. auto.
  - destruct (handler_sends_one_response w GenerateRootCaRoute dirname b s)
      as (resp & _ & Hsent & Hresp).
    exists resp. split; [exact Hsent |].
    destruct Hresp as [Hrej | [(body & -> & _) | (e & ->)]];
      [discriminate Hrej | simpl; lia | simpl; lia].
  - intros H. unfold GenerateRootCa.distinguished_name, GenerateRootCa.commonName.
    rewrite H. simpl. auto 10.
Qed.

Lemma C6_common_name_validation_witness :
  exists final,
    run (Mock.world Sample.now false)
        (handler GenerateBrokerCsrRoute Sample.dirname Sample.broker_without_cn)
        Mock.start = (Normal tt, final) /\
    sent final
    = [Json 400 (ErrorOnly "Common Name (CN) is required for broker certificate")] /\
    disk final = disk Mock.start /\ trace final = [].
Proof.
  exact (proj1 (C6_common_name_validation
                  (Mock.world Sample.now false) Sample.dirname
                  Sample.broker_without_cn Mock.start eq_refl)).
Defined.

(** C6, as stated, fails for the Root CA: a request with no Common
    Name (the empty body) is served, and the key and the certificate
    are returned. *)
Lemma C6_root_ca_without_common_name_is_served :
  truthy (Req.commonName Req.empty) = false /\
  sent (snd (run (Mock.world Sample.now false)
                 (handler GenerateRootCaRoute Sample.dirname Req.empty)
                 Mock.start))
  = [Json 200 (CaSuccess
                 "EC PRIVATE KEY prime256v1"
                 "CERTIFICATE self-signed with EC PRIVATE KEY prime256v1"
                 "Certificate: CERTIFICATE self-signed with EC PRIVATE KEY prime256v1")].
Proof. split; [reflexivity | vm_compute; reflexivity]. Qed.

(** ** The cleanup after a failure *)

Lemma cleanup_unlink_all (r : Route) (t : string) :
  cleanup r t = unlink_all (cleanup_paths r t) (rmdir_if_exists t).
Proof. destruct r; reflexivity. Qed.

Lemma cleanup_paths_inside (r : Route) (t p : string) :
  In p (cleanup_paths r t) -> inside t p = true.
Proof.
  destruct r; simpl; intros H;
    repeat (destruct H as [<- | H]; [apply inside_path_join |]); destruct H.
Qed.

(** One guarded unlink on a healthy platform. *)
Lemma run_unlink_if_exists (w : World) (p : string) (s : State) :
  no_fault w ->
  p ∉ dirs (disk s) ->
  exists s',
    run w (unlink_if_exists p) s = (Normal tt, s') /\
    files (disk s') = delete p (files (disk s)) /\
    dirs (disk s') = dirs (disk s).
Proof.
  intros Hw Hp. unfold unlink_if_exists.
  rewrite run_bind. unfold existsSync. rewrite run_call. simpl.
  rewrite (bool_decide_eq_false_2 _ Hp), orb_false_r.
  destruct (files (disk s) !! p) as [c |] eqn:Hf.
  - rewrite bool_decide_eq_true_2 by eauto.
    unfold unlinkSync. rewrite run_call_throwing. simpl.
    rewrite Hw, Hf. eexists. split; [reflexivity |]. simpl. auto.
  - rewrite bool_decide_eq_false_2 by (intros [? ?]; congruence).
    simpl. eexists. split; [reflexivity |].
    rewrite delete_id by exact Hf. auto.
Qed.

Lemma run_unlink_all (w : World) (ps : list string) (k : Prog unit) (s : State) :
  no_fault w ->
  (forall p, In p ps -> p ∉ dirs (disk s)) ->
  exists s',
    run w (unlink_all ps k) s = run w k s' /\
    (forall q, files (disk s') !! q
               = if bool_decide (q ∈ ps) then None else files (disk s) !! q) /\
    dirs (disk s') = dirs (disk s).
Proof.
  intros Hw. revert s. induction ps as [| p rest IH]; intros s Hps.
  - exists s. split; [reflexivity |]. split; [| reflexivity].
    intros q. rewrite bool_decide_eq_false_2 by apply not_elem_of_nil. reflexivity.
  - change (unlink_all (p :: rest) k) with (unlink_if_exists p ;; unlink_all rest k).
    destruct (run_unlink_if_exists w p s Hw) as (s1 & Hrun & Hf1 & Hd1).
    { apply Hps. left. reflexivity. }
    destruct (IH s1) as (s2 & Hrun2 & Hf2 & Hd2).
    { intros q Hq. rewrite Hd1. apply Hps. right. exact Hq. }
    exists s2. rewrite run_bind, Hrun, Hrun2. split; [reflexivity |].
    rewrite Hd2, Hd1. split; [| reflexivity].
    intros q. rewrite Hf2, Hf1.
    destruct (decide (q ∈ rest)) as [Hin | Hnin].
    + rewrite !bool_decide_eq_true_2; [reflexivity | | exact Hin].
      apply list_elem_of_further. exact Hin.
    + rewrite (bool_decide_eq_false_2 _ Hnin).
      destruct (decide (p = q)) as [-> | Hne].
      * rewrite lookup_delete_eq, bool_decide_eq_true_2 by apply list_elem_of_here.
        reflexivity.
      * rewrite lookup_delete_ne by exact Hne.
        rewrite bool_decide_eq_false_2; [reflexivity |].
        intros [Heq | Hin]%elem_of_cons; [congruence | contradiction].
Qed.

(** On a healthy platform, when the scratch directory holds no
    directory and no file besides those the cleanup looks for, the
    cleanup ends normally and leaves nothing of the directory. *)
Lemma cleanup_removes_scratch (w : World) (r : Route) (t : string) (s : State) :
  no_fault w ->
  t ∈ dirs (disk s) ->
  (forall d, d ∈ dirs (disk s) -> inside t d = false) ->
  (forall p, is_Some (files (disk s) !! p) -> inside t p = true ->
             In p (cleanup_paths r t)) ->
  exists s',
    run w (cleanup r t) s = (Normal tt, s') /\
    (t ∉ dirs (disk s')) /\
    (forall p, inside t p = true -> files (disk s') !! p = None) /\
    (forall p, inside t p = false -> files (disk s') !! p = files (disk s) !! p).
Proof.
  intros Hw Ht Hdirs Hfiles. rewrite cleanup_unlink_all.
  destruct (run_unlink_all w (cleanup_paths r t) (rmdir_if_exists t) s Hw)
    as (s1 & Hrun & Hf1 & Hd1).
  { intros p Hp Hdir. apply cleanup_paths_inside in Hp.
    rewrite (Hdirs p Hdir) in Hp. discriminate Hp. }
  rewrite Hrun. clear Hrun.
  assert (Hgone : forall p, inside t p = true -> files (disk s1) !! p = None).
  { intros p Hp. rewrite Hf1. destruct (decide (p ∈ cleanup_paths r t)) as [Hin | Hnin].
    - rewrite bool_decide_eq_true_2 by exact Hin. reflexivity.
    - rewrite bool_decide_eq_false_2 by exact Hnin.
      destruct (files (disk s) !! p) as [c |] eqn:Hl; [| reflexivity].
      exfalso. apply Hnin, list_elem_of_In, Hfiles; eauto. }
  assert (Hempty : dir_empty t (disk s1) = true).
  { unfold dir_empty. apply andb_true_iff. split; apply List.forallb_forall.
    - intros p Hp. apply list_elem_of_In, elem_of_elements, elem_of_dom in Hp.
      destruct (inside t p) eqn:Hin; [| reflexivity].
      rewrite (Hgone p Hin) in Hp. destruct Hp as [? Hp]. discriminate Hp.
    - intros d Hd. apply list_elem_of_In, elem_of_elements in Hd.
      rewrite Hd1 in Hd. rewrite (Hdirs d Hd). reflexivity. }
  unfold rmdir_if_exists. rewrite run_bind. unfold existsSync. rewrite run_call.
  simpl. rewrite <- Hd1 in Ht.
  rewrite (bool_decide_eq_true_2 _ Ht), orb_true_r.
  unfold rmdirSync. rewrite run_call_throwing. simpl.
  rewrite Hw, (bool_decide_eq_true_2 _ Ht), Hempty. simpl.
  eexists. split; [reflexivity |]. simpl. split.
  { intros [_ Hnot]%elem_of_difference. apply Hnot, elem_of_singleton. reflexivity. }
  split; [exact Hgone |].
  intros p Hp. rewrite Hf1.
  destruct (decide (p ∈ cleanup_paths r t)) as [Hin | Hnin].
  - apply list_elem_of_In, cleanup_paths_inside in Hin. congruence.
  - rewrite bool_decide_eq_false_2 by exact Hnin. reflexivity.
Qed.

(** The serial file is in the scratch directory of a signing route,
    and is not among the files its cleanup looks for. *)
Lemma serial_file_not_covered (t : string) :
  In (SignClientCert.serialPath t) (scratch_paths SignClientCertRoute t) /\
  ~ In (SignClientCert.serialPath t) (cleanup_paths SignClientCertRoute t) /\
  In (SignBrokerCert.serialPath t) (scratch_paths SignBrokerCertRoute t) /\
  ~ In (SignBrokerCert.serialPath t) (cleanup_paths SignBrokerCertRoute t).
Proof.
  repeat split; simpl; auto 10;
    intros H; repeat (destruct H as [H | H]; [symmetry in H; path_clash |]);
    exact H.
Qed.

(** The general statement applied to this request: the error of the
    cleanup does not reach the caller. *)
Lemma cleanup_then_original_error_example :
  run Mismatch.world (handler SignClientCertRoute Sample.dirname Mismatch.body)
      Mock.start
  = (Normal tt, respond_500 SignClientCertRoute Mismatch.failure
                            Mismatch.after_cleanup) /\
  sent (respond_500 SignClientCertRoute Mismatch.failure Mismatch.after_cleanup)
  = [Json 500 (ErrorMessage "Failed to sign client certificate"
                            (message Mismatch.failure))].
Proof.
  destruct (cleanup_then_original_error
              Mismatch.world SignClientCertRoute Sample.dirname Mismatch.body
              Mock.start Mismatch.after_mkdir Mismatch.after_work
              Mismatch.after_cleanup Mismatch.failure Mismatch.cleanup_outcome)
    as (Hrun & Hsent & _).
  - reflexivity.
  - vm_compute. reflexivity.
  - vm_compute. reflexivity.
  - vm_compute. reflexivity.
  - split; [exact Hrun | exact Hsent].
Qed.

(** C8, at the failing input.  A client signing request whose CA key
    does not belong to the CA certificate: the signing command gives
    up after it has written the serial file.  The [catch] block
    removes the five files it looks for and not the serial file, so
    [rmdirSync] throws; that error is swallowed and the caller gets
    the one response with the message of the signing error, but the
    serial file and the scratch directory stay on the disk.  When the
    signing succeeds, the same request leaves nothing behind. *)
Theorem C8_failed_signing_leaves_serial_file :
  run Mismatch.world (work SignClientCertRoute Mismatch.body Mismatch.tempDir)
      Mismatch.after_mkdir
  = (Throw Mismatch.failure, Mismatch.after_work) /\
  run Mismatch.world (cleanup SignClientCertRoute Mismatch.tempDir)
      Mismatch.after_work
  = (Throw (Error "ENOTEMPTY: directory not empty, rmdir '/srv/app/temp/sign-client-1700000000000'"),
     Mismatch.after_cleanup) /\
  sent (snd (run Mismatch.world
                 (handler SignClientCertRoute Sample.dirname Mismatch.body)
                 Mock.start))
  = [Json 500 (ErrorMessage "Failed to sign client certificate"
                            (message Mismatch.failure))] /\
  disk (snd (run Mismatch.world
                 (handler SignClientCertRoute Sample.dirname Mismatch.body)
                 Mock.start))
  = mkFs {[ SignClientCert.serialPath Mismatch.tempDir := "01" ]}
         {[ Mismatch.tempDir ]} /\
  disk (snd (run (Mock.world Sample.now false)
                 (handler SignClientCertRoute Sample.dirname Mismatch.body)
                 Mock.start))
  = mkFs ∅ ∅.
Proof.
  split; [vm_compute; reflexivity |].
  split; [vm_compute; reflexivity |].
  split; [vm_compute; reflexivity |].
  split; vm_compute; reflexivity.
Qed.

(** ** The names of the scratch directories *)

(** On one route, the scratch directory is named after the clock
    alone: two clock values give two names, one clock value one name. *)
Lemma tempDir_inj (r : Route) (dirname : string) (n m : N) :
  tempDir r dirname n = tempDir r dirname m -> n = m.
Proof.
  destruct r; simpl;
    unfold GenerateCsr.tempDir, GenerateBrokerCsr.tempDir, GenerateRootCa.tempDir,
      SignClientCert.tempDir, SignBrokerCert.tempDir, path_join, join; simpl;
    intros H; repeat (apply (inj (String.app _)) in H);
    apply string_of_N_inj; exact H.
Qed.

(** Two routes never name the same scratch directory. *)
Lemma tempDir_route_inj (r r' : Route) (dirname : string) (n m : N) :
  tempDir r dirname n = tempDir r' dirname m -> r = r'.
Proof.
  destruct (string_of_N_digit n) as (c & rest & Hn & Hc).
  destruct (string_of_N_digit m) as (c' & rest' & Hm & Hc').
  destruct r, r'; try reflexivity; simpl;
    unfold GenerateCsr.tempDir, GenerateBrokerCsr.tempDir, GenerateRootCa.tempDir,
      SignClientCert.tempDir, SignBrokerCert.tempDir, path_join, join; simpl;
    intros H; exfalso; do 4 (apply (inj (String.app _)) in H);
    rewrite ?Hn, ?Hm in H;
    cbv beta iota delta [String.append] in H;
    try discriminate H;
    injection H as H _; subst;
    first [ destruct Hc as [? Hc]; discriminate Hc
          | destruct Hc' as [? Hc']; discriminate Hc' ].
Qed.

(** When the two requests read different clock values, the same turns
    leave each with its own key. *)
Lemma requests_apart_keep_their_keys :
  map Race.key_of (res_first Race.outcome_apart)
  = [Some "EC PRIVATE KEY prime256v1"] /\
  map Race.key_of (res_second Race.outcome_apart)
  = [Some "EC PRIVATE KEY secp384r1"] /\
  List.filter (fun ev => match ev with EvMkdir _ => true | _ => false end)
              (pool_trace Race.outcome_apart)
  = [ EvMkdir "/srv/app/temp/1700000000000";
      EvMkdir "/srv/app/temp/1700000000001" ].
Proof. repeat split; vm_compute; reflexivity. Qed.

(** C9, at the failing input.  Two client requests that read the same
    clock value use the same scratch directory and the same file
    names; the second [mkdirSync] does not fail.  Served alone, the
    first request is answered with its own key; served in turns with
    the second, it is answered with the key of the second, and the
    second gets an error because its files were removed by the
    first. *)
Theorem C9_same_millisecond_requests_share_scratch :
  List.filter (fun ev => match ev with EvMkdir _ => true | _ => false end)
              (pool_trace Race.outcome)
  = [ EvMkdir (GenerateCsr.tempDir Sample.dirname (date_now Race.world []));
      EvMkdir (GenerateCsr.tempDir Sample.dirname (date_now Race.world [])) ] /\
  map Race.key_of
      (sent (snd (run Race.world (handler GenerateCsrRoute Sample.dirname Sample.client)
                      Mock.start)))
  = [Some "EC PRIVATE KEY prime256v1"] /\
  map Race.key_of (res_first Race.outcome) = [Some "EC PRIVATE KEY secp384r1"] /\
  res_second Race.outcome
  = [Json 500 (ErrorMessage "Failed to generate CSR"
       "Command failed: openssl req -text -noout -in /srv/app/temp/1700000000000/csr.pem")].
Proof.
  split; [vm_compute; reflexivity |].
  split; [vm_compute; reflexivity |].
  split; vm_compute; reflexivity.
Qed.

(** ** The ways a request ends *)

Lemma rejection_status (r : Route) (b : Req.Body) (resp : Response) :
  rejection r b = Some resp -> status resp = 400.
Proof.
  destruct r; simpl; try discriminate;
    match goal with |- context [if ?c then _ else _] => destruct c end;
    intros H; try discriminate H; injection H as <-; reflexivity.
Qed.

(** A run only adds to the record of calls. *)
Lemma run_trace (w : World) {A : Type} (p : Prog A) (s : State) :
  exists evs, trace (snd (run w p s)) = trace s ++ evs.
Proof.
  destruct (run_calls_only w (fun _ => True) p s) as (evs & Hevs & _).
  - unfold calls_only. induction p as [a | e | X op k IH]; simpl; auto.
  - exists evs. exact Hevs.
Qed.

(** The four ways a request ends: rejected by the validation; no
    scratch directory; served; failed and cleaned up. *)
Lemma handler_outcome (w : World) (r : Route) (dirname : string) (b : Req.Body)
      (s : State) :
  let t := tempDir r dirname (date_now w (trace s)) in
  (exists resp,
     rejection r b = Some resp /\
     run w (handler r dirname b) s = (Normal tt, respond resp s))
  \/ (rejection r b = None /\
      exists e s1,
        perform w (MkdirSync t) s = (Throw e, s1) /\
        run w (handler r dirname b) s = (Normal tt, respond_500 r e s1) /\
        sent s1 = sent s /\ console s1 = console s)
  \/ (rejection r b = None /\
      exists s1 body s2,
        perform w (MkdirSync t) s = (Normal tt, s1) /\
        run w (work r b t) s1 = (Normal body, s2) /\
        run w (handler r dirname b) s = (Normal tt, respond (Json 200 body) s2) /\
        sent s2 = sent s /\ console s2 = console s)
  \/ (rejection r b = None /\
      exists s1 e s2 outcome s3,
        perform w (MkdirSync t) s = (Normal tt, s1) /\
        run w (work r b t) s1 = (Throw e, s2) /\
        run w (cleanup r t) s2 = (outcome, s3) /\
        run w (handler r dirname b) s = (Normal tt, respond_500 r e s3) /\
        sent s3 = sent s /\ console s3 = console s).
Proof.
  intros t. rewrite run_handler.
  destruct (rejection r b) as [resp |] eqn:Hrej; [left; eauto |].
  right. cbv zeta. fold t.
  pose proof (perform_sent w (MkdirSync t) s eq_refl) as Hs1.
  pose proof (perform_console w (MkdirSync t) s eq_refl) as Hc1.
  destruct (perform w (MkdirSync t) s) as [[[] | e] s1] eqn:Hmk; simpl in Hs1, Hc1.
  2:{ left. split; [reflexivity |]. exists e, s1. repeat split; auto. }
  right.
  destruct (run_quiet w _ s1 (quiet_work r b t)) as [Hs2 Hc2].
  destruct (run w (work r b t) s1) as [[body | e] s2] eqn:Hwork; simpl in Hs2, Hc2.
  - left. split; [reflexivity |]. exists s1, body, s2.
    rewrite Hs2, Hc2. repeat split; auto.
  - right. split; [reflexivity |].
    destruct (run_quiet w _ s2 (quiet_cleanup r t)) as [Hs3 Hc3].
    destruct (run w (cleanup r t) s2) as [outcome s3] eqn:Hclean; simpl in Hs3, Hc3.
    exists s1, e, s2, outcome, s3. rewrite Hs3, Hc3, Hs2, Hc2. repeat split; auto.
Qed.

(** A request that passes the validation begins by creating its
    scratch directory. *)
Lemma handler_begins_with_mkdir (w : World) (r : Route) (dirname : string)
      (b : Req.Body) (s : State) :
  rejection r b = None ->
  exists evs,
    trace (snd (run w (handler r dirname b) s))
    = trace s ++ EvMkdir (tempDir r dirname (date_now w (trace s))) :: evs.
Proof.
  intros Hrej. rewrite run_handler, Hrej. cbv zeta.
  set (t := tempDir r dirname (date_now w (trace s))).
  pose proof (perform_trace w (MkdirSync t) s) as Hm.
  destruct (perform w (MkdirSync t) s) as [[[] | e] s1]; simpl in Hm.
  2:{ exists []. exact Hm. }
  destruct (run_trace w (work r b t) s1) as (evs1 & He1).
  destruct (run w (work r b t) s1) as [[body | e] s2]; simpl in He1.
  - exists evs1. simpl. rewrite He1, Hm, <- app_assoc. reflexivity.
  - destruct (run_trace w (cleanup r t) s2) as (evs2 & He2).
    exists (evs1 ++ evs2). simpl. rewrite He2, He1, Hm, <- !app_assoc. reflexivity.
Qed.

Lemma handler_rejects_iff (w : World) (r : Route) (dirname : string)
      (b : Req.Body) (s : State) (resp : Response) :
  rejection r b = Some resp <->
  run w (handler r dirname b) s = (Normal tt, respond resp s).
Proof.
  split.
  - intros H. rewrite run_handler, H. reflexivity.
  - intros H. destruct (rejection r b) as [resp' |] eqn:Hrej.
    + rewrite run_handler, Hrej in H. injection H as H.
      apply app_inv_head in H. congruence.
    + destruct (handler_begins_with_mkdir w r dirname b s Hrej) as (evs & Hevs).
      rewrite H in Hevs. simpl in Hevs.
      rewrite <- (app_nil_r (trace s)) in Hevs at 1.
      apply app_inv_head in Hevs. discriminate Hevs.
Qed.


(** X2.  A client CSR request is answered 400 with the error Missing
    required fields, and nothing else happens (no directory, no file,
    no command, no log), exactly when one of Common Name,
    Organization, Country, State and Locality is absent or falsy. *)
Theorem X2_client_csr_required_fields (w : World) (dirname : string)
        (b : Req.Body) (s : State) :
  truthy (Req.commonName b) && truthy (Req.organization b)
  && truthy (Req.country b) && truthy (Req.state b)
  && truthy (Req.locality b) = false
  <->
  run w (handler GenerateCsrRoute dirname b) s
  = (Normal tt,
     mkState (disk s)
             (sent s ++ [Json 400 (ErrorOnly "Missing required fields")])
             (console s) (trace s)).
Proof.
  change (mkState (disk s)
            (sent s ++ [Json 400 (ErrorOnly "Missing required fields")])
            (console s) (trace s))
    with (respond (Json 400 (ErrorOnly "Missing required fields")) s).
  rewrite <- handler_rejects_iff. simpl. unfold GenerateCsr.missing_required.
  destruct (truthy (Req.commonName b)), (truthy (Req.organization b)),
    (truthy (Req.country b)), (truthy (Req.state b)), (truthy (Req.locality b));
    simpl; split; intros H; try reflexivity; discriminate H.
Qed.

(** X3.  A signing request, for a client or for a broker, is answered
    400 with the error CSR, CA Key, and CA Certificate are required,
    and nothing else happens, exactly when one of csr, caKey and
    caCert is absent or falsy. *)
Theorem X3_signing_required_fields (w : World) (dirname : string)
        (b : Req.Body) (s : State) :
  let rejected :=
    (Normal tt,
     mkState (disk s)
             (sent s ++ [Json 400 (ErrorOnly
                                     "CSR, CA Key, and CA Certificate are required")])
             (console s) (trace s)) in
  (truthy (Req.csr b) && truthy (Req.caKey b) && truthy (Req.caCert b) = false
   <-> run w (handler SignClientCertRoute dirname b) s = rejected) /\
  (truthy (Req.csr b) && truthy (Req.caKey b) && truthy (Req.caCert b) = false
   <-> run w (handler SignBrokerCertRoute dirname b) s = rejected).
Proof.
  cbv zeta.
  change (mkState (disk s)
            (sent s ++ [Json 400 (ErrorOnly
                                    "CSR, CA Key, and CA Certificate are required")])
            (console s) (trace s))
    with (respond (Json 400 (ErrorOnly
                               "CSR, CA Key, and CA Certificate are required")) s).
  rewrite <- !handler_rejects_iff. simpl.
  unfold SignClientCert.missing_required, SignBrokerCert.missing_required.
  destruct (truthy (Req.csr b)), (truthy (Req.caKey b)), (truthy (Req.caCert b));
    simpl; repeat split; intros H; try reflexivity; discriminate H.
Qed.

(** X4.  When the scratch directory cannot be created, the request is
    answered 500 with the label of the route and the message of that
    error, which is logged; the handler makes no other call: no
    command is run, no file is written and no cleanup is attempted. *)
Theorem X4_no_scratch_directory (w : World) (r : Route) (dirname : string)
        (b : Req.Body) (s : State) (e : error) :
  rejection r b = None ->
  fs_fault w (trace s)
           (CallMkdir (tempDir r dirname (date_now w (trace s)))) (disk s) = Some e ->
  run w (handler r dirname b) s
  = (Normal tt,
     mkState (disk s)
             (sent s ++ [Json 500 (ErrorMessage (failure_label r) (message e))])
             (console s ++ [(console_label r, e)])
             (trace s ++ [EvMkdir (tempDir r dirname (date_now w (trace s)))])).
Proof.
  intros Hrej Hfault. rewrite run_handler, Hrej. cbv zeta. simpl perform.
  rewrite Hfault. reflexivity.
Qed.

Lemma X4_no_scratch_directory_witness :
  run ReadOnly.world (handler GenerateRootCaRoute Sample.dirname Req.empty) Mock.start
  = (Normal tt,
     mkState (mkFs ∅ ∅)
             [Json 500 (ErrorMessage "Failed to generate Root CA"
                                     "EACCES: permission denied, mkdir")]
             [("Error generating Root CA:", ReadOnly.denied)]
             [EvMkdir "/srv/app/temp/ca-1700000000000"]).
Proof.
  apply (X4_no_scratch_directory ReadOnly.world GenerateRootCaRoute Sample.dirname
           Req.empty Mock.start ReadOnly.denied); reflexivity.
Defined.

(** X5.  When the work of a request fails after its scratch directory
    was created, the one answer is a 500 with the message of that
    first error, and that error is the one logged, whether the
    cleanup that follows ends normally or throws; the disk is left as
    the cleanup left it. *)
Theorem X5_first_error_is_reported (w : World) (r : Route) (dirname : string)
        (b : Req.Body) (s s1 s2 : State) (e : error) :
  rejection r b = None ->
  perform w (MkdirSync (tempDir r dirname (date_now w (trace s)))) s = (Normal tt, s1) ->
  run w (work r b (tempDir r dirname (date_now w (trace s)))) s1 = (Throw e, s2) ->
  exists final,
    run w (handler r dirname b) s = (Normal tt, final) /\
    sent final = sent s ++ [Json 500 (ErrorMessage (failure_label r) (message e))] /\
    console final = console s ++ [(console_label r, e)] /\
    disk final
    = disk (snd (run w (cleanup r (tempDir r dirname (date_now w (trace s)))) s2)).
Proof.
  intros Hrej Hmk Hwork.
  destruct (run w (cleanup r (tempDir r dirname (date_now w (trace s)))) s2)
    as [outcome s3] eqn:Hclean.
  destruct (cleanup_then_original_error w r dirname b s s1 s2 s3 e outcome
              Hrej Hmk Hwork Hclean) as (Hrun & Hsent & Hcons & Hdisk).
  eexists. split; [exact Hrun |]. auto.
Qed.

Lemma X5_first_error_is_reported_witness :
  exists final,
    run Mismatch.world (handler SignClientCertRoute Sample.dirname Mismatch.body)
        Mock.start = (Normal tt, final) /\
    sent final
    = [Json 500 (ErrorMessage "Failed to sign client certificate"
                              (message Mismatch.failure))] /\
    console final = [("Error signing client certificate:", Mismatch.failure)] /\
    disk final
    = disk (snd (run Mismatch.world
                     (cleanup SignClientCertRoute Mismatch.tempDir) Mismatch.after_work)).
Proof.
  apply (X5_first_error_is_reported Mismatch.world SignClientCertRoute Sample.dirname
           Mismatch.body Mock.start Mismatch.after_mkdir Mismatch.after_work
           Mismatch.failure).
  - reflexivity.
  - vm_compute. reflexivity.
  - vm_compute. reflexivity.
Defined.

(** ** What is left of the scratch directory *)

Lemma run_bind_normal (w : World) {A B : Type} (p : Prog A) (f : A -> Prog B)
      (s s' : State) (b : B) :
  run w (bind p f) s = (Normal b, s') ->
  exists a s1, run w p s = (Normal a, s1) /\ run w (f a) s1 = (Normal b, s').
Proof.
  rewrite run_bind. destruct (run w p s) as [[a | e] s1]; [eauto | discriminate].
Qed.

Lemma dir_empty_spec (t : string) (f : Fs) :
  dir_empty t f = true <->
  (forall p, inside t p = true -> files f !! p = None) /\
  (forall d, d ∈ dirs f -> inside t d = false).
Proof.
  unfold dir_empty. rewrite andb_true_iff, !List.forallb_forall. split.
  - intros [Hf Hd]. split.
    + intros p Hp. destruct (files f !! p) as [c |] eqn:Hl; [| reflexivity].
      assert (Hin : In p (elements (dom (files f)))).
      { apply list_elem_of_In, elem_of_elements, elem_of_dom. eauto. }
      apply Hf in Hin. rewrite Hp in Hin. discriminate Hin.
    + intros d Hd'. apply negb_true_iff, Hd, list_elem_of_In, elem_of_elements, Hd'.
  - intros [Hf Hd]. split.
    + intros p Hp. apply list_elem_of_In, elem_of_elements, elem_of_dom in Hp.
      destruct (inside t p) eqn:Hin; [| reflexivity].
      rewrite (Hf p Hin) in Hp. destruct Hp as [? Hp]. discriminate Hp.
    + intros d Hd'. apply list_elem_of_In, elem_of_elements in Hd'.
      rewrite (Hd d Hd'). reflexivity.
Qed.

(** A [rmdirSync] that returns found the directory empty and removed it. *)
Lemma perform_rmdir_normal (w : World) (t : string) (s s' : State) :
  perform w (RmdirSync t) s = (Normal tt, s') ->
  dir_empty t (disk s) = true /\
  files (disk s') = files (disk s) /\
  dirs (disk s') = dirs (disk s) ∖ {[t]}.
Proof.
  simpl. destruct (fs_fault w (trace s) (CallRmdir t) (disk s)); [discriminate |].
  destruct (negb (bool_decide (t ∈ dirs (disk s)))); [discriminate |].
  destruct (dir_empty t (disk s)); [| discriminate].
  intros H. injection H as <-. auto.
Qed.

(** Peels the statements of a block that returned, up to its last
    [rmdirSync]. *)
Ltac peel H :=
  repeat match type of H with
         | run _ (bind (rmdirSync _) _) _ = _ => fail 1
         | run _ (bind _ _) _ = _ =>
             apply run_bind_normal in H; destruct H as (? & ? & _ & H);
             cbv beta in H
         end.

(** The last call of a [try] block that returns is the [rmdirSync] of
    the scratch directory, and it succeeded. *)
Lemma work_ends_with_rmdir (w : World) (r : Route) (b : Req.Body) (t : string)
      (s1 s2 : State) (body : Payload) :
  run w (work r b t) s1 = (Normal body, s2) ->
  exists s', perform w (RmdirSync t) s' = (Normal tt, s2).
Proof.
  intros H.
  destruct r; simpl work in H;
    [ unfold GenerateCsr.work in H | unfold GenerateBrokerCsr.work in H
    | unfold GenerateRootCa.work in H | unfold SignClientCert.work in H
    | unfold SignBrokerCert.work in H ];
    peel H;
    apply run_bind_normal in H; destruct H as ([] & s' & Hrm & H);
    unfold rmdirSync in Hrm; rewrite run_call_throwing in Hrm;
    simpl in H; injection H as _ <-; eauto.
Qed.

Lemma scratch_paths_inside (r : Route) (t p : string) :
  In p (scratch_paths r t) -> inside t p = true.
Proof.
  destruct r; simpl; intros H;
    repeat (destruct H as [<- | H]; [apply inside_path_join |]); destruct H.
Qed.

(** X6.  Whatever the environment does, a request answered 200 leaves
    nothing of its scratch directory: the directory is gone, and no
    file and no directory is left inside it.  In particular the
    private key of a generated CSR or CA, and the CA key sent with a
    signing request, are no longer on the disk when the answer is
    sent. *)
Theorem X6_served_request_leaves_no_scratch (w : World) (r : Route)
        (dirname : string) (b : Req.Body) (s : State) (body : Payload) :
  sent (snd (run w (handler r dirname b) s)) = sent s ++ [Json 200 body] ->
  let t := tempDir r dirname (date_now w (trace s)) in
  let final := snd (run w (handler r dirname b) s) in
  (t ∉ dirs (disk final)) /\
  (forall p, inside t p = true -> files (disk final) !! p = None) /\
  (forall d, d ∈ dirs (disk final) -> inside t d = false).
Proof.
  intros Hsent t final. subst final.
  destruct (handler_outcome w r dirname b s)
    as [(resp & Hrej & Hrun)
       | [(Hrej & e & s1 & Hmk & Hrun & Hs & Hc)
         | [(Hrej & s1 & body' & s2 & Hmk & Hwork & Hrun & Hs & Hc)
           | (Hrej & s1 & e & s2 & outcome & s3 & Hmk & Hwork & Hclean & Hrun & Hs & Hc)]]];
    rewrite Hrun in *; simpl in Hsent; rewrite ?Hs in Hsent;
    apply app_inv_head in Hsent.
  - apply rejection_status in Hrej. injection Hsent as ->. discriminate Hrej.
  - discriminate Hsent.
  - fold t in Hwork.
    destruct (work_ends_with_rmdir w r b t s1 s2 body' Hwork) as (s' & Hrm).
    apply perform_rmdir_normal in Hrm. destruct Hrm as (Hempty & Hf & Hd).
    apply dir_empty_spec in Hempty. destruct Hempty as [Hfiles Hdirs].
    simpl. rewrite Hf, Hd. split; [| split].
    + intros [_ Hnot]%elem_of_difference. apply Hnot, elem_of_singleton. reflexivity.
    + exact Hfiles.
    + intros d [Hin _]%elem_of_difference. apply Hdirs, Hin.
  - discriminate Hsent.
Qed.

Lemma X6_served_request_leaves_no_scratch_witness :
  let final :=
    snd (run (Mock.world Sample.now false)
             (handler SignClientCertRoute Sample.dirname Mismatch.body) Mock.start) in
  (Mismatch.tempDir ∉ dirs (disk final)) /\
  (forall p, inside Mismatch.tempDir p = true -> files (disk final) !! p = None) /\
  (forall d, d ∈ dirs (disk final) -> inside Mismatch.tempDir d = false).
Proof.
  apply (X6_served_request_leaves_no_scratch
           (Mock.world Sample.now false) SignClientCertRoute Sample.dirname
           Mismatch.body Mock.start
           (SignSuccess "CERTIFICATE for CERTIFICATE REQUEST"
                        "Certificate: CERTIFICATE for CERTIFICATE REQUEST")).
  vm_compute. reflexivity.
Defined.

Lemma work_and_cleanup_stay_in_scratch (r : Route) (b : Req.Body) (t : string) :
  let Q ev :=
    match ev with
    | EvExec _ => True
    | EvMkdir p | EvRmdir p => p = t
    | EvWrite p _ | EvRead p => In p (cleanup_paths r t)
    | EvUnlink p => In p (scratch_paths r t)
    end in
  calls_only Q (work r b t) /\ calls_only Q (cleanup r t).
Proof.
  unfold calls_only.
  destruct r; simpl work; simpl cleanup;
    [ unfold GenerateCsr.work, GenerateCsr.cleanup
    | unfold GenerateBrokerCsr.work, GenerateBrokerCsr.cleanup
    | unfold GenerateRootCa.work, GenerateRootCa.cleanup
    | unfold SignClientCert.work, SignClientCert.cleanup
    | unfold SignBrokerCert.work, SignBrokerCert.cleanup ];
    split; walk; event_goal; auto 10.
Qed.

(** X7.  Whatever the request and whatever the environment does, the
    file-system calls of a handler stay in its scratch directory: the
    one directory it creates or removes is the scratch directory, the
    files it writes and reads are among those its [catch] block looks
    for, the files it unlinks are these and, on the signing routes,
    the serial file; all of them are directly inside the scratch
    directory. *)
Theorem X7_calls_stay_in_scratch (w : World) (r : Route) (dirname : string)
        (b : Req.Body) (s : State) :
  let t := tempDir r dirname (date_now w (trace s)) in
  exists evs,
    new_events s (snd (run w (handler r dirname b) s)) evs /\
    (forall p, In (EvMkdir p) evs \/ In (EvRmdir p) evs -> p = t) /\
    (forall p c, In (EvWrite p c) evs ->
                 In p (cleanup_paths r t) /\ inside t p = true) /\
    (forall p, In (EvRead p) evs -> In p (cleanup_paths r t) /\ inside t p = true) /\
    (forall p, In (EvUnlink p) evs -> In p (scratch_paths r t) /\ inside t p = true).
Proof.
  intros t.
  destruct (work_and_cleanup_stay_in_scratch r b t) as [Hw Hc].
  destruct (handler_events _ w r dirname b s eq_refl Hw Hc) as (evs & Hevs & HQ).
  exists evs. split; [exact Hevs |]. rewrite List.Forall_forall in HQ.
  split; [| split; [| split]].
  - intros p [Hin | Hin]; exact (HQ _ Hin).
  - intros p c Hin. pose proof (HQ _ Hin) as H. simpl in H.
    split; [exact H | apply (cleanup_paths_inside r), H].
  - intros p Hin. pose proof (HQ _ Hin) as H. simpl in H.
    split; [exact H | apply (cleanup_paths_inside r), H].
  - intros p Hin. pose proof (HQ _ Hin) as H. simpl in H.
    split; [exact H | apply (scratch_paths_inside r), H].
Qed.

Lemma only_known_spec (r : Route) (t : string) (f : Fs) :
  only_known r t f = true <->
  (forall p, is_Some (files f !! p) -> inside t p = true -> In p (cleanup_paths r t)) /\
  (forall d, d ∈ dirs f -> inside t d = false).
Proof.
  unfold only_known. rewrite andb_true_iff, !List.forallb_forall. split.
  - intros [Hf Hd]. split.
    + intros p Hp Hin.
      assert (Hel : In p (elements (dom (files f)))).
      { apply list_elem_of_In, elem_of_elements, elem_of_dom, Hp. }
      apply Hf in Hel. rewrite Hin in Hel. simpl in Hel.
      apply bool_decide_eq_true_1 in Hel. apply list_elem_of_In, Hel.
    + intros d Hd'. apply negb_true_iff, Hd, list_elem_of_In, elem_of_elements, Hd'.
  - intros [Hf Hd]. split.
    + intros p Hp. apply list_elem_of_In, elem_of_elements, elem_of_dom in Hp.
      destruct (inside t p) eqn:Hin; [| reflexivity]. simpl.
      apply bool_decide_eq_true_2, list_elem_of_In, Hf; assumption.
    + intros d Hd'. apply list_elem_of_In, elem_of_elements in Hd'.
      rewrite (Hd d Hd'). reflexivity.
Qed.

(** On a healthy platform, when the scratch directory holds no
    directory and no file besides those the cleanup looks for, the
    cleanup leaves nothing of it, whether the directory itself is
    still there or not. *)
Lemma cleanup_leaves_nothing (w : World) (r : Route) (t : string) (s : State) :
  no_fault w ->
  only_known r t (disk s) = true ->
  let s' := snd (run w (cleanup r t) s) in
  (t ∉ dirs (disk s')) /\
  (forall p, inside t p = true -> files (disk s') !! p = None) /\
  (forall p, inside t p = false -> files (disk s') !! p = files (disk s) !! p).
Proof.
  intros Hw Hknown. apply only_known_spec in Hknown. destruct Hknown as [Hfiles Hdirs].
  rewrite cleanup_unlink_all.
  destruct (run_unlink_all w (cleanup_paths r t) (rmdir_if_exists t) s Hw)
    as (s1 & Hrun & Hf1 & Hd1).
  { intros p Hp Hdir. apply cleanup_paths_inside in Hp.
    rewrite (Hdirs p Hdir) in Hp. discriminate Hp. }
  rewrite Hrun. clear Hrun.
  assert (Hgone : forall p, inside t p = true -> files (disk s1) !! p = None).
  { intros p Hp. rewrite Hf1. destruct (decide (p ∈ cleanup_paths r t)) as [Hin | Hnin].
    - rewrite bool_decide_eq_true_2 by exact Hin. reflexivity.
    - rewrite bool_decide_eq_false_2 by exact Hnin.
      destruct (files (disk s) !! p) as [c |] eqn:Hl; [| reflexivity].
      exfalso. apply Hnin, list_elem_of_In, Hfiles; eauto. }
  assert (Hkept : forall p, inside t p = false ->
                            files (disk s1) !! p = files (disk s) !! p).
  { intros p Hp. rewrite Hf1.
    destruct (decide (p ∈ cleanup_paths r t)) as [Hin | Hnin].
    - apply list_elem_of_In, cleanup_paths_inside in Hin. congruence.
    - rewrite bool_decide_eq_false_2 by exact Hnin. reflexivity. }
  assert (Hempty : dir_empty t (disk s1) = true).
  { apply dir_empty_spec. split; [exact Hgone |]. rewrite Hd1. exact Hdirs. }
  unfold rmdir_if_exists. rewrite run_bind. unfold existsSync. rewrite run_call.
  simpl fst. simpl snd.
  destruct (decide (t ∈ dirs (disk s1))) as [Ht | Ht].
  - rewrite (bool_decide_eq_true_2 _ Ht), orb_true_r.
    unfold rmdirSync. rewrite run_call_throwing. simpl.
    rewrite Hw, (bool_decide_eq_true_2 _ Ht), Hempty. simpl.
    split; [| split; assumption].
    intros [_ Hnot]%elem_of_difference. apply Hnot, elem_of_singleton. reflexivity.
  - rewrite (bool_decide_eq_false_2 _ Ht), orb_false_r.
    destruct (bool_decide (is_Some (files (disk s1) !! t))).
    + unfold rmdirSync. rewrite run_call_throwing. simpl.
      rewrite Hw, (bool_decide_eq_false_2 _ Ht). simpl. auto.
    + simpl. auto.
Qed.

(** X8.  On a platform that raises no I/O error of its own, when the
    work of a request fails and the scratch directory holds at that
    time no directory and no file besides those the [catch] block
    looks for, the handler leaves nothing of the scratch directory,
    touches no file outside it, and answers 500 with the message of
    the error. *)
Theorem X8_failed_request_leaves_no_known_file (w : World) (r : Route)
        (dirname : string) (b : Req.Body) (s s1 s2 : State) (e : error) :
  let t := tempDir r dirname (date_now w (trace s)) in
  no_fault w ->
  rejection r b = None ->
  perform w (MkdirSync t) s = (Normal tt, s1) ->
  run w (work r b t) s1 = (Throw e, s2) ->
  only_known r t (disk s2) = true ->
  let final := snd (run w (handler r dirname b) s) in
  sent final = sent s ++ [Json 500 (ErrorMessage (failure_label r) (message e))] /\
  (t ∉ dirs (disk final)) /\
  (forall p, inside t p = true -> files (disk final) !! p = None) /\
  (forall p, inside t p = false -> files (disk final) !! p = files (disk s2) !! p).
Proof.
  intros t Hw Hrej Hmk Hwork Hknown final. subst final.
  destruct (run w (cleanup r t) s2) as [outcome s3] eqn:Hclean.
  destruct (cleanup_then_original_error w r dirname b s s1 s2 s3 e outcome
              Hrej Hmk Hwork Hclean) as (Hrun & Hsent & _ & Hdisk).
  rewrite Hrun. simpl snd. split; [exact Hsent |]. rewrite Hdisk.
  pose proof (cleanup_leaves_nothing w r t s2 Hw Hknown) as H.
  rewrite Hclean in H. exact H.
Qed.

Lemma X8_failed_request_leaves_no_known_file_witness :
  let final :=
    snd (run BadSan.world (handler SignBrokerCertRoute Sample.dirname BadSan.body)
             Mock.start) in
  sent final
  = [Json 500 (ErrorMessage "Failed to sign broker certificate"
                            "san.value.trim is not a function")] /\
  (BadSan.tempDir ∉ dirs (disk final)) /\
  (forall p, inside BadSan.tempDir p = true -> files (disk final) !! p = None) /\
  (forall p, inside BadSan.tempDir p = false ->
             files (disk final) !! p = files (disk BadSan.after_work) !! p).
Proof.
  apply (X8_failed_request_leaves_no_known_file
           BadSan.world SignBrokerCertRoute Sample.dirname BadSan.body Mock.start
           BadSan.after_mkdir BadSan.after_work
           (Error "san.value.trim is not a function")).
  - intros history call f. reflexivity.
  - reflexivity.
  - vm_compute. reflexivity.
  - vm_compute. reflexivity.
  - vm_compute. reflexivity.
Defined.

(** ** SAN entries whose value is not a string *)

Lemma san_keep_untyped (san : SanEntry) :
  san_typed san = false -> san_keep san = Throw not_a_function.
Proof.
  unfold san_typed, san_keep.
  destruct (san_value san) as [| | v | z | s]; simpl; try discriminate.
  - intros H. apply negb_false_iff in H. rewrite H. reflexivity.
  - intros H. apply negb_false_iff in H. rewrite H. reflexivity.
Qed.

Lemma san_filter_untyped (l : list SanEntry) :
  Exists (fun san => san_typed san = false) l ->
  san_filter l = Throw not_a_function.
Proof.
  induction l as [| san rest IH]; intros H; [inversion H |].
  simpl. destruct (san_typed san) eqn:Hsan.
  - rewrite (san_keep_typed san Hsan).
    inversion H as [? ? Hhd | ? ? Htl]; subst; [congruence |].
    rewrite (IH Htl). reflexivity.
  - rewrite (san_keep_untyped san Hsan). reflexivity.
Qed.

Lemma typed_or_not (l : list SanEntry) :
  Forall (fun san => san_typed san = true) l \/
  Exists (fun san => san_typed san = false) l.
Proof.
  induction l as [| san rest [IH | IH]].
  - left. constructor.
  - destruct (san_typed san) eqn:Hsan.
    + left. constructor; assumption.
    + right. apply Exists_cons_hd. exact Hsan.
  - right. apply Exists_cons_tl. exact IH.
Qed.

(** X9.  The SAN list is rendered exactly when the value of every
    entry is a string or is falsy (absent, null, false, 0, empty).  An
    entry with any other value, such as a number or true, makes the
    rendering throw the TypeError of calling [trim] on it; no other
    error is possible: the entries the filter keeps all have a string
    for value, so the [trim] of the map callback never throws. *)
Theorem X9_san_list_throws_on_non_string_value (l : list SanEntry) :
  ((exists lines, sanEntries_list l = Normal lines) <->
   Forall (fun san => san_typed san = true) l) /\
  (sanEntries_list l = Throw (Error "san.value.trim is not a function") <->
   Exists (fun san => san_typed san = false) l) /\
  (forall e, sanEntries_list l = Throw e ->
             e = Error "san.value.trim is not a function").
Proof.
  assert (Hthrow : Exists (fun san => san_typed san = false) l ->
                   sanEntries_list l = Throw not_a_function).
  { intros H. unfold sanEntries_list. rewrite (san_filter_untyped l H). reflexivity. }
  split; [| split].
  - split.
    + intros [lines Hl]. destruct (typed_or_not l) as [H | H]; [exact H |].
      rewrite (Hthrow H) in Hl. discriminate Hl.
    + intros H. eexists. apply (sanEntries_list_typed l H).
  - split; [| exact Hthrow].
    intros Hl. destruct (typed_or_not l) as [H | H]; [| exact H].
    rewrite (sanEntries_list_typed l H) in Hl. discriminate Hl.
  - intros e Hl. destruct (typed_or_not l) as [H | H].
    + rewrite (sanEntries_list_typed l H) in Hl. discriminate Hl.
    + rewrite (Hthrow H) in Hl. injection Hl as <-. reflexivity.
Qed.

Lemma sanSection_untyped (l : list SanEntry) :
  Exists (fun san => san_typed san = false) l ->
  sanSection (san_default (SanArray l)) = Throw not_a_function.
Proof.
  intros H. simpl san_default. unfold sanSection, sanEntries, sanEntries_list.
  rewrite (san_filter_untyped l H).
  destruct l; [inversion H | reflexivity].
Qed.

Lemma broker_csr_calls_bad_san (b : Req.Body) (t : string) (e : error) :
  sanSection (GenerateBrokerCsr.subjectAltNames b) = Throw e ->
  let Q ev :=
    match ev with
    | EvWrite _ _ | EvRead _ => False
    | EvExec cmd =>
        cmd = "openssl ecparam -name " +:+ to_string (GenerateBrokerCsr.curve b) +:+
              " -genkey -noout -out " +:+ GenerateBrokerCsr.privateKeyPath t
    | _ => True
    end in
  calls_only Q (work GenerateBrokerCsrRoute b t) /\
  calls_only Q (cleanup GenerateBrokerCsrRoute t).
Proof.
  intros He. unfold calls_only. simpl work. simpl cleanup.
  unfold GenerateBrokerCsr.work, GenerateBrokerCsr.cleanup.
  split; walk; try congruence; event_goal; auto.
Qed.

Lemma sign_broker_calls_bad_san (b : Req.Body) (t : string) (e : error) :
  sanSection (SignBrokerCert.subjectAltNames b) = Throw e ->
  let Q ev :=
    match ev with
    | EvExec _ | EvRead _ => False
    | EvWrite p c =>
        (p = SignBrokerCert.csrPath t /\ Req.csr b = Str c)
        \/ (p = SignBrokerCert.caKeyPath t /\ Req.caKey b = Str c)
        \/ (p = SignBrokerCert.caCertPath t /\ Req.caCert b = Str c)
    | _ => True
    end in
  calls_only Q (work SignBrokerCertRoute b t) /\
  calls_only Q (cleanup SignBrokerCertRoute t).
Proof.
  intros He. unfold calls_only. simpl work. simpl cleanup.
  unfold SignBrokerCert.work, SignBrokerCert.cleanup.
  split; [| walk; event_goal; auto].
  destruct (Req.csr b) as [| | ? | ? | csr]; simpl write_value; try exact I;
    destruct (Req.caKey b) as [| | ? | ? | caKey]; simpl write_value;
    try (walk; event_goal; auto; fail);
    destruct (Req.caCert b) as [| | ? | ? | caCert]; simpl write_value;
    walk; try congruence; event_goal; auto 10.
Qed.

Lemma broker_csr_stops_at_bad_san (b : Req.Body) (t : string) (e : error) :
  sanSection (GenerateBrokerCsr.subjectAltNames b) = Throw e ->
  returns (fun _ => False) (work GenerateBrokerCsrRoute b t).
Proof.
  intros He. simpl work. unfold GenerateBrokerCsr.work. rewrite He.
  simpl. intros [x | e']; exact I.
Qed.

Lemma sign_broker_stops_at_bad_san (b : Req.Body) (t : string) (e : error) :
  sanSection (SignBrokerCert.subjectAltNames b) = Throw e ->
  returns (fun _ => False) (work SignBrokerCertRoute b t).
Proof.
  intros He. simpl work. unfold SignBrokerCert.work. rewrite He.
  destruct (Req.csr b), (Req.caKey b), (Req.caCert b); simpl;
    try exact I; repeat (intros [? | ?]; simpl; try exact I).
Qed.

(** A request whose work cannot return is not answered 200. *)
Lemma handler_not_served (w : World) (r : Route) (dirname : string) (b : Req.Body)
      (s : State) :
  returns (fun _ => False) (work r b (tempDir r dirname (date_now w (trace s)))) ->
  exists resp,
    sent (snd (run w (handler r dirname b) s)) = sent s ++ [resp] /\
    status resp <> 200.
Proof.
  intros Hnever.
  destruct (handler_outcome w r dirname b s)
    as [(resp & Hrej & Hrun)
       | [(Hrej & e & s1 & Hmk & Hrun & Hs & Hc)
         | [(Hrej & s1 & body' & s2 & Hmk & Hwork & Hrun & Hs & Hc)
           | (Hrej & s1 & e & s2 & outcome & s3 & Hmk & Hwork & Hclean & Hrun & Hs & Hc)]]];
    rewrite Hrun; simpl; rewrite ?Hs.
  - exists resp. split; [reflexivity |].
    rewrite (rejection_status r b resp Hrej). discriminate.
  - eexists. split; [reflexivity | discriminate].
  - destruct (run_returns _ w _ s1 Hnever body' s2 Hwork).
  - eexists. split; [reflexivity | discriminate].
Qed.

(** X10.  A broker request, for a CSR or for a signature, whose SAN
    list holds an entry with a truthy value that is not a string is
    never answered 200, whatever the environment does.  The CSR
    handler runs at most the key generation and writes no file; the
    signing handler runs no command at all and writes at most the
    three files sent with the request: the configuration is never
    written and nothing is read back. *)
Theorem X10_bad_san_value_stops_the_request (w : World) (dirname : string)
        (b : Req.Body) (s : State) (l : list SanEntry) :
  Req.subjectAltNames b = SanArray l ->
  Exists (fun san => san_typed san = false) l ->
  (exists evs resp,
     new_events s (snd (run w (handler GenerateBrokerCsrRoute dirname b) s)) evs /\
     (forall p c, ~ In (EvWrite p c) evs) /\
     (forall p, ~ In (EvRead p) evs) /\
     (forall cmd, In (EvExec cmd) evs ->
        cmd = "openssl ecparam -name " +:+
              to_string (Js.default (Req.curve b) (Str "prime256v1")) +:+
              " -genkey -noout -out " +:+
              GenerateBrokerCsr.privateKeyPath
                (GenerateBrokerCsr.tempDir dirname (date_now w (trace s)))) /\
     sent (snd (run w (handler GenerateBrokerCsrRoute dirname b) s)) = sent s ++ [resp] /\
     status resp <> 200) /\
  (exists evs resp,
     new_events s (snd (run w (handler SignBrokerCertRoute dirname b) s)) evs /\
     (forall cmd, ~ In (EvExec cmd) evs) /\
     (forall p, ~ In (EvRead p) evs) /\
     (forall p c, In (EvWrite p c) evs ->
        let t := SignBrokerCert.tempDir dirname (date_now w (trace s)) in
        (p = SignBrokerCert.csrPath t /\ Req.csr b = Str c)
        \/ (p = SignBrokerCert.caKeyPath t /\ Req.caKey b = Str c)
        \/ (p = SignBrokerCert.caCertPath t /\ Req.caCert b = Str c)) /\
     sent (snd (run w (handler SignBrokerCertRoute dirname b) s)) = sent s ++ [resp] /\
     status resp <> 200).
Proof.
  intros Hb Hbad.
  pose proof (sanSection_untyped l Hbad) as Hsec. rewrite <- Hb in Hsec.
  split.
  - destruct (broker_csr_calls_bad_san
                b (tempDir GenerateBrokerCsrRoute dirname (date_now w (trace s))) _ Hsec)
      as [Hw Hc].
    destruct (handler_events _ w GenerateBrokerCsrRoute dirname b s I Hw Hc)
      as (evs & Hevs & HQ).
    destruct (handler_not_served w GenerateBrokerCsrRoute dirname b s
                (broker_csr_stops_at_bad_san b _ _ Hsec)) as (resp & Hsent & Hstatus).
    exists evs, resp. rewrite List.Forall_forall in HQ.
    split; [exact Hevs |].
    split; [intros p c Hin; exact (HQ _ Hin) |].
    split; [intros p Hin; exact (HQ _ Hin) |].
    split; [intros cmd Hin; exact (HQ _ Hin) |]. auto.
  - destruct (sign_broker_calls_bad_san
                b (tempDir SignBrokerCertRoute dirname (date_now w (trace s))) _ Hsec)
      as [Hw Hc].
    destruct (handler_events _ w SignBrokerCertRoute dirname b s I Hw Hc)
      as (evs & Hevs & HQ).
    destruct (handler_not_served w SignBrokerCertRoute dirname b s
                (sign_broker_stops_at_bad_san b _ _ Hsec)) as (resp & Hsent & Hstatus).
    exists evs, resp. rewrite List.Forall_forall in HQ.
    split; [exact Hevs |].
    split; [intros cmd Hin; exact (HQ _ Hin) |].
    split; [intros p Hin; exact (HQ _ Hin) |].
    split; [intros p c Hin; exact (HQ _ Hin) |]. auto.
Qed.

Lemma X10_bad_san_value_stops_the_request_witness :
  sent (snd (run BadSan.world (handler SignBrokerCertRoute Sample.dirname BadSan.body)
                 Mock.start))
  = [Json 500 (ErrorMessage "Failed to sign broker certificate"
                            "san.value.trim is not a function")] /\
  exists evs resp,
    new_events Mock.start
               (snd (run BadSan.world
                         (handler GenerateBrokerCsrRoute Sample.dirname
                                  (Sample.broker [Sample.dns; mkSan (Str "IP") (Bool true)]))
                         Mock.start)) evs /\
    (forall p c, ~ In (EvWrite p c) evs) /\
    (forall p, ~ In (EvRead p) evs) /\
    (forall cmd, In (EvExec cmd) evs ->
       cmd = "openssl ecparam -name prime256v1 -genkey -noout -out /srv/app/temp/broker-1700000000000/broker-private-key.pem") /\
    sent (snd (run BadSan.world
                   (handler GenerateBrokerCsrRoute Sample.dirname
                            (Sample.broker [Sample.dns; mkSan (Str "IP") (Bool true)]))
                   Mock.start)) = [] ++ [resp] /\
    status resp <> 200.
Proof.
  split; [vm_compute; reflexivity |].
  refine (proj1 (X10_bad_san_value_stops_the_request
                   BadSan.world Sample.dirname
                   (Sample.broker [Sample.dns; mkSan (Str "IP") (Bool true)])
                   Mock.start [Sample.dns; mkSan (Str "IP") (Bool true)]
                   eq_refl _)).
  apply Exists_cons_tl, Exists_cons_hd. reflexivity.
Defined.

(** ** The alt_names section and the clause that refers to it *)

(** X11.  An alt_names section is never written without the clause
    that refers to it: whenever the section built from the SAN field
    of a request is not empty, it is the header [[ alt_names ]]
    followed by at least one entry, and the extension section holds
    the line subjectAltName = @alt_names. *)
Theorem X11_alt_names_section_has_its_clause (f : SanField) (section : string) :
  sanSection f = Normal section ->
  section <> "" ->
  san_clause f = "subjectAltName = @alt_names" /\
  exists lines,
    lines <> [] /\
    (exists l, f = SanArray l /\ sanEntries_list l = Normal lines) /\
    section = nl +:+ "[ alt_names ]" +:+ nl +:+ join nl lines.
Proof.
  unfold sanSection, san_clause, sanEntries.
  destruct f as [| | l]; simpl san_present; try (intros H; injection H as <-; congruence).
  destruct (0 <? length l)%nat; [| intros H; injection H as <-; congruence].
  destruct (sanEntries_list l) as [lines | e] eqn:Hl; [| discriminate].
  destruct (truthy (Str (join nl lines))) eqn:Ht;
    intros H Hne; injection H as <-; [| congruence].
  split; [reflexivity |]. exists lines. split; [| split; [eauto | reflexivity]].
  intros ->. discriminate Ht.
Qed.

Lemma X11_alt_names_section_has_its_clause_witness :
  san_clause (SanArray [Sample.dns; Sample.blank; Sample.ip])
  = "subjectAltName = @alt_names" /\
  exists lines,
    lines <> [] /\
    (exists l, SanArray [Sample.dns; Sample.blank; Sample.ip] = SanArray l /\
               sanEntries_list l = Normal lines) /\
    nl +:+ "[ alt_names ]" +:+ nl +:+ "DNS.1 = broker.local" +:+ nl +:+ "IP.2 = 10.0.0.5"
    = nl +:+ "[ alt_names ]" +:+ nl +:+ join nl lines.
Proof.
  apply (X11_alt_names_section_has_its_clause
           (SanArray [Sample.dns; Sample.blank; Sample.ip])
           (nl +:+ "[ alt_names ]" +:+ nl +:+ "DNS.1 = broker.local" +:+ nl +:+
            "IP.2 = 10.0.0.5")).
  - reflexivity.
  - discriminate.
Defined.

(** ** Scratch directories of different requests *)

Lemma lacks_app (c : ascii) (a b : string) :
  lacks c (a +:+ b) = lacks c a && lacks c b.
Proof.
  induction a as [| x a IH]; [reflexivity |].
  change (lacks c (String x (a +:+ b)) = lacks c (String x a) && lacks c b).
  simpl. rewrite IH, andb_assoc. reflexivity.
Qed.

(** The decimal text of a number holds neither a separator nor a
    full stop. *)
Lemma lacks_string_of_N (n : N) :
  lacks "/" (string_of_N n) = true /\ lacks "." (string_of_N n) = true.
Proof.
  unfold string_of_N. generalize (N.to_uint n).
  induction u as [| u [? ?] | u [? ?] | u [? ?] | u [? ?] | u [? ?] | u [? ?]
                 | u [? ?] | u [? ?] | u [? ?] | u [? ?]]; simpl; auto.
Qed.

Lemma lacks_scratch_name (r : Route) (n : N) : lacks "/" (scratch_name r n) = true.
Proof.
  destruct r; simpl; rewrite ?lacks_app, (proj1 (lacks_string_of_N n)); reflexivity.
Qed.

Lemma tempDir_scratch_name (r : Route) (dirname : string) (n : N) :
  tempDir r dirname n = (dirname +:+ "/temp/") +:+ scratch_name r n.
Proof.
  rewrite append_assoc. destruct r; reflexivity.
Qed.

Lemma prefix_app_cancel (a u v : string) :
  String.prefix (a +:+ u) (a +:+ v) = String.prefix u v.
Proof.
  induction a as [| c a IH]; [reflexivity |].
  change (String.prefix (String c (a +:+ u)) (String c (a +:+ v)) = String.prefix u v).
  simpl. destruct (ascii_dec c c); [exact IH | congruence].
Qed.

Lemma string_prefix_empty (a : string) : String.prefix "" a = true.
Proof. destruct a; reflexivity. Qed.

(** Two prefixes of one string: one is a prefix of the other. *)
Lemma prefix_of_common (a b p : string) :
  String.prefix a p = true -> String.prefix b p = true ->
  String.prefix a b = true \/ String.prefix b a = true.
Proof.
  revert b p. induction a as [| c a IH]; intros b p Ha Hb.
  - left. apply string_prefix_empty.
  - destruct b as [| c' b]; [right; reflexivity |].
    destruct p as [| c'' p]; [discriminate Ha |].
    simpl in Ha, Hb.
    destruct (ascii_dec c c'') as [-> |]; [| discriminate Ha].
    destruct (ascii_dec c' c'') as [-> |]; [| discriminate Hb].
    simpl. destruct (ascii_dec c'' c''); [| congruence].
    exact (IH b p Ha Hb).
Qed.

Lemma prefix_cons (c c' : ascii) (a b : string) :
  String.prefix (String c a) (String c' b)
  = if ascii_dec c c' then String.prefix a b else false.
Proof. reflexivity. Qed.

(** A text without [c], followed by [c], is a prefix of another such:
    the texts are the same. *)
Lemma lacks_prefix (c : ascii) (x x' rest : string) :
  lacks c x = true -> lacks c x' = true ->
  String.prefix (x +:+ String c "") (x' +:+ String c rest) = true -> x = x'.
Proof.
  revert x'. induction x as [| a x IH]; intros x' Hx Hx' H.
  - destruct x' as [| a' x']; [reflexivity |].
    change (String.prefix (String c "") (String a' (x' +:+ String c rest)) = true) in H.
    rewrite prefix_cons in H.
    destruct (ascii_dec c a') as [<- |]; [| discriminate H].
    simpl in Hx'. rewrite Ascii.eqb_refl in Hx'. discriminate Hx'.
  - destruct x' as [| a' x'].
    + change (String.prefix (String a (x +:+ String c "")) (String c rest) = true) in H.
      rewrite prefix_cons in H.
      destruct (ascii_dec a c) as [-> |]; [| discriminate H].
      simpl in Hx. rewrite Ascii.eqb_refl in Hx. discriminate Hx.
    + change (String.prefix (String a (x +:+ String c ""))
                            (String a' (x' +:+ String c rest)) = true) in H.
      rewrite prefix_cons in H. simpl in Hx, Hx'.
      destruct (ascii_dec a a') as [-> |]; [| discriminate H].
      apply andb_true_iff in Hx, Hx'. f_equal. apply IH; tauto.
Qed.

(** A text followed by [c] is not a prefix of a text without [c]. *)
Lemma lacks_not_prefix (c : ascii) (x x' : string) :
  lacks c x' = true -> String.prefix (x +:+ String c "") x' = false.
Proof.
  revert x'. induction x as [| a x IH]; intros x' Hx'.
  - destruct x' as [| a' x']; [reflexivity |].
    change (String.prefix (String c "") (String a' x') = false).
    rewrite prefix_cons.
    destruct (ascii_dec c a') as [<- |]; [| reflexivity].
    simpl in Hx'. rewrite Ascii.eqb_refl in Hx'. discriminate Hx'.
  - destruct x' as [| a' x']; [reflexivity |].
    change (String.prefix (String a (x +:+ String c "")) (String a' x') = false).
    rewrite prefix_cons. simpl in Hx'.
    destruct (ascii_dec a a'); [| reflexivity].
    apply IH. apply andb_true_iff in Hx'. tauto.
Qed.

Lemma scratch_name_inj (r r' : Route) (dirname : string) (n m : N) :
  scratch_name r n = scratch_name r' m -> r = r' /\ n = m.
Proof.
  intros H.
  assert (Ht : tempDir r dirname n = tempDir r' dirname m).
  { rewrite !tempDir_scratch_name, H. reflexivity. }
  pose proof (tempDir_route_inj r r' dirname n m Ht) as Hr. subst r'.
  split; [reflexivity | exact (tempDir_inj r dirname n m Ht)].
Qed.

(** X13.  The scratch directories of two requests served from the
    same application directory have the same name only when the
    requests are on the same route and read the same clock value;
    otherwise no path is inside both, and neither directory is inside
    the other.  With the calls of a handler staying in its own scratch
    directory, two such requests never name the same file. *)
Theorem X13_scratch_directories_apart (r r' : Route) (dirname : string) (n m : N) :
  (tempDir r dirname n = tempDir r' dirname m <-> r = r' /\ n = m) /\
  (forall p, inside (tempDir r dirname n) p = true ->
             inside (tempDir r' dirname m) p = true -> r = r' /\ n = m) /\
  inside (tempDir r dirname n) (tempDir r' dirname m) = false.
Proof.
  pose proof (lacks_scratch_name r n) as Hx.
  pose proof (lacks_scratch_name r' m) as Hx'.
  split; [| split].
  - split.
    + intros H. pose proof (tempDir_route_inj r r' dirname n m H) as Hr. subst r'.
      split; [reflexivity | exact (tempDir_inj r dirname n m H)].
    + intros [-> ->]. reflexivity.
  - unfold inside. rewrite !tempDir_scratch_name, !append_assoc. intros p Hp Hp'.
    destruct (prefix_of_common _ _ _ Hp Hp') as [H | H];
      rewrite prefix_app_cancel in H.
    + apply (lacks_prefix "/" _ _ "") in H; try assumption.
      apply (scratch_name_inj r r' dirname n m H).
    + apply (lacks_prefix "/" _ _ "") in H; try assumption.
      symmetry in H. apply (scratch_name_inj r r' dirname n m H).
  - unfold inside. rewrite !tempDir_scratch_name, !append_assoc, prefix_app_cancel.
    apply (lacks_not_prefix "/"), Hx'.
Qed.

(** ** The subject string of the first version *)



Lemma server_js_calls (b : Req.Body) (t : string) :
  let Q ev :=
    match ev with
    | EvWrite _ _ | EvMkdir _ => False
    | EvExec cmd =>
        cmd = ServerJs.keygen_command b t \/ cmd = ServerJs.csr_command b t
        \/ cmd = ServerJs.pubout_command t
    | EvRead p | EvUnlink p => p = ServerJs.privateKeyPath t \/ p = ServerJs.csrPath t
    | EvRmdir p => p = t
    end in
  calls_only Q (ServerJs.work b t) /\ calls_only Q (ServerJs.cleanup t).
Proof.
  unfold calls_only, ServerJs.work, ServerJs.cleanup.
  split; walk; event_goal; auto.
Qed.

(** X15.  The first version of the client handler writes no file: the
    identity of the request reaches [openssl req] only as the quoted
    subject string of the command line, so the request carries no
    extension section.  Its [try] block and its cleanup run nothing
    but the three commands for the key, the CSR and the public key,
    read and unlink nothing but the key and the CSR, and when the
    [try] block returns the scratch directory is gone with all it
    held. *)
Theorem X15_first_version_writes_no_file (w : World) (b : Req.Body) (t : string)
        (s : State) :
  (exists evs evs',
     new_events s (snd (run w (ServerJs.work b t) s)) evs /\
     new_events s (snd (run w (ServerJs.cleanup t) s)) evs' /\
     (forall p c, ~ In (EvWrite p c) (evs ++ evs')) /\
     (forall cmd, In (EvExec cmd) (evs ++ evs') ->
        cmd = "openssl ecparam -name " +:+
              to_string (Js.default (Req.curve b) (Str "prime256v1")) +:+
              " -genkey -noout -out " +:+ ServerJs.privateKeyPath t
        \/ cmd = "openssl req -new -key " +:+ ServerJs.privateKeyPath t +:+
                 " -out " +:+ ServerJs.csrPath t +:+
                 " -subj " +:+ dquote +:+ ServerJs.subject b +:+ dquote
        \/ cmd = "openssl ec -in " +:+ ServerJs.privateKeyPath t +:+
                 " -pubout 2>/dev/null") /\
     (forall p, In (EvRead p) (evs ++ evs') \/ In (EvUnlink p) (evs ++ evs') ->
        p = ServerJs.privateKeyPath t \/ p = ServerJs.csrPath t)) /\
  (forall keys s',
     run w (ServerJs.work b t) s = (Normal keys, s') ->
     (t ∉ dirs (disk s')) /\
     (forall p, inside t p = true -> files (disk s') !! p = None)).
Proof.
  split.
  - destruct (server_js_calls b t) as [Hw Hc].
    destruct (run_calls_only w _ _ s Hw) as (evs & Hevs & HQ).
    destruct (run_calls_only w _ _ s Hc) as (evs' & Hevs' & HQ').
    exists evs, evs'. split; [exact Hevs |]. split; [exact Hevs' |].
    pose proof (proj2 (Forall_app _ _ _) (conj HQ HQ')) as H.
    rewrite List.Forall_forall in H.
    split; [intros p c Hin; exact (H _ Hin) |].
    split; [intros cmd Hin; exact (H _ Hin) |].
    intros p [Hin | Hin]; exact (H _ Hin).
  - intros keys s' H. unfold ServerJs.work in H. peel H.
    apply run_bind_normal in H. destruct H as ([] & s'' & Hrm & H).
    unfold rmdirSync in Hrm. rewrite run_call_throwing in Hrm.
    simpl in H. injection H as _ <-.
    apply perform_rmdir_normal in Hrm. destruct Hrm as (Hempty & Hf & Hd).
    apply dir_empty_spec in Hempty. destruct Hempty as [Hfiles _].
    rewrite Hf, Hd. split; [| exact Hfiles].
    intros [_ Hnot]%elem_of_difference. apply Hnot, elem_of_singleton. reflexivity.
Qed.

(** ** Reversal and trimming *)

Lemma string_append_nil_r (s : string) : s +:+ "" = s.
Proof.
  induction s as [| c s IH]; [reflexivity |].
  change (String c (s +:+ "") = String c s). rewrite IH. reflexivity.
Qed.

Lemma rev_app_spec (s1 s2 : string) : String.rev_app s1 s2 = String.rev s1 +:+ s2.
Proof.
  unfold String.rev. revert s2.
  induction s1 as [| c s1 IH]; intros s2; [reflexivity |].
  simpl. rewrite (IH (String c s2)), (IH (String c "")), append_assoc. reflexivity.
Qed.

Lemma string_rev_cons (c : ascii) (s : string) :
  String.rev (String c s) = String.rev s +:+ String c "".
Proof. unfold String.rev at 1. simpl. apply rev_app_spec. Qed.

Lemma string_rev_append (a b : string) : String.rev (a +:+ b) = String.rev b +:+ String.rev a.
Proof.
  induction a as [| c a IH]; [symmetry; apply string_append_nil_r |].
  change (String.rev (String c (a +:+ b)) = String.rev b +:+ String.rev (String c a)).
  rewrite !string_rev_cons, IH, append_assoc. reflexivity.
Qed.

Lemma string_rev_involutive (s : string) : String.rev (String.rev s) = s.
Proof.
  induction s as [| c s IH]; [reflexivity |].
  rewrite string_rev_cons, string_rev_append, IH. reflexivity.
Qed.

(** ** The calls of a request that is served *)

Lemma step_call (w : World) {X : Type} (op : Eff (completion X)) (s s' : State) (x : X) :
  run w (call_throwing op) s = (Normal x, s') ->
  trace s' = trace s ++ option_list (event_of op).
Proof.
  rewrite run_call_throwing. intros H.
  pose proof (perform_trace w op s) as Ht. rewrite H in Ht. exact Ht.
Qed.

Lemma step_write_value (w : World) (p : string) (v : Js.value) (s s' : State) (u : unit) :
  run w (write_value p v) s = (Normal u, s') ->
  exists c, v = Str c /\ trace s' = trace s ++ [EvWrite p c].
Proof.
  destruct v as [| | ? | ? | c]; simpl write_value; try discriminate.
  intros H. exists c. split; [reflexivity |]. exact (step_call w _ s s' u H).
Qed.

Lemma step_lift (w : World) {A : Type} (c : completion A) (s s' : State) (a : A) :
  run w (lift c) s = (Normal a, s') -> c = Normal a /\ trace s' = trace s.
Proof.
  destruct c as [a' | e]; simpl; intros H; [| discriminate H].
  injection H as <- <-. auto.
Qed.

Lemma step_unlink_if_exists (w : World) (p : string) (s s' : State) (u : unit) :
  run w (unlink_if_exists p) s = (Normal u, s') ->
  exists evs, (evs = [] \/ evs = [EvUnlink p]) /\ trace s' = trace s ++ evs.
Proof.
  unfold unlink_if_exists. intros H.
  apply run_bind_normal in H. destruct H as (found & s1 & Hex & H).
  unfold existsSync in Hex. rewrite run_call in Hex. simpl in Hex.
  injection Hex as <- <-.
  destruct (bool_decide _ || bool_decide _).
  - exists [EvUnlink p]. split; [auto |]. exact (step_call w _ s s' u H).
  - exists []. split; [auto |]. simpl in H. injection H as _ <-.
    symmetry. apply app_nil_r.
Qed.

(** Follows the statements of a block that returned, collecting what
    each added to the record of calls. *)
Ltac chain H :=
  repeat (apply run_bind_normal in H;
          let Hs := fresh "Hs" in
          destruct H as (? & ? & Hs & H); cbv beta in H;
          first [ apply step_write_value in Hs; destruct Hs as (? & ? & Hs)
                | apply step_lift in Hs; destruct Hs as (? & Hs)
                | apply step_unlink_if_exists in Hs; destruct Hs as (? & ? & Hs)
                | apply step_call in Hs ]);
  simpl in H; injection H as ? ?; subst.

Ltac trace_of_chain :=
  repeat match goal with
         | Hs : trace ?x = _, Hs' : trace _ = ?rhs |- _ =>
             lazymatch rhs with
             | context [trace x] => rewrite Hs in Hs'; clear Hs
             end
         end;
  match goal with
  | Hs : trace _ = _ |- _ =>
      simpl in Hs; rewrite <- ?app_assoc in Hs; simpl in Hs;
      eexists; split; [| exact Hs]
  end.

Lemma work_served_calls (w : World) (r : Route) (b : Req.Body) (t : string)
      (s1 s2 : State) (body : Payload) :
  run w (work r b t) s1 = (Normal body, s2) ->
  exists calls, served_calls r b t calls /\ trace s2 = trace s1 ++ calls.
Proof.
  intros H.
  destruct r; simpl work in H;
    [ unfold GenerateCsr.work in H | unfold GenerateBrokerCsr.work in H
    | unfold GenerateRootCa.work in H | unfold SignClientCert.work in H
    | unfold SignBrokerCert.work in H ];
    chain H; trace_of_chain; simpl.
  - reflexivity.
  - eauto.
  - reflexivity.
  - do 4 eexists. repeat (split; [eassumption |]). reflexivity.
  - do 5 eexists. repeat (split; [eassumption |]). reflexivity.
Qed.

(** X18.  A request answered 200 has made, after creating its scratch
    directory, exactly the calls of its [try] block, each once and in
    the order of the source: the key or the input files and the
    configuration are in place before the command that uses them
    runs, what the response carries is read before anything is
    unlinked, and every file named is unlinked before the directory
    is removed. *)
Theorem X18_calls_of_a_served_request (w : World) (r : Route) (dirname : string)
        (b : Req.Body) (s : State) (body : Payload) :
  sent (snd (run w (handler r dirname b) s)) = sent s ++ [Json 200 body] ->
  let t := tempDir r dirname (date_now w (trace s)) in
  exists calls,
    served_calls r b t calls /\
    trace (snd (run w (handler r dirname b) s)) = trace s ++ EvMkdir t :: calls.
Proof.
  intros Hsent t.
  destruct (handler_outcome w r dirname b s)
    as [(resp & Hrej & Hrun)
       | [(Hrej & e & s1 & Hmk & Hrun & Hs & Hc)
         | [(Hrej & s1 & body' & s2 & Hmk & Hwork & Hrun & Hs & Hc)
           | (Hrej & s1 & e & s2 & outcome & s3 & Hmk & Hwork & Hclean & Hrun & Hs & Hc)]]];
    rewrite Hrun in *; simpl in Hsent; rewrite ?Hs in Hsent;
    apply app_inv_head in Hsent.
  - apply rejection_status in Hrej. injection Hsent as ->. discriminate Hrej.
  - discriminate Hsent.
  - fold t in Hwork, Hmk.
    destruct (work_served_calls w r b t s1 s2 body' Hwork) as (calls & Hcalls & Ht).
    pose proof (perform_trace w (MkdirSync t) s) as Hm. rewrite Hmk in Hm.
    simpl in Hm. exists calls. split; [exact Hcalls |].
    simpl. rewrite Ht, Hm, <- app_assoc. reflexivity.
  - discriminate Hsent.
Qed.

Lemma X18_calls_of_a_served_request_witness :
  exists calls,
    served_calls SignClientCertRoute Mismatch.body Mismatch.tempDir calls /\
    trace (snd (run (Mock.world Sample.now false)
                    (handler SignClientCertRoute Sample.dirname Mismatch.body)
                    Mock.start))
    = [] ++ EvMkdir Mismatch.tempDir :: calls.
Proof.
  apply (X18_calls_of_a_served_request
           (Mock.world Sample.now false) SignClientCertRoute Sample.dirname
           Mismatch.body Mock.start
           (SignSuccess "CERTIFICATE for CERTIFICATE REQUEST"
                        "Certificate: CERTIFICATE for CERTIFICATE REQUEST")).
  vm_compute. reflexivity.
Defined.

(** ** What the commands find and what the response carries *)

Lemma step_exec (w : World) (cmd : string) (s s' : State) (out : string) :
  run w (execAsync cmd) s = (Normal out, s') ->
  exec w (trace s) cmd (disk s) = (Normal out, disk s') /\
  trace s' = trace s ++ [EvExec cmd].
Proof.
  intros H. split; [| exact (step_call w _ s s' out H)].
  unfold execAsync in H. rewrite run_call_throwing in H. simpl in H.
  destruct (exec w (trace s) cmd (disk s)) as [c f].
  injection H as -> <-. reflexivity.
Qed.

Lemma step_write (w : World) (p c : string) (s s' : State) (u : unit) :
  run w (writeFileSync p c) s = (Normal u, s') ->
  files (disk s') = <[p := c]> (files (disk s)) /\
  trace s' = trace s ++ [EvWrite p c].
Proof.
  intros H. split; [| exact (step_call w _ s s' u H)].
  unfold writeFileSync in H. rewrite run_call_throwing in H. simpl in H.
  destruct (fs_fault w (trace s) (CallWrite p) (disk s)); [discriminate |].
  injection H as _ <-. reflexivity.
Qed.

Lemma step_write_value_disk (w : World) (p : string) (v : Js.value) (s s' : State)
      (u : unit) :
  run w (write_value p v) s = (Normal u, s') ->
  exists c,
    v = Str c /\ files (disk s') = <[p := c]> (files (disk s)) /\
    trace s' = trace s ++ [EvWrite p c].
Proof.
  destruct v as [| | ? | ? | c]; simpl write_value; try discriminate.
  intros H. exists c. split; [reflexivity |]. exact (step_write w p c s s' u H).
Qed.

Lemma step_read (w : World) (p : string) (s s' : State) (c : string) :
  run w (readFileSync p) s = (Normal c, s') ->
  files (disk s) !! p = Some c /\ disk s' = disk s.
Proof.
  unfold readFileSync. rewrite run_call_throwing. simpl.
  destruct (fs_fault w (trace s) (CallRead p) (disk s)); [discriminate |].
  destruct (files (disk s) !! p) as [c' |]; [| discriminate].
  intros H. injection H as -> <-. auto.
Qed.

Lemma step_lift_state (w : World) {A : Type} (c : completion A) (s s' : State) (a : A) :
  run w (lift c) s = (Normal a, s') -> c = Normal a /\ s' = s.
Proof.
  destruct c as [a' | e]; simpl; intros H; [| discriminate H].
  injection H as <- <-. auto.
Qed.

(** Splits one statement off a block that returned. *)
Ltac head_step H Hs :=
  apply run_bind_normal in H; destruct H as (? & ? & Hs & H); cbv beta in H.

(** Two files of one directory with different names. *)
Ltac other_file :=
  let Heq := fresh "Heq" in
  intros Heq; apply path_join_inj in Heq; discriminate Heq.

Lemma generate_csr_served (w : World) (b : Req.Body) (t : string) (s1 s2 : State)
      (body : Payload) :
  run w (work GenerateCsrRoute b t) s1 = (Normal body, s2) ->
  exists privateKey publicKey csr csrText f out f' h2 f2 h3 f3,
    body = CsrSuccess privateKey publicKey csr csrText /\
    exec w (trace s1 ++
            [ EvExec ("openssl ecparam -name " +:+ to_string (GenerateCsr.curve b) +:+
                      " -genkey -noout -out " +:+ GenerateCsr.privateKeyPath t);
              EvWrite (GenerateCsr.configPath t) (GenerateCsr.opensslConfig b) ])
         ("openssl req -new -key " +:+ GenerateCsr.privateKeyPath t +:+
          " -out " +:+ GenerateCsr.csrPath t +:+
          " -config " +:+ GenerateCsr.configPath t) f = (Normal out, f') /\
    files f !! GenerateCsr.configPath t = Some (GenerateCsr.opensslConfig b) /\
    files f' !! GenerateCsr.privateKeyPath t = Some privateKey /\
    files f' !! GenerateCsr.csrPath t = Some csr /\
    exec w h2 ("openssl ec -in " +:+ GenerateCsr.privateKeyPath t +:+
               " -pubout 2>/dev/null") f' = (Normal publicKey, f2) /\
    exec w h3 ("openssl req -text -noout -in " +:+ GenerateCsr.csrPath t) f2
    = (Normal csrText, f3).
Proof.
  intros H. simpl work in H. unfold GenerateCsr.work in H.
  head_step H Hkey. head_step H Hcfg. head_step H Hreq.
  head_step H Hrk. head_step H Hrc. head_step H Hpub. head_step H Htxt.
  chain H.
  apply step_exec in Hkey. destruct Hkey as [_ Tkey].
  apply step_write in Hcfg. destruct Hcfg as [Hcfg Tcfg].
  apply step_exec in Hreq. destruct Hreq as [Hreq _].
  apply step_read in Hrk. destruct Hrk as [Hrk Hd1].
  apply step_read in Hrc. destruct Hrc as [Hrc Hd2].
  apply step_exec in Hpub. destruct Hpub as [Hpub _].
  apply step_exec in Htxt. destruct Htxt as [Htxt _].
  rewrite Hd1 in Hrc. rewrite Hd2, Hd1 in Hpub.
  rewrite Tcfg, Tkey, <- app_assoc in Hreq.
  do 11 eexists. split; [reflexivity |].
  split; [exact Hreq |]. split; [rewrite Hcfg; apply lookup_insert_eq |].
  split; [exact Hrk |]. split; [exact Hrc |]. split; [exact Hpub | exact Htxt].
Qed.

Lemma generate_broker_csr_served (w : World) (b : Req.Body) (t : string)
      (s1 s2 : State) (body : Payload) :
  run w (work GenerateBrokerCsrRoute b t) s1 = (Normal body, s2) ->
  exists privateKey publicKey csr csrText section f out f' h2 f2 h3 f3,
    body = BrokerCsrSuccess privateKey publicKey csr csrText "broker" /\
    sanSection (GenerateBrokerCsr.subjectAltNames b) = Normal section /\
    exec w (trace s1 ++
            [ EvExec ("openssl ecparam -name " +:+
                      to_string (GenerateBrokerCsr.curve b) +:+
                      " -genkey -noout -out " +:+ GenerateBrokerCsr.privateKeyPath t);
              EvWrite (GenerateBrokerCsr.configPath t)
                      (GenerateBrokerCsr.opensslConfig b section) ])
         ("openssl req -new -key " +:+ GenerateBrokerCsr.privateKeyPath t +:+
          " -out " +:+ GenerateBrokerCsr.csrPath t +:+
          " -config " +:+ GenerateBrokerCsr.configPath t) f = (Normal out, f') /\
    files f !! GenerateBrokerCsr.configPath t
    = Some (GenerateBrokerCsr.opensslConfig b section) /\
    files f' !! GenerateBrokerCsr.privateKeyPath t = Some privateKey /\
    files f' !! GenerateBrokerCsr.csrPath t = Some csr /\
    exec w h2 ("openssl ec -in " +:+ GenerateBrokerCsr.privateKeyPath t +:+
               " -pubout 2>/dev/null") f' = (Normal publicKey, f2) /\
    exec w h3 ("openssl req -text -noout -in " +:+ GenerateBrokerCsr.csrPath t) f2
    = (Normal csrText, f3).
Proof.
  intros H. simpl work in H. unfold GenerateBrokerCsr.work in H.
  head_step H Hkey. head_step H Hsec. head_step H Hcfg. head_step H Hreq.
  head_step H Hrk. head_step H Hrc. head_step H Hpub. head_step H Htxt.
  chain H.
  apply step_exec in Hkey. destruct Hkey as [_ Tkey].
  apply step_lift_state in Hsec. destruct Hsec as [Hsec ->].
  apply step_write in Hcfg. destruct Hcfg as [Hcfg Tcfg].
  apply step_exec in Hreq. destruct Hreq as [Hreq _].
  apply step_read in Hrk. destruct Hrk as [Hrk Hd1].
  apply step_read in Hrc. destruct Hrc as [Hrc Hd2].
  apply step_exec in Hpub. destruct Hpub as [Hpub _].
  apply step_exec in Htxt. destruct Htxt as [Htxt _].
  rewrite Hd1 in Hrc. rewrite Hd2, Hd1 in Hpub.
  rewrite Tcfg, Tkey, <- app_assoc in Hreq.
  do 12 eexists. split; [reflexivity |]. split; [exact Hsec |].
  split; [exact Hreq |]. split; [rewrite Hcfg; apply lookup_insert_eq |].
  split; [exact Hrk |]. split; [exact Hrc |]. split; [exact Hpub | exact Htxt].
Qed.

Lemma generate_root_ca_served (w : World) (b : Req.Body) (t : string)
      (s1 s2 : State) (body : Payload) :
  run w (work GenerateRootCaRoute b t) s1 = (Normal body, s2) ->
  exists caKey caCert certText f out f' h2 f2,
    body = CaSuccess caKey caCert certText /\
    exec w (trace s1 ++
            [ EvExec ("openssl ecparam -name " +:+
                      to_string (GenerateRootCa.curve b) +:+
                      " -genkey -noout -out " +:+ GenerateRootCa.caKeyPath t);
              EvWrite (GenerateRootCa.configPath t) (GenerateRootCa.opensslConfig b) ])
         (GenerateRootCa.issue_command b t) f = (Normal out, f') /\
    files f !! GenerateRootCa.configPath t = Some (GenerateRootCa.opensslConfig b) /\
    files f' !! GenerateRootCa.caKeyPath t = Some caKey /\
    files f' !! GenerateRootCa.caCertPath t = Some caCert /\
    exec w h2 ("openssl x509 -in " +:+ GenerateRootCa.caCertPath t +:+ " -text -noout")
         f' = (Normal certText, f2).
Proof.
  intros H. simpl work in H. unfold GenerateRootCa.work in H.
  head_step H Hkey. head_step H Hcfg. head_step H Hreq.
  head_step H Hrk. head_step H Hrc. head_step H Htxt.
  chain H.
  apply step_exec in Hkey. destruct Hkey as [_ Tkey].
  apply step_write in Hcfg. destruct Hcfg as [Hcfg Tcfg].
  apply step_exec in Hreq. destruct Hreq as [Hreq _].
  apply step_read in Hrk. destruct Hrk as [Hrk Hd1].
  apply step_read in Hrc. destruct Hrc as [Hrc Hd2].
  apply step_exec in Htxt. destruct Htxt as [Htxt _].
  rewrite Hd1 in Hrc. rewrite Hd2, Hd1 in Htxt.
  rewrite Tcfg, Tkey, <- app_assoc in Hreq.
  do 8 eexists. split; [reflexivity |].
  split; [exact Hreq |]. split; [rewrite Hcfg; apply lookup_insert_eq |].
  split; [exact Hrk |]. split; [exact Hrc | exact Htxt].
Qed.

Lemma sign_client_served (w : World) (b : Req.Body) (t : string)
      (s1 s2 : State) (body : Payload) :
  run w (work SignClientCertRoute b t) s1 = (Normal body, s2) ->
  exists signedCert certText csr caKey caCert f out f' h2 f2,
    body = SignSuccess signedCert certText /\
    Req.csr b = Str csr /\ Req.caKey b = Str caKey /\ Req.caCert b = Str caCert /\
    exec w (trace s1 ++
            [ EvWrite (SignClientCert.csrPath t) csr;
              EvWrite (SignClientCert.caKeyPath t) caKey;
              EvWrite (SignClientCert.caCertPath t) caCert;
              EvWrite (SignClientCert.configPath t) SignClientCert.signingConfig ])
         (SignClientCert.sign_command b t) f = (Normal out, f') /\
    files f !! SignClientCert.csrPath t = Some csr /\
    files f !! SignClientCert.caKeyPath t = Some caKey /\
    files f !! SignClientCert.caCertPath t = Some caCert /\
    files f !! SignClientCert.configPath t = Some SignClientCert.signingConfig /\
    files f' !! SignClientCert.certPath t = Some signedCert /\
    exec w h2 ("openssl x509 -in " +:+ SignClientCert.certPath t +:+ " -text -noout")
         f' = (Normal certText, f2).
Proof.
  intros H. simpl work in H. unfold SignClientCert.work in H.
  head_step H Hw1. head_step H Hw2. head_step H Hw3. head_step H Hcfg.
  head_step H Hsign. head_step H Hread. head_step H Htxt.
  chain H.
  apply step_write_value_disk in Hw1. destruct Hw1 as (csr & Hcsr & Hf1 & T1).
  apply step_write_value_disk in Hw2. destruct Hw2 as (caKey & HcaKey & Hf2 & T2).
  apply step_write_value_disk in Hw3. destruct Hw3 as (caCert & HcaCert & Hf3 & T3).
  apply step_write in Hcfg. destruct Hcfg as [Hcfg Tcfg].
  apply step_exec in Hsign. destruct Hsign as [Hsign _].
  apply step_read in Hread. destruct Hread as [Hread Hd].
  apply step_exec in Htxt. destruct Htxt as [Htxt _]. rewrite Hd in Htxt.
  rewrite Tcfg, T3, T2, T1, <- !app_assoc in Hsign.
  do 10 eexists. split; [reflexivity |].
  split; [exact Hcsr |]. split; [exact HcaKey |]. split; [exact HcaCert |].
  split; [exact Hsign |].
  rewrite Hcfg, Hf3, Hf2, Hf1.
  split; [rewrite !lookup_insert_ne by other_file; apply lookup_insert_eq |].
  split; [rewrite !lookup_insert_ne by other_file; apply lookup_insert_eq |].
  split; [rewrite !lookup_insert_ne by other_file; apply lookup_insert_eq |].
  split; [apply lookup_insert_eq |].
  split; [exact Hread | exact Htxt].
Qed.

Lemma sign_broker_served (w : World) (b : Req.Body) (t : string)
      (s1 s2 : State) (body : Payload) :
  run w (work SignBrokerCertRoute b t) s1 = (Normal body, s2) ->
  exists signedCert certText csr caKey caCert section f out f' h2 f2,
    body = SignSuccess signedCert certText /\
    Req.csr b = Str csr /\ Req.caKey b = Str caKey /\ Req.caCert b = Str caCert /\
    sanSection (SignBrokerCert.subjectAltNames b) = Normal section /\
    exec w (trace s1 ++
            [ EvWrite (SignBrokerCert.csrPath t) csr;
              EvWrite (SignBrokerCert.caKeyPath t) caKey;
              EvWrite (SignBrokerCert.caCertPath t) caCert;
              EvWrite (SignBrokerCert.configPath t)
                      (SignBrokerCert.signingConfig b section) ])
         (SignBrokerCert.sign_command b t) f = (Normal out, f') /\
    files f !! SignBrokerCert.csrPath t = Some csr /\
    files f !! SignBrokerCert.caKeyPath t = Some caKey /\
    files f !! SignBrokerCert.caCertPath t = Some caCert /\
    files f !! SignBrokerCert.configPath t
    = Some (SignBrokerCert.signingConfig b section) /\
    files f' !! SignBrokerCert.certPath t = Some signedCert /\
    exec w h2 ("openssl x509 -in " +:+ SignBrokerCert.certPath t +:+ " -text -noout")
         f' = (Normal certText, f2).
Proof.
  intros H. simpl work in H. unfold SignBrokerCert.work in H.
  head_step H Hw1. head_step H Hw2. head_step H Hw3. head_step H Hsec.
  head_step H Hcfg. head_step H Hsign. head_step H Hread. head_step H Htxt.
  chain H.
  apply step_write_value_disk in Hw1. destruct Hw1 as (csr & Hcsr & Hf1 & T1).
  apply step_write_value_disk in Hw2. destruct Hw2 as (caKey & HcaKey & Hf2 & T2).
  apply step_write_value_disk in Hw3. destruct Hw3 as (caCert & HcaCert & Hf3 & T3).
  apply step_lift_state in Hsec. destruct Hsec as [Hsec ->].
  apply step_write in Hcfg. destruct Hcfg as [Hcfg Tcfg].
  apply step_exec in Hsign. destruct Hsign as [Hsign _].
  apply step_read in Hread. destruct Hread as [Hread Hd].
  apply step_exec in Htxt. destruct Htxt as [Htxt _]. rewrite Hd in Htxt.
  rewrite Tcfg, T3, T2, T1, <- !app_assoc in Hsign.
  do 11 eexists. split; [reflexivity |].
  split; [exact Hcsr |]. split; [exact HcaKey |]. split; [exact HcaCert |].
  split; [exact Hsec |]. split; [exact Hsign |].
  rewrite Hcfg, Hf3, Hf2, Hf1.
  split; [rewrite !lookup_insert_ne by other_file; apply lookup_insert_eq |].
  split; [rewrite !lookup_insert_ne by other_file; apply lookup_insert_eq |].
  split; [rewrite !lookup_insert_ne by other_file; apply lookup_insert_eq |].
  split; [apply lookup_insert_eq |].
  split; [exact Hread | exact Htxt].
Qed.

(** The [try] block of a request answered 200 returned the object of
    the response, from the state its [mkdirSync] left. *)
Lemma handler_served (w : World) (r : Route) (dirname : string) (b : Req.Body)
      (s : State) (body : Payload) :
  sent (snd (run w (handler r dirname b) s)) = sent s ++ [Json 200 body] ->
  exists s1 s2,
    trace s1 = trace s ++ [EvMkdir (tempDir r dirname (date_now w (trace s)))] /\
    run w (work r b (tempDir r dirname (date_now w (trace s)))) s1 = (Normal body, s2).
Proof.
  intros Hsent.
  destruct (handler_outcome w r dirname b s)
    as [(resp & Hrej & Hrun)
       | [(Hrej & e & s1 & Hmk & Hrun & Hs & Hc)
         | [(Hrej & s1 & body' & s2 & Hmk & Hwork & Hrun & Hs & Hc)
           | (Hrej & s1 & e & s2 & outcome & s3 & Hmk & Hwork & Hclean & Hrun & Hs & Hc)]]];
    rewrite Hrun in Hsent; simpl in Hsent; rewrite ?Hs in Hsent;
    apply app_inv_head in Hsent.
  - apply rejection_status in Hrej. injection Hsent as ->. discriminate Hrej.
  - discriminate Hsent.
  - injection Hsent as ->. exists s1, s2. split; [| exact Hwork].
    pose proof (perform_trace w (MkdirSync (tempDir r dirname (date_now w (trace s)))) s)
      as Hm.
    rewrite Hmk in Hm. exact Hm.
  - discriminate Hsent.
Qed.

(** X19.  What a 200 of a generating route carries.  The command
    that makes the CSR (or the self-signed certificate) was run after
    the key generation and the write of the configuration, on a disk
    where the configuration path held the configuration built from
    the request; the private key and the CSR (or certificate) of the
    response are the contents of the key file and of the output file
    as that command left them; the public key and the details are the
    standard output of the commands run next, starting from that
    disk. *)
Theorem X19_generated_artifacts_are_returned (w : World) (dirname : string)
        (b : Req.Body) (s : State) (body : Payload) :
  (sent (snd (run w (handler GenerateCsrRoute dirname b) s)) = sent s ++ [Json 200 body] ->
   let t := GenerateCsr.tempDir dirname (date_now w (trace s)) in
   exists privateKey publicKey csr csrText f out f' h2 f2 h3 f3,
     body = CsrSuccess privateKey publicKey csr csrText /\
     exec w (trace s ++
             [ EvMkdir t;
               EvExec ("openssl ecparam -name " +:+
                       to_string (Js.default (Req.curve b) (Str "prime256v1")) +:+
                       " -genkey -noout -out " +:+ GenerateCsr.privateKeyPath t);
               EvWrite (GenerateCsr.configPath t) (GenerateCsr.opensslConfig b) ])
          ("openssl req -new -key " +:+ GenerateCsr.privateKeyPath t +:+
           " -out " +:+ GenerateCsr.csrPath t +:+
           " -config " +:+ GenerateCsr.configPath t) f = (Normal out, f') /\
     files f !! GenerateCsr.configPath t = Some (GenerateCsr.opensslConfig b) /\
     files f' !! GenerateCsr.privateKeyPath t = Some privateKey /\
     files f' !! GenerateCsr.csrPath t = Some csr /\
     exec w h2 ("openssl ec -in " +:+ GenerateCsr.privateKeyPath t +:+
                " -pubout 2>/dev/null") f' = (Normal publicKey, f2) /\
     exec w h3 ("openssl req -text -noout -in " +:+ GenerateCsr.csrPath t) f2
     = (Normal csrText, f3)) /\
  (sent (snd (run w (handler GenerateBrokerCsrRoute dirname b) s))
   = sent s ++ [Json 200 body] ->
   let t := GenerateBrokerCsr.tempDir dirname (date_now w (trace s)) in
   exists privateKey publicKey csr csrText section f out f' h2 f2 h3 f3,
     body = BrokerCsrSuccess privateKey publicKey csr csrText "broker" /\
     sanSection (san_default (Req.subjectAltNames b)) = Normal section /\
     exec w (trace s ++
             [ EvMkdir t;
               EvExec ("openssl ecparam -name " +:+
                       to_string (Js.default (Req.curve b) (Str "prime256v1")) +:+
                       " -genkey -noout -out " +:+ GenerateBrokerCsr.privateKeyPath t);
               EvWrite (GenerateBrokerCsr.configPath t)
                       (GenerateBrokerCsr.opensslConfig b section) ])
          ("openssl req -new -key " +:+ GenerateBrokerCsr.privateKeyPath t +:+
           " -out " +:+ GenerateBrokerCsr.csrPath t +:+
           " -config " +:+ GenerateBrokerCsr.configPath t) f = (Normal out, f') /\
     files f !! GenerateBrokerCsr.configPath t
     = Some (GenerateBrokerCsr.opensslConfig b section) /\
     files f' !! GenerateBrokerCsr.privateKeyPath t = Some privateKey /\
     files f' !! GenerateBrokerCsr.csrPath t = Some csr /\
     exec w h2 ("openssl ec -in " +:+ GenerateBrokerCsr.privateKeyPath t +:+
                " -pubout 2>/dev/null") f' = (Normal publicKey, f2) /\
     exec w h3 ("openssl req -text -noout -in " +:+ GenerateBrokerCsr.csrPath t) f2
     = (Normal csrText, f3)) /\
  (sent (snd (run w (handler GenerateRootCaRoute dirname b) s))
   = sent s ++ [Json 200 body] ->
   let t := GenerateRootCa.tempDir dirname (date_now w (trace s)) in
   exists caKey caCert certText f out f' h2 f2,
     body = CaSuccess caKey caCert certText /\
     exec w (trace s ++
             [ EvMkdir t;
               EvExec ("openssl ecparam -name " +:+
                       to_string (Js.default (Req.curve b) (Str "prime256v1")) +:+
                       " -genkey -noout -out " +:+ GenerateRootCa.caKeyPath t);
               EvWrite (GenerateRootCa.configPath t) (GenerateRootCa.opensslConfig b) ])
          (GenerateRootCa.issue_command b t) f = (Normal out, f') /\
     files f !! GenerateRootCa.configPath t = Some (GenerateRootCa.opensslConfig b) /\
     files f' !! GenerateRootCa.caKeyPath t = Some caKey /\
     files f' !! GenerateRootCa.caCertPath t = Some caCert /\
     exec w h2 ("openssl x509 -in " +:+ GenerateRootCa.caCertPath t +:+ " -text -noout")
          f' = (Normal certText, f2)).
Proof.
  split; [| split]; intros Hsent t;
    destruct (handler_served w _ dirname b s body Hsent) as (s1 & s2 & Ht & Hwork).
  - destruct (generate_csr_served w b t s1 s2 body Hwork)
      as (privateKey & publicKey & csr & csrText & f & out & f' & h2 & f2 & h3 & f3
          & Hbody & Hexec & Hrest).
    rewrite Ht, <- app_assoc in Hexec.
    exists privateKey, publicKey, csr, csrText, f, out, f', h2, f2, h3, f3.
    split; [exact Hbody |]. split; [exact Hexec | exact Hrest].
  - destruct (generate_broker_csr_served w b t s1 s2 body Hwork)
      as (privateKey & publicKey & csr & csrText & section & f & out & f' & h2 & f2
          & h3 & f3 & Hbody & Hsec & Hexec & Hrest).
    rewrite Ht, <- app_assoc in Hexec.
    exists privateKey, publicKey, csr, csrText, section, f, out, f', h2, f2, h3, f3.
    split; [exact Hbody |]. split; [exact Hsec |]. split; [exact Hexec | exact Hrest].
  - destruct (generate_root_ca_served w b t s1 s2 body Hwork)
      as (caKey & caCert & certText & f & out & f' & h2 & f2
          & Hbody & Hexec & Hrest).
    rewrite Ht, <- app_assoc in Hexec.
    exists caKey, caCert, certText, f, out, f', h2, f2.
    split; [exact Hbody |]. split; [exact Hexec | exact Hrest].
Qed.

Lemma X19_generated_artifacts_are_returned_witness :
  let w := Mock.world Sample.now false in
  let t := GenerateRootCa.tempDir Sample.dirname Sample.now in
  exists caKey caCert certText f out f' h2 f2,
    CaSuccess "EC PRIVATE KEY prime256v1"
              "CERTIFICATE self-signed with EC PRIVATE KEY prime256v1"
              "Certificate: CERTIFICATE self-signed with EC PRIVATE KEY prime256v1"
    = CaSuccess caKey caCert certText /\
    exec w ([] ++
            [ EvMkdir t;
              EvExec ("openssl ecparam -name " +:+
                      to_string (Js.default (Req.curve Req.empty) (Str "prime256v1")) +:+
                      " -genkey -noout -out " +:+ GenerateRootCa.caKeyPath t);
              EvWrite (GenerateRootCa.configPath t)
                      (GenerateRootCa.opensslConfig Req.empty) ])
         (GenerateRootCa.issue_command Req.empty t) f = (Normal out, f') /\
    files f !! GenerateRootCa.configPath t
    = Some (GenerateRootCa.opensslConfig Req.empty) /\
    files f' !! GenerateRootCa.caKeyPath t = Some caKey /\
    files f' !! GenerateRootCa.caCertPath t = Some caCert /\
    exec w h2 ("openssl x509 -in " +:+ GenerateRootCa.caCertPath t +:+ " -text -noout")
         f' = (Normal certText, f2).
Proof.
  apply (proj2 (proj2 (X19_generated_artifacts_are_returned
                         (Mock.world Sample.now false) Sample.dirname Req.empty
                         Mock.start _))).
  vm_compute. reflexivity.
Defined.

(** X20.  What the signing command finds and what a 200 of a signing
    route carries.  The [csr], [caKey] and [caCert] of the request are
    strings; the signing command was run right after the four writes,
    on a disk where the four files it names held the CSR, the CA key
    and the CA certificate as they were sent and the extension file of
    the route; the signed certificate of the response is the content
    of the output file as that command left it, and the details are
    the standard output of the command run next on that disk. *)
Theorem X20_signing_inputs_and_result (w : World) (dirname : string)
        (b : Req.Body) (s : State) (body : Payload) :
  (sent (snd (run w (handler SignClientCertRoute dirname b) s))
   = sent s ++ [Json 200 body] ->
   let t := SignClientCert.tempDir dirname (date_now w (trace s)) in
   exists signedCert certText csr caKey caCert f out f' h2 f2,
     body = SignSuccess signedCert certText /\
     Req.csr b = Str csr /\ Req.caKey b = Str caKey /\ Req.caCert b = Str caCert /\
     exec w (trace s ++
             [ EvMkdir t;
               EvWrite (SignClientCert.csrPath t) csr;
               EvWrite (SignClientCert.caKeyPath t) caKey;
               EvWrite (SignClientCert.caCertPath t) caCert;
               EvWrite (SignClientCert.configPath t) SignClientCert.signingConfig ])
          (SignClientCert.sign_command b t) f = (Normal out, f') /\
     files f !! SignClientCert.csrPath t = Some csr /\
     files f !! SignClientCert.caKeyPath t = Some caKey /\
     files f !! SignClientCert.caCertPath t = Some caCert /\
     files f !! SignClientCert.configPath t = Some SignClientCert.signingConfig /\
     files f' !! SignClientCert.certPath t = Some signedCert /\
     exec w h2 ("openssl x509 -in " +:+ SignClientCert.certPath t +:+ " -text -noout")
          f' = (Normal certText, f2)) /\
  (sent (snd (run w (handler SignBrokerCertRoute dirname b) s))
   = sent s ++ [Json 200 body] ->
   let t := SignBrokerCert.tempDir dirname (date_now w (trace s)) in
   exists signedCert certText csr caKey caCert section f out f' h2 f2,
     body = SignSuccess signedCert certText /\
     Req.csr b = Str csr /\ Req.caKey b = Str caKey /\ Req.caCert b = Str caCert /\
     sanSection (san_default (Req.subjectAltNames b)) = Normal section /\
     exec w (trace s ++
             [ EvMkdir t;
               EvWrite (SignBrokerCert.csrPath t) csr;
               EvWrite (SignBrokerCert.caKeyPath t) caKey;
               EvWrite (SignBrokerCert.caCertPath t) caCert;
               EvWrite (SignBrokerCert.configPath t)
                       (SignBrokerCert.signingConfig b section) ])
          (SignBrokerCert.sign_command b t) f = (Normal out, f') /\
     files f !! SignBrokerCert.csrPath t = Some csr /\
     files f !! SignBrokerCert.caKeyPath t = Some caKey /\
     files f !! SignBrokerCert.caCertPath t = Some caCert /\
     files f !! SignBrokerCert.configPath t
     = Some (SignBrokerCert.signingConfig b section) /\
     files f' !! SignBrokerCert.certPath t = Some signedCert /\
     exec w h2 ("openssl x509 -in " +:+ SignBrokerCert.certPath t +:+ " -text -noout")
          f' = (Normal certText, f2)).
Proof.
  split; intros Hsent t;
    destruct (handler_served w _ dirname b s body Hsent) as (s1 & s2 & Ht & Hwork).
  - destruct (sign_client_served w b t s1 s2 body Hwork)
      as (signedCert & certText & csr & caKey & caCert & f & out & f' & h2 & f2
          & Hbody & Hcsr & HcaKey & HcaCert & Hexec & Hrest).
    rewrite Ht, <- app_assoc in Hexec.
    exists signedCert, certText, csr, caKey, caCert, f, out, f', h2, f2.
    split; [exact Hbody |]. split; [exact Hcsr |]. split; [exact HcaKey |].
    split; [exact HcaCert |]. split; [exact Hexec | exact Hrest].
  - destruct (sign_broker_served w b t s1 s2 body Hwork)
      as (signedCert & certText & csr & caKey & caCert & section & f & out & f' & h2
          & f2 & Hbody & Hcsr & HcaKey & HcaCert & Hsec & Hexec & Hrest).
    rewrite Ht, <- app_assoc in Hexec.
    exists signedCert, certText, csr, caKey, caCert, section, f, out, f', h2, f2.
    split; [exact Hbody |]. split; [exact Hcsr |]. split; [exact HcaKey |].
    split; [exact HcaCert |]. split; [exact Hsec |].
    split; [exact Hexec | exact Hrest].
Qed.

Lemma X20_signing_inputs_and_result_witness :
  let w := Mock.world Sample.now false in
  let b := Sample.signing "CERTIFICATE REQUEST" [Sample.dns] in
  let t := SignBrokerCert.tempDir Sample.dirname Sample.now in
  exists signedCert certText csr caKey caCert section f out f' h2 f2,
    SignSuccess "CERTIFICATE for CERTIFICATE REQUEST"
                "Certificate: CERTIFICATE for CERTIFICATE REQUEST"
    = SignSuccess signedCert certText /\
    Req.csr b = Str csr /\ Req.caKey b = Str caKey /\ Req.caCert b = Str caCert /\
    sanSection (san_default (Req.subjectAltNames b)) = Normal section /\
    exec w ([] ++
            [ EvMkdir t;
              EvWrite (SignBrokerCert.csrPath t) csr;
              EvWrite (SignBrokerCert.caKeyPath t) caKey;
              EvWrite (SignBrokerCert.caCertPath t) caCert;
              EvWrite (SignBrokerCert.configPath t)
                      (SignBrokerCert.signingConfig b section) ])
         (SignBrokerCert.sign_command b t) f = (Normal out, f') /\
    files f !! SignBrokerCert.csrPath t = Some csr /\
    files f !! SignBrokerCert.caKeyPath t = Some caKey /\
    files f !! SignBrokerCert.caCertPath t = Some caCert /\
    files f !! SignBrokerCert.configPath t
    = Some (SignBrokerCert.signingConfig b section) /\
    files f' !! SignBrokerCert.certPath t = Some signedCert /\
    exec w h2 ("openssl x509 -in " +:+ SignBrokerCert.certPath t +:+ " -text -noout")
         f' = (Normal certText, f2).
Proof.
  apply (proj2 (X20_signing_inputs_and_result
                  (Mock.world Sample.now false) Sample.dirname
                  (Sample.signing "CERTIFICATE REQUEST" [Sample.dns])
                  Mock.start _)).
  vm_compute. reflexivity.
Defined.

(** ** The lines of a text *)

Lemma string_app_cons (c : ascii) (a b : string) : String c a +:+ b = String c (a +:+ b).
Proof. reflexivity. Qed.

Lemma lines_of_nonempty (s : string) : lines_of s <> [].
Proof.
  induction s as [| c s IH]; simpl; [discriminate |].
  destruct (Ascii.eqb c line_feed); [discriminate |].
  destruct (lines_of s); discriminate.
Qed.

(** A line feed between two texts separates their lines. *)
Lemma lines_of_app (a b : string) :
  lines_of (a +:+ nl +:+ b) = lines_of a ++ lines_of b.
Proof.
  induction a as [| c a IH]; [reflexivity |].
  rewrite string_app_cons. simpl.
  destruct (Ascii.eqb c line_feed); rewrite IH; [reflexivity |].
  pose proof (lines_of_nonempty a) as Hne.
  destruct (lines_of a); [contradiction | reflexivity].
Qed.

Lemma lines_of_one_line (s : string) : one_line s = true -> lines_of s = [s].
Proof.
  unfold one_line. induction s as [| c s IH]; [reflexivity |].
  simpl. intros H. apply andb_true_iff in H. destruct H as [Hc Hs].
  apply negb_true_iff in Hc. rewrite Hc, (IH Hs). reflexivity.
Qed.

Lemma join_cons (sep x y : string) (rest : list string) :
  join sep (x :: y :: rest) = x +:+ sep +:+ join sep (y :: rest).
Proof. reflexivity. Qed.

(** The lines of a text assembled from pieces joined with line feeds
    are the lines of the pieces. *)
Lemma lines_of_join (l : list string) :
  l <> [] -> lines_of (join nl l) = List.concat (map lines_of l).
Proof.
  induction l as [| x [| y rest] IH]; intros Hne; [contradiction | |].
  - simpl. rewrite app_nil_r. reflexivity.
  - rewrite join_cons, lines_of_app, IH by discriminate. reflexivity.
Qed.

Lemma concat_one_line (l : list string) :
  Forall (fun x => one_line x = true) l -> List.concat (map lines_of l) = l.
Proof.
  induction 1 as [| x l Hx Hl IH]; [reflexivity |].
  simpl. rewrite (lines_of_one_line x Hx), IH. reflexivity.
Qed.

Lemma one_line_app (a b : string) : one_line (a +:+ b) = one_line a && one_line b.
Proof. apply lacks_app. Qed.

Lemma one_line_string_of_N (n : N) : one_line (string_of_N n) = true.
Proof.
  unfold one_line, string_of_N. generalize (N.to_uint n).
  induction u; simpl; auto.
Qed.

Lemma declared_app (a b : list string) : declared (a ++ b) = declared a ++ declared b.
Proof. apply List.filter_app. Qed.

Lemma declared_nonempty (l : list string) :
  Forall (fun x => x <> "") l -> declared l = l.
Proof.
  induction 1 as [| x l Hx Hl IH]; [reflexivity |].
  unfold declared in *. simpl. rewrite IH.
  destruct (String.eqb_spec x ""); [contradiction | reflexivity].
Qed.

(** ** Trimming *)

Lemma string_length_ind (P : string -> Prop) :
  (forall s, (forall s', String.length s' < String.length s -> P s') -> P s) ->
  forall s, P s.
Proof.
  intros H s. remember (String.length s) as n eqn:Hn. revert s Hn.
  induction n as [n IH] using lt_wf_ind. intros s ->.
  apply H. intros s' Hlt. exact (IH _ Hlt s' eq_refl).
Qed.

Lemma string_length_app (a b : string) :
  String.length (a +:+ b) = String.length a + String.length b.
Proof.
  induction a as [| c a IH]; [reflexivity |].
  rewrite string_app_cons. simpl. rewrite IH. reflexivity.
Qed.

Section Strip.

Variable two : ascii -> ascii -> bool.
Variable three : ascii -> ascii -> ascii -> bool.

(** One step of [strip]: either the text does not begin with a
    character to remove and is returned, or such a character is taken
    off and the rest is stripped. *)
Lemma strip_cases (s : string) :
  (begins_with_space two three s = false /\ strip two three s = s) \/
  (begins_with_space two three s = true /\
   exists p s', s = p +:+ s' /\ p <> "" /\ strip two three s = strip two three s').
Proof.
  destruct s as [| a s1]; [left; split; reflexivity |].
  cbn [strip begins_with_space].
  destruct (Ascii.is_space a) eqn:Ha.
  { right. split; [reflexivity |]. exists (String a ""), s1.
    split; [reflexivity |]. split; [discriminate | reflexivity]. }
  destruct s1 as [| b s2]; [left; split; reflexivity |].
  destruct (two a b) eqn:Hab.
  { right. split; [reflexivity |]. exists (String a (String b "")), s2.
    split; [reflexivity |]. split; [discriminate | reflexivity]. }
  destruct s2 as [| c s3]; [left; split; reflexivity |].
  destruct (three a b c) eqn:Habc.
  { right. split; [reflexivity |]. exists (String a (String b (String c ""))), s3.
    split; [reflexivity |]. split; [discriminate | reflexivity]. }
  left. split; reflexivity.
Qed.

Lemma strip_begins (s : string) :
  begins_with_space two three (strip two three s) = false.
Proof.
  induction s as [s IH] using string_length_ind.
  destruct (strip_cases s) as [[Hb ->] | (_ & p & s' & -> & Hp & ->)]; [exact Hb |].
  apply IH. rewrite string_length_app. destruct p; [congruence | simpl; lia].
Qed.

Lemma strip_suffix (s : string) : exists p, s = p +:+ strip two three s.
Proof.
  induction s as [s IH] using string_length_ind.
  destruct (strip_cases s) as [[_ ->] | (_ & p & s' & Hs & Hp & Heq)];
    [exists ""; reflexivity |].
  destruct (IH s') as [q Hq].
  { rewrite Hs, string_length_app. destruct p; [congruence | simpl; lia]. }
  exists (p +:+ q). rewrite Heq, append_assoc, <- Hq. exact Hs.
Qed.

Lemma strip_id (s : string) :
  begins_with_space two three s = false -> strip two three s = s.
Proof.
  intros H. destruct (strip_cases s) as [[_ Heq] | [Hb _]]; [exact Heq | congruence].
Qed.

Lemma begins_app (a b : string) :
  begins_with_space two three a = true -> begins_with_space two three (a +:+ b) = true.
Proof.
  destruct a as [| x [| y [| z a]]]; rewrite ?string_app_cons;
    cbn [begins_with_space]; [discriminate | | | auto].
  - destruct (Ascii.is_space x); [reflexivity | discriminate].
  - destruct (Ascii.is_space x), (two x y); try reflexivity; discriminate.
Qed.

End Strip.

(** What [trim] returns neither begins nor ends with a character that
    [trim] removes, and [trim] leaves it as it is. *)
Lemma trim_trimmed (s : string) :
  leading_space (trim s) = false /\ trailing_space (trim s) = false /\
  trim (trim s) = trim s.
Proof.
  assert (Htrail : trailing_space (trim s) = false).
  { unfold trailing_space, trim, trim_end. rewrite string_rev_involutive.
    apply strip_begins. }
  assert (Hlead : leading_space (trim s) = false).
  { unfold leading_space, trim, trim_end.
    destruct (strip_suffix (fun a b => space2 b a) (fun a b c => space3 c b a)
                (String.rev (trim_start s))) as [p Hp].
    apply (f_equal String.rev) in Hp.
    rewrite string_rev_involutive, string_rev_append in Hp.
    destruct (begins_with_space space2 space3 (String.rev _)) eqn:Hb; [| reflexivity].
    apply (begins_app space2 space3 _ (String.rev p)) in Hb.
    rewrite <- Hp in Hb. unfold trim_start in Hb. rewrite strip_begins in Hb.
    discriminate Hb. }
  split; [exact Hlead |]. split; [exact Htrail |].
  unfold trim at 1. unfold trim_start. rewrite (strip_id _ _ _ Hlead).
  unfold trim_end. rewrite (strip_id _ _ _ Htrail). apply string_rev_involutive.
Qed.

(** ** The values and the names of the alt_names section *)

Lemma san_line_one_line (san : SanEntry) (k : nat) :
  san_one_line san = true -> one_line (san_line san k) = true.
Proof.
  unfold san_one_line, san_line. intros H.
  apply andb_true_iff in H. destruct H as [Ht Hv].
  rewrite !one_line_app, Ht, Hv, one_line_string_of_N. reflexivity.
Qed.

(** The text of the entries, on a list the rendering accepts, and its
    lines when no entry holds a line feed. *)
Lemma sanEntries_lines (l : list SanEntry) :
  Forall (fun san => san_typed san = true) l ->
  Forall (fun san => san_one_line san = true) (List.filter san_valid l) ->
  sanEntries l
  = Normal (join nl (imap (fun k san => san_line san k) (List.filter san_valid l))) /\
  declared (lines_of (join nl (imap (fun k san => san_line san k)
                                    (List.filter san_valid l))))
  = imap (fun k san => san_line san k) (List.filter san_valid l).
Proof.
  intros Htyped Hone. split.
  { unfold sanEntries. rewrite (sanEntries_list_typed l Htyped). reflexivity. }
  destruct (List.filter san_valid l) as [| san kept] eqn:Hkept; [reflexivity |].
  rewrite lines_of_join by discriminate.
  rewrite concat_one_line.
  - apply declared_nonempty. apply List.Forall_forall. intros x Hx.
    apply list_elem_of_In, list_elem_of_lookup in Hx. destruct Hx as [k Hk].
    rewrite list_lookup_imap in Hk.
    destruct ((san :: kept) !! k) as [san' |]; [| discriminate Hk].
    injection Hk as <-. apply san_line_nonempty.
  - apply List.Forall_forall. intros x Hx.
    apply list_elem_of_In, list_elem_of_lookup in Hx. destruct Hx as [k Hk].
    rewrite list_lookup_imap in Hk.
    destruct ((san :: kept) !! k) as [san' |] eqn:Hk'; [| discriminate Hk].
    injection Hk as <-. apply san_line_one_line.
    rewrite List.Forall_forall in Hone. apply Hone.
    apply list_elem_of_In, (list_elem_of_lookup_2 _ k). exact Hk'.
Qed.

(** C2, as amended.  After the entries with an empty or blank value
    are dropped, the entry at position k (from 1) of what remains is
    rendered [type.k = trimmed value]: the positions count all the
    entries together, whatever their types, and a list with N such
    entries gives an array of N elements.  The text written is the
    array joined with line feeds; when no type and no trimmed value
    holds a line feed, it has exactly these N lines. *)
Theorem C2_san_entries_numbered_by_position (l : list SanEntry) :
  Forall (fun san => san_typed san = true) l ->
  exists lines,
    sanEntries_list l = Normal lines /\
    sanEntries l = Normal (join nl lines) /\
    length lines = length (List.filter san_valid l) /\
    (forall k san,
       List.filter san_valid l !! k = Some san ->
       lines !! k =
       Some (to_string (san_type san) +:+ "." +:+
             string_of_N (N.of_nat (k + 1)) +:+ " = " +:+ trim (san_text san))) /\
    (Forall (fun san => san_one_line san = true) (List.filter san_valid l) ->
     declared (lines_of (join nl lines)) = lines).
Proof.
  intros Htyped. eexists. split; [apply (sanEntries_list_typed l Htyped) |].
  split; [unfold sanEntries; rewrite (sanEntries_list_typed l Htyped); reflexivity |].
  split; [apply length_imap |]. split.
  - intros k san Hk. rewrite list_lookup_imap, Hk. reflexivity.
  - intros Hone. exact (proj2 (sanEntries_lines l Htyped Hone)).
Qed.

Lemma C2_san_entries_numbered_by_position_witness :
  sanEntries [Sample.dns; Sample.blank; Padded.blank; Sample.ip]
  = Normal (join nl [ "DNS.1 = broker.local"; "IP.2 = 10.0.0.5" ]) /\
  declared (lines_of (join nl [ "DNS.1 = broker.local"; "IP.2 = 10.0.0.5" ]))
  = [ "DNS.1 = broker.local"; "IP.2 = 10.0.0.5" ].
Proof.
  destruct (C2_san_entries_numbered_by_position
              [Sample.dns; Sample.blank; Padded.blank; Sample.ip])
    as (lines & Hlist & Htext & _ & _ & Hlines); [repeat constructor |].
  injection Hlist as <-. split; [exact Htext |].
  apply Hlines. repeat constructor.
Defined.

(** An entry whose value holds a line feed is written as two lines. *)
Lemma san_value_with_line_feed :
  sanEntries [mkSan (Str "DNS") (Str ("a.example" +:+ nl +:+ "IP.9 = 10.9.9.9"))]
  = Normal ("DNS.1 = a.example" +:+ nl +:+ "IP.9 = 10.9.9.9") /\
  lines_of ("DNS.1 = a.example" +:+ nl +:+ "IP.9 = 10.9.9.9")
  = [ "DNS.1 = a.example"; "IP.9 = 10.9.9.9" ].
Proof. split; reflexivity. Qed.

(** C4, as amended.  The type of an entry is never inspected.  An
    entry whose value is not blank is kept whatever its type is; on a
    list of such entries and of blank ones the rendering raises no
    error, its line carries the text of the type as it was given, and
    the line goes into the alt_names section that is written to the
    configuration. *)
Theorem C4_san_type_is_not_checked (l : list SanEntry) (san : SanEntry) :
  Forall (fun san => san_typed san = true) l ->
  In san l ->
  san_valid san = true ->
  (forall t, san_keep (mkSan t (san_value san)) = Normal true) /\
  exists lines k,
    sanEntries_list l = Normal lines /\
    lines !! k =
    Some (to_string (san_type san) +:+ "." +:+
          string_of_N (N.of_nat (k + 1)) +:+ " = " +:+ trim (san_text san)) /\
    sanSection (SanArray l)
    = Normal (nl +:+ "[ alt_names ]" +:+ nl +:+ join nl lines).
Proof.
  intros Htyped Hin Hvalid. split.
  - intros t. rewrite san_keep_typed.
    + unfold san_valid in *. simpl. rewrite Hvalid. reflexivity.
    + unfold san_typed, san_valid in *. simpl.
      destruct (san_value san); try discriminate. reflexivity.
  - assert (Hin' : In san (List.filter san_valid l)).
    { apply List.filter_In. tauto. }
    assert (Hk : exists k, List.filter san_valid l !! k = Some san).
    { apply list_elem_of_lookup, list_elem_of_In. exact Hin'. }
    destruct Hk as [k Hk]. exists (imap (fun k san => san_line san k)
                                       (List.filter san_valid l)), k.
    split; [apply (sanEntries_list_typed l Htyped) |].
    split; [rewrite list_lookup_imap, Hk; reflexivity |].
    apply sanSection_valid; [exact Htyped |].
    intros Hnone. rewrite Hnone in Hin'. exact Hin'.
Qed.

Lemma C4_san_type_is_not_checked_witness :
  (forall t, san_keep (mkSan t (san_value Sample.uri)) = Normal true) /\
  exists lines k,
    sanEntries_list [Sample.dns; Sample.uri] = Normal lines /\
    lines !! k =
    Some (to_string (san_type Sample.uri) +:+ "." +:+
          string_of_N (N.of_nat (k + 1)) +:+ " = " +:+
          trim (san_text Sample.uri)) /\
    sanSection (SanArray [Sample.dns; Sample.uri])
    = Normal (nl +:+ "[ alt_names ]" +:+ nl +:+ join nl lines).
Proof.
  apply (C4_san_type_is_not_checked [Sample.dns; Sample.uri] Sample.uri).
  - repeat constructor.
  - simpl. tauto.
  - reflexivity.
Defined.

(** X16.  On a list the rendering accepts, the value written for the
    entry at position k of the filtered array is the trimmed value of
    that entry: it is not empty, it neither begins nor ends with a
    white space character or a line terminator, and trimming it again
    changes nothing. *)
Theorem X16_san_values_are_trimmed (l : list SanEntry) :
  Forall (fun san => san_typed san = true) l ->
  exists lines,
    sanEntries_list l = Normal lines /\
    forall k san,
      List.filter san_valid l !! k = Some san ->
      exists v,
        lines !! k = Some (san_key san k +:+ " = " +:+ v) /\
        v = trim (san_text san) /\
        v <> "" /\ leading_space v = false /\ trailing_space v = false /\
        trim v = v.
Proof.
  intros H. eexists. split; [apply (sanEntries_list_typed l H) |].
  intros k san Hk. exists (trim (san_text san)).
  split; [rewrite list_lookup_imap, Hk; unfold san_line, san_key; simpl;
          rewrite !append_assoc; reflexivity |].
  split; [reflexivity |]. split.
  - apply list_elem_of_lookup_2, list_elem_of_In, List.filter_In in Hk.
    destruct Hk as [_ Hvalid]. unfold san_valid, san_text in *.
    destruct (san_value san); try discriminate.
    intros Heq. rewrite Heq in Hvalid. discriminate Hvalid.
  - apply trim_trimmed.
Qed.

Lemma X16_san_values_are_trimmed_witness :
  exists lines,
    sanEntries_list [Padded.dns; Padded.blank; Sample.blank] = Normal lines /\
    forall k san,
      [Padded.dns] !! k = Some san ->
      exists v,
        lines !! k = Some (san_key san k +:+ " = " +:+ v) /\
        v = trim (san_text san) /\
        v <> "" /\ leading_space v = false /\ trailing_space v = false /\
        trim v = v.
Proof.
  apply (X16_san_values_are_trimmed [Padded.dns; Padded.blank; Sample.blank]).
  repeat constructor.
Defined.

(** A value padded with a blank and a no-break space is written
    without them, and a value of such characters only is dropped. *)
Lemma padded_value_is_trimmed :
  sanEntries_list [Padded.dns; Padded.blank] = Normal ["DNS.1 = broker.local"].
Proof. reflexivity. Qed.

Lemma lacks_rev (c : ascii) (s : string) : lacks c (String.rev s) = lacks c s.
Proof.
  induction s as [| a s IH]; [reflexivity |].
  rewrite string_rev_cons, lacks_app, IH. simpl. rewrite andb_true_r. apply andb_comm.
Qed.

(** The name of a line tells its position. *)
Lemma san_key_inj (san san' : SanEntry) (k k' : nat) :
  san_key san k = san_key san' k' -> k = k'.
Proof.
  unfold san_key. intros H.
  apply (f_equal String.rev) in H.
  rewrite !string_rev_append, !append_assoc in H.
  assert (Hp : String.prefix
                 (String.rev (string_of_N (N.of_nat (k + 1))) +:+ String "." "")
                 (String.rev (string_of_N (N.of_nat (k' + 1))) +:+
                  String "." (String.rev (to_string (san_type san')))) = true).
  { change (String "." (String.rev (to_string (san_type san'))))
      with (String.rev "." +:+ String.rev (to_string (san_type san'))).
    rewrite <- H. change (String "." "") with (String.rev ".").
    rewrite <- append_assoc. apply prefix_app. }
  apply lacks_prefix in Hp;
    try (rewrite lacks_rev; apply (proj2 (lacks_string_of_N _))).
  apply (f_equal String.rev) in Hp. rewrite !string_rev_involutive in Hp.
  apply string_of_N_inj in Hp. lia.
Qed.

Lemma before_app (c : ascii) (x rest : string) :
  lacks c x = true -> before c (x +:+ String c rest) = x.
Proof.
  induction x as [| a x IH]; intros H.
  - simpl. rewrite Ascii.eqb_refl. reflexivity.
  - rewrite string_app_cons. simpl in *. apply andb_true_iff in H.
    destruct H as [Ha Hx]. apply negb_true_iff in Ha. rewrite Ha, (IH Hx).
    reflexivity.
Qed.

Lemma lacks_equals_string_of_N (n : N) : lacks "=" (string_of_N n) = true.
Proof.
  unfold string_of_N. generalize (N.to_uint n).
  induction u; simpl; auto.
Qed.

(** The name of the line of an entry whose type holds no equals sign. *)
Lemma san_line_name (san : SanEntry) (k : nat) :
  lacks "=" (to_string (san_type san)) = true ->
  line_name (san_line san k) = san_key san k +:+ " ".
Proof.
  intros H. unfold line_name, san_line, san_key.
  change (" = " +:+ trim (san_text san))
    with (" " +:+ String "=" (" " +:+ trim (san_text san))).
  rewrite <- !append_assoc. apply before_app.
  rewrite !lacks_app, H, lacks_equals_string_of_N. reflexivity.
Qed.

(** X17.  On a list the rendering accepts and in which no type and no
    trimmed value holds a line feed and no type holds an equals sign,
    the text of the entries has one line per kept entry; the line of
    the entry at position k of the filtered array assigns to the name
    made of the text of its type, a full stop and k + 1; and two lines
    never assign to the same name, whatever the types are. *)
Theorem X17_san_names_are_distinct (l : list SanEntry) :
  Forall (fun san => san_typed san = true) l ->
  Forall (fun san => san_one_line san = true) (List.filter san_valid l) ->
  Forall (fun san => lacks "=" (to_string (san_type san)) = true)
         (List.filter san_valid l) ->
  exists text,
    sanEntries l = Normal text /\
    length (declared (lines_of text)) = length (List.filter san_valid l) /\
    (forall k san,
       List.filter san_valid l !! k = Some san ->
       exists line,
         declared (lines_of text) !! k = Some line /\
         line = san_key san k +:+ " = " +:+ trim (san_text san) /\
         line_name line = san_key san k +:+ " ") /\
    (forall k k' line line',
       declared (lines_of text) !! k = Some line ->
       declared (lines_of text) !! k' = Some line' ->
       k <> k' -> line_name line <> line_name line').
Proof.
  intros Htyped Hone Heq.
  destruct (sanEntries_lines l Htyped Hone) as [Htext Hlines].
  eexists. split; [exact Htext |]. rewrite Hlines.
  split; [apply length_imap |].
  assert (Hname : forall k san, List.filter san_valid l !! k = Some san ->
                    line_name (san_line san k) = san_key san k +:+ " ").
  { intros k san Hk. apply san_line_name.
    rewrite List.Forall_forall in Heq. apply Heq.
    apply list_elem_of_In, (list_elem_of_lookup_2 _ k). exact Hk. }
  split.
  - intros k san Hk. exists (san_line san k).
    split; [rewrite list_lookup_imap, Hk; reflexivity |].
    split; [unfold san_line, san_key; rewrite !append_assoc; reflexivity |].
    exact (Hname k san Hk).
  - intros k k' line line' Hk Hk' Hne Hsame.
    rewrite list_lookup_imap in Hk, Hk'.
    destruct (List.filter san_valid l !! k) as [san |] eqn:Hsan; [| discriminate Hk].
    destruct (List.filter san_valid l !! k') as [san' |] eqn:Hsan'; [| discriminate Hk'].
    injection Hk as <-. injection Hk' as <-.
    rewrite (Hname k san Hsan), (Hname k' san' Hsan') in Hsame.
    apply Hne, (san_key_inj san san').
    apply (f_equal String.rev) in Hsame. rewrite !string_rev_append in Hsame.
    apply (inj (String.app _)) in Hsame.
    apply (f_equal String.rev) in Hsame. rewrite !string_rev_involutive in Hsame.
    exact Hsame.
Qed.

Lemma X17_san_names_are_distinct_witness :
  exists text,
    sanEntries [Sample.dns; Sample.blank; Sample.dns] = Normal text /\
    length (declared (lines_of text)) = 2 /\
    (forall k san,
       [Sample.dns; Sample.dns] !! k = Some san ->
       exists line,
         declared (lines_of text) !! k = Some line /\
         line = san_key san k +:+ " = " +:+ trim (san_text san) /\
         line_name line = san_key san k +:+ " ") /\
    (forall k k' line line',
       declared (lines_of text) !! k = Some line ->
       declared (lines_of text) !! k' = Some line' ->
       k <> k' -> line_name line <> line_name line').
Proof.
  apply (X17_san_names_are_distinct [Sample.dns; Sample.blank; Sample.dns]);
    repeat constructor.
Defined.

(** Without the condition on the types two lines can assign to one
    name: a type that holds an equals sign ends the name early. *)
Lemma san_type_with_equals_sign :
  sanEntries [mkSan (Str "DNS.2 = a.example #") (Str "x"); Sample.dns]
  = Normal ("DNS.2 = a.example #.1 = x" +:+ nl +:+ "DNS.2 = broker.local") /\
  line_name "DNS.2 = a.example #.1 = x" = line_name "DNS.2 = broker.local".
Proof. split; reflexivity. Qed.

(** ** How the shell reads a command *)











Lemma all_plain_uint (d : Decimal.uint) :
  Sh.all_plain (NilEmpty.string_of_uint d) = true.
Proof. induction d; simpl; auto. Qed.


(** The text of a number is a plain word. *)
Lemma plain_number (n : safe_integer) : Sh.plain (to_string (Number n)) = true.
Proof.
  simpl. unfold string_of_Z, Sh.plain.
  destruct (integer n) as [| p | p]; simpl; [reflexivity | |].
  - rewrite all_plain_uint, andb_true_r.
    pose proof (DecimalPos.Unsigned.to_uint_nonnil p) as Hnn.
    destruct (Pos.to_uint p); [congruence | ..]; reflexivity.
  - rewrite all_plain_uint. reflexivity.
Qed.





(** ** The lines of the configurations *)


(** One piece of a text may hold line feeds of its own. *)
Lemma lines_of_join_around (pre post : list string) (x : string) :
  Forall (fun x => one_line x = true) pre ->
  Forall (fun x => one_line x = true) post ->
  lines_of (join nl (pre ++ x :: post)) = pre ++ lines_of x ++ post.
Proof.
  intros Hpre Hpost. rewrite lines_of_join by (destruct pre; discriminate).
  rewrite map_app, List.concat_app. simpl.
  rewrite (concat_one_line pre Hpre), (concat_one_line post Hpost). reflexivity.
Qed.

Lemma supplied_one_line (fields : list (string * Js.value)) :
  Forall (fun kv => one_line (to_string (snd kv)) = true) (supplied fields) ->
  forall key v, In (key, v) fields -> truthy v = true -> one_line (to_string v) = true.
Proof.
  intros H key v Hin Hv. rewrite List.Forall_forall in H.
  apply (H (key, v)). apply List.filter_In. split; [exact Hin | exact Hv].
Qed.

Lemma one_line_field (key : string) (v : Js.value) :
  one_line key = true -> one_line (to_string v) = true ->
  one_line (key +:+ to_string v) = true.
Proof. intros Hk Hv. rewrite one_line_app, Hk, Hv. reflexivity. Qed.

Lemma one_line_optional (key : string) (v : Js.value) :
  one_line key = true -> (truthy v = true -> one_line (to_string v) = true) ->
  one_line (optional_line key v) = true.
Proof.
  intros Hk Hv. unfold optional_line. destruct (truthy v); [| reflexivity].
  apply one_line_field; auto.
Qed.

Lemma one_line_san_clause (f : SanField) : one_line (san_clause f) = true.
Proof. unfold san_clause. destruct (san_present f); reflexivity. Qed.





(** ** The subject of a client CSR *)




(** ** The subject of a broker CSR *)

Lemma generate_broker_csr_writes (dirname : string) (b : Req.Body) :
  calls_only (fun ev => match ev with
                        | EvWrite p c =>
                            exists section,
                              sanSection (GenerateBrokerCsr.subjectAltNames b)
                              = Normal section /\
                              c = GenerateBrokerCsr.opensslConfig b section
                        | _ => True
                        end)
             (handler GenerateBrokerCsrRoute dirname b).
Proof.
  unfold calls_only. simpl handler.
  unfold GenerateBrokerCsr.handler, GenerateBrokerCsr.work, GenerateBrokerCsr.cleanup.
  walk; event_goal. eauto.
Qed.

Lemma broker_subject_declared (b : Req.Body) :
  truthy (Req.commonName b) = true ->
  declared (GenerateBrokerCsr.distinguished_name b)
  = map (fun kv => fst kv +:+ to_string (snd kv)) (supplied (broker_subject b)).
Proof.
  intros Hcn.
  unfold declared, supplied, broker_subject, GenerateBrokerCsr.distinguished_name,
    optional_line.
  destruct b; simpl in *. rewrite Hcn.
  destruct (truthy country), (truthy state), (truthy locality),
    (truthy organization), (truthy organizationalUnit), (truthy email);
    reflexivity.
Qed.

(** The lines of the configuration of a broker CSR, whatever the
    alt_names section holds. *)
Lemma broker_config_lines (b : Req.Body) (section : string) :
  truthy (Req.commonName b) = true ->
  Forall (fun kv => one_line (to_string (snd kv)) = true) (supplied (broker_subject b)) ->
  lines_of (GenerateBrokerCsr.opensslConfig b section)
  = [ ""; "[ req ]"; "default_bits       = 2048";
      "distinguished_name = req_distinguished_name";
      "req_extensions     = v3_req"; "prompt             = no";
      ""; "[ req_distinguished_name ]" ]
    ++ GenerateBrokerCsr.distinguished_name b
    ++ [ ""; "[ v3_req ]";
         "keyUsage = critical, digitalSignature, keyEncipherment, keyAgreement";
         "extendedKeyUsage = serverAuth";
         san_clause (san_default (Req.subjectAltNames b)) ]
    ++ lines_of section ++ [ "" ].
Proof.
  intros Hcn Hone. pose proof (supplied_one_line _ Hone) as Hfield.
  unfold GenerateBrokerCsr.opensslConfig.
  transitivity
    (([ ""; "[ req ]"; "default_bits       = 2048";
        "distinguished_name = req_distinguished_name";
        "req_extensions     = v3_req"; "prompt             = no";
        ""; "[ req_distinguished_name ]" ]
      ++ GenerateBrokerCsr.distinguished_name b
      ++ [ ""; "[ v3_req ]";
           "keyUsage = critical, digitalSignature, keyEncipherment, keyAgreement";
           "extendedKeyUsage = serverAuth";
           san_clause (san_default (Req.subjectAltNames b)) ])
     ++ lines_of section ++ [ "" ]); [| rewrite <- !app_assoc; reflexivity].
  rewrite <- lines_of_join_around; [reflexivity | | repeat constructor].
  unfold GenerateBrokerCsr.distinguished_name. cbn [app].
  repeat constructor; try apply one_line_san_clause;
    (apply one_line_field || apply one_line_optional); try reflexivity;
    try intros ?; eapply Hfield; try eassumption; simpl; eauto 10.
Qed.

(** X12.  For a broker CSR request that passes the validation, the
    one file the handler writes is the configuration of the request
    with its alt_names section.  When the supplied identity fields
    hold no line feed, the lines of that configuration that declare
    something are, between [[ req_distinguished_name ]] and
    [[ v3_req ]], exactly one line per supplied, non-empty field among
    Country, State, Locality, Organization, Organizational Unit,
    Common Name and email, in that order; only the Common Name is
    required, and a serial number sent with the request is not
    used. *)
Theorem X12_broker_subject_in_template_order (b : Req.Body) :
  truthy (Req.commonName b) = true ->
  (Forall (fun kv => one_line (to_string (snd kv)) = true)
          (supplied (broker_subject b)) ->
   forall section,
     declared (lines_of (GenerateBrokerCsr.opensslConfig b section))
     = [ "[ req ]"; "default_bits       = 2048";
         "distinguished_name = req_distinguished_name";
         "req_extensions     = v3_req"; "prompt             = no";
         "[ req_distinguished_name ]" ]
       ++ map (fun kv => fst kv +:+ to_string (snd kv)) (supplied (broker_subject b))
       ++ [ "[ v3_req ]";
            "keyUsage = critical, digitalSignature, keyEncipherment, keyAgreement";
            "extendedKeyUsage = serverAuth" ]
       ++ declared (san_clause (san_default (Req.subjectAltNames b))
                    :: lines_of section)) /\
  In ("CN = " +:+ to_string (Req.commonName b))
     (map (fun kv => fst kv +:+ to_string (snd kv)) (supplied (broker_subject b))) /\
  forall w dirname s, exists evs,
    new_events s (snd (run w (handler GenerateBrokerCsrRoute dirname b) s)) evs /\
    forall p c, In (EvWrite p c) evs ->
      exists section',
        sanSection (san_default (Req.subjectAltNames b)) = Normal section' /\
        c = GenerateBrokerCsr.opensslConfig b section'.
Proof.
  intros Hcn. split; [| split].
  - intros Hone section. rewrite (broker_config_lines b section Hcn Hone).
    rewrite !declared_app, (broker_subject_declared b Hcn).
    change (declared [ ""; "[ v3_req ]";
                       "keyUsage = critical, digitalSignature, keyEncipherment, keyAgreement";
                       "extendedKeyUsage = serverAuth";
                       san_clause (san_default (Req.subjectAltNames b)) ])
      with ([ "[ v3_req ]";
              "keyUsage = critical, digitalSignature, keyEncipherment, keyAgreement";
              "extendedKeyUsage = serverAuth" ]
            ++ declared [ san_clause (san_default (Req.subjectAltNames b)) ]).
    change (declared (san_clause (san_default (Req.subjectAltNames b)) :: lines_of section))
      with (declared ([ san_clause (san_default (Req.subjectAltNames b)) ]
                      ++ lines_of section)).
    rewrite declared_app, app_nil_r, <- !app_assoc. reflexivity.
  - apply List.in_map_iff. exists ("CN = ", Req.commonName b).
    split; [reflexivity |]. apply List.filter_In. split; [simpl; tauto | assumption].
  - intros w dirname s.
    destruct (run_calls_only w _ (handler GenerateBrokerCsrRoute dirname b) s
                (generate_broker_csr_writes dirname b)) as (evs & Hevs & HQ).
    exists evs. split; [exact Hevs |].
    intros p c Hin. rewrite List.Forall_forall in HQ. exact (HQ _ Hin).
Qed.

Lemma X12_broker_subject_in_template_order_witness :
  declared (lines_of (GenerateBrokerCsr.opensslConfig Sample.client_full ""))
  = [ "[ req ]"; "default_bits       = 2048";
      "distinguished_name = req_distinguished_name";
      "req_extensions     = v3_req"; "prompt             = no";
      "[ req_distinguished_name ]";
      "C  = US"; "ST = CA"; "L  = SF"; "O  = Acme"; "OU = Devices";
      "CN = device-002"; "emailAddress = ops@acme.example";
      "[ v3_req ]";
      "keyUsage = critical, digitalSignature, keyEncipherment, keyAgreement";
      "extendedKeyUsage = serverAuth" ].
Proof.
  apply (proj1 (X12_broker_subject_in_template_order Sample.client_full eq_refl)).
  repeat constructor.
Defined.

(** ** The extension files and the commands that name them *)

















